(** * enzengDPA: the BLAST, NCBI and Clustal Omega orchestration scripts

    A shallow embedding of [scripts/blast.py], [scripts/ncbi_search.py] and
    [scripts/msa.py].  The scripts are sequential Python code that talks to a
    remote service, the file system and an external executable, so the
    embedding is a state-and-exception monad over an explicit [world]:

    - the remote service is the sequence of responses it gives to the
      successive HTTP requests of the program;
    - the file system is a finite map from paths to file contents;
    - printing, sleeping and each HTTP request are recorded, in order, in a
      trace;
    - a Python exception is the [Raise] result, and a [while] loop is run with
      fuel, [Fuel] being the result of a loop that is still running when the
      fuel is spent. *)

From Stdlib Require Import ZArith String Ascii List Bool Lia.
From Stdlib Require Import DecimalString.
From Stdlib Require Import Floats.SpecFloat.
From stdpp Require Import gmap strings.

Set Warnings "-register-all".

Local Open Scope string_scope.
Local Open Scope Z_scope.

(** ** Python strings *)

Definition nl : string := String (ascii_of_nat 10) EmptyString.

(** [needle in hay] *)
Fixpoint contains (needle hay : string) : bool :=
  String.prefix needle hay ||
  match hay with
  | EmptyString => false
  | String _ rest => contains needle rest
  end.

(** [s.endswith(suffix)] *)
Fixpoint endswith (s suffix : string) : bool :=
  String.eqb s suffix ||
  match s with
  | EmptyString => false
  | String _ rest => endswith rest suffix
  end.

(** [s.split(sep)] for a non-empty separator: the pieces between the
    successive non-overlapping occurrences of [sep], scanned from the left.
    [skip] counts the characters of a separator still to be dropped, [cur] is
    the piece read so far, in reverse. *)
Fixpoint split_aux (sep : string) (skip : nat) (cur : string) (s : string)
  : list string :=
  match s with
  | EmptyString => [String.rev cur]
  | String c rest =>
      match skip with
      | S k => split_aux sep k cur rest
      | O =>
          if String.prefix sep s
          then String.rev cur :: split_aux sep (String.length sep - 1) EmptyString rest
          else split_aux sep O (String c cur) rest
      end
  end.

Definition split (sep s : string) : list string := split_aux sep O EmptyString s.

(** The characters [str.strip()] removes (those below code point 256). *)
Definition is_space (c : ascii) : bool :=
  let n := nat_of_ascii c in
  ((9 <=? n) && (n <=? 13) || (28 <=? n) && (n <=? 32) || (n =? 133) || (n =? 160))%nat.

Fixpoint lstrip (s : string) : string :=
  match s with
  | String c rest => if is_space c then lstrip rest else s
  | EmptyString => EmptyString
  end.

Definition strip (s : string) : string :=
  String.rev (lstrip (String.rev (lstrip s))).

(** [sep.join(l)] *)
Fixpoint join (sep : string) (l : list string) : string :=
  match l with
  | [] => EmptyString
  | [x] => x
  | x :: rest => x ++ sep ++ join sep rest
  end.

(** [str(n)] for an int *)
Definition str_of_Z (z : Z) : string := NilZero.string_of_int (Z.to_int z).
Definition str_of_nat (n : nat) : string := str_of_Z (Z.of_nat n).

(** ** Python values *)

(** [float] is IEEE 754 binary64. *)
Definition prec : Z := 53.
Definition emax : Z := 1024.
Definition float := spec_float.

Inductive pyval :=
| VNone
| VStr (s : string)
| VInt (z : Z)
| VFloat (f : float).

Record exn := Exn { exn_type : string; exn_str : string }.

(** ** Tables: [pandas.DataFrame] *)

Definition dict := list (string * pyval).

Fixpoint dict_get (d : dict) (k : string) : option pyval :=
  match d with
  | [] => None
  | (k', v) :: rest => if String.eqb k' k then Some v else dict_get rest k
  end.

Record DataFrame := { columns : list string; rows : list (list pyval) }.

Definition NaN : pyval := VFloat S754_nan.

Definition mem_str (k : string) (l : list string) : bool :=
  existsb (String.eqb k) l.

(** Column labels in the order in which they first appear. *)
Fixpoint add_keys (seen : list string) (ks : list string) : list string :=
  match ks with
  | [] => seen
  | k :: rest => add_keys (if mem_str k seen then seen else seen ++ [k]) rest
  end.

Definition all_keys (data : list dict) : list string :=
  fold_left (fun seen d => add_keys seen (map fst d)) data [].

(** [pd.DataFrame(data)] for a list of dicts: one row per dict, the columns
    are the keys of the dicts, a missing key is filled with NaN.  A value
    None is kept here as None; pandas from version 3 on stores it as NaN in
    a column it keeps as strings, and what is proved of text cells holds for
    both (see [missing]). *)
Definition pd_DataFrame (data : list dict) : DataFrame :=
  let cols := all_keys data in
  {| columns := cols;
     rows := map (fun d => map (fun k => default NaN (dict_get d k)) cols) data |}.

Definition row_dict (df : DataFrame) (r : list pyval) : dict := combine (columns df) r.

(** [pd.concat(dfs, ignore_index=True)] *)
Definition pd_concat (dfs : list DataFrame) : DataFrame :=
  let cols := fold_left (fun seen df => add_keys seen (columns df)) dfs [] in
  {| columns := cols;
     rows := concat (map (fun df =>
               map (fun r => map (fun k => default NaN (dict_get (row_dict df r) k)) cols)
                   (rows df)) dfs) |}.

(** [df.empty]: some axis has length zero. *)
Definition df_empty (df : DataFrame) : bool :=
  match columns df, rows df with
  | [], _ | _, [] => true
  | _, _ => false
  end.

(** [df.shape] *)
Definition shape (df : DataFrame) : nat * nat :=
  (List.length (rows df), List.length (columns df)).

(** [df.head(n)] for [n >= 0] *)
Definition head (df : DataFrame) (n : Z) : DataFrame :=
  {| columns := columns df; rows := firstn (Z.to_nat n) (rows df) |}.

(** ** Biopython records *)

Record SeqRecord := {
  r_seq : string;
  r_id : string;
  r_name : string;
  r_description : string
}.

(** ** The world *)

Inductive content :=
| Text (s : string)
| Csv (df : DataFrame)
| Fasta (records : list SeqRecord).

(** What the remote end does with one HTTP request: [requests.get] raises, or
    it returns a response whose [raise_for_status] raises or not. *)
Inductive response :=
| NetworkError (e : exn)
| Response (status_error : option exn) (text : string).

Inductive event :=
| EGet (base_url : string) (params : dict)
| ESleep (secs : Z)
| EPrint (line : string).

(** What running an external command does. *)
Inductive completed :=
| ProcFails (e : exn)
| Completed (returncode : Z) (stderr : string) (fs' : gmap string content).

Record world := {
  responses : nat -> response;
  writable : string -> bool;
  subprocess : list string -> gmap string content -> completed;
  random_choices : string;
  fs : gmap string content;
  trace : list event
}.

(** ** The monad *)

Inductive result (A : Type) :=
| Ret (a : A)
| Raise (e : exn)
| Fuel.
Arguments Ret {A} a.
Arguments Raise {A} e.
Arguments Fuel {A}.

Definition M (A : Type) : Type := world -> result A * world.

#[global] Instance M_ret : MRet M := fun A a w => (Ret a, w).
#[global] Instance M_bind : MBind M := fun A B f c w =>
  match c w with
  | (Ret a, w') => f a w'
  | (Raise e, w') => (Raise e, w')
  | (Fuel, w') => (Fuel, w')
  end.

Definition raise {A} (e : exn) : M A := fun w => (Raise e, w).

(** [try: c except Exception as e: h e] *)
Definition try_except {A} (c : M A) (h : exn -> M A) : M A := fun w =>
  match c w with
  | (Raise e, w') => h e w'
  | r => r
  end.

Definition emit (e : event) : M unit := fun w =>
  (Ret tt,
   {| responses := responses w; writable := writable w; subprocess := subprocess w;
      random_choices := random_choices w; fs := fs w; trace := trace w ++ [e] |}).

Definition print (line : string) : M unit := emit (EPrint line).
Definition sleep (secs : Z) : M unit := emit (ESleep secs).

Definition set_fs (fs' : gmap string content) (w : world) : world :=
  {| responses := responses w; writable := writable w; subprocess := subprocess w;
     random_choices := random_choices w; fs := fs'; trace := trace w |}.

(** [with open(path, "w") as f: f.write(c)] *)
Definition write_file (path : string) (c : content) : M unit := fun w =>
  if writable w path
  then (Ret tt, set_fs (<[path := c]> (fs w)) w)
  else (Raise (Exn "OSError" path), w).

(** [requests.get(url)] followed by [raise_for_status()] and [.text], for
    the URL [f"{base_url}?{urlencode(params)}"]: the request is recorded, as
    its base URL and the dict that [urlencode] serialises in insertion
    order, and answered by the next response of the remote end. *)
Definition requests_get_text (base_url : string) (params : dict) : M string := fun w =>
  let w' := {| responses := fun n => responses w (S n); writable := writable w;
               subprocess := subprocess w; random_choices := random_choices w;
               fs := fs w; trace := trace w ++ [EGet base_url params] |} in
  match responses w O with
  | NetworkError e => (Raise e, w')
  | Response (Some e) _ => (Raise e, w')
  | Response None text => (Ret text, w')
  end.

(** [while cond: body], where [body] returns the new loop variables and whether
    it left the loop by [break]. *)
Fixpoint while {S} (fuel : nat) (cond : S -> bool) (body : S -> M (S * bool)) (s : S)
  : M S :=
  if cond s then
    match fuel with
    | O => fun w => (Fuel, w)
    | Datatypes.S fuel' =>
        '(s', broke) ← body s;
        if broke : bool then mret s' else while fuel' cond body s'
    end
  else mret s.

(** * blast.py *)

Definition BASE_URL : string := "https://blast.ncbi.nlm.nih.gov/Blast.cgi".

Record poll_vars := {
  is_ready : bool;
  poll_count : nat;
  last_status : string
}.

Definition export_path (export_folder : string) : string :=
  if negb (endswith export_folder "/") then export_folder ++ "/" else export_folder.

(** The status-poll loop body of [run_blast] (lines 66-109). *)
Definition run_blast_poll (rid : string) (v : poll_vars) : M (poll_vars * bool) :=
  let poll_count := S (poll_count v) in
  let params_get :=
    [("CMD", VStr "Get"); ("RID", VStr rid); ("FORMAT_OBJECT", VStr "SearchInfo")] in
  text_get ← requests_get_text BASE_URL params_get;
  if contains "Status=WAITING" text_get then
    print ("(" ++ str_of_nat poll_count ++ ") BLAST is still running. Waiting 15 seconds...");;
    sleep 15;;
    mret ({| is_ready := is_ready v; poll_count := poll_count; last_status := "WAITING" |}, false)
  else if contains "Status=FAILED" text_get then
    print ("(" ++ str_of_nat poll_count ++ ") BLAST job failed.");;
    mret ({| is_ready := is_ready v; poll_count := poll_count; last_status := "FAILED" |}, true)
  else if contains "Status=UNKNOWN" text_get then
    print ("(" ++ str_of_nat poll_count
           ++ ") BLAST job unknown (possibly expired or invalid RID).");;
    mret ({| is_ready := is_ready v; poll_count := poll_count; last_status := "UNKNOWN" |}, true)
  else if contains "Status=READY" text_get then
    (if contains "ThereAreHits=yes" text_get
     then print ("(" ++ str_of_nat poll_count ++ ") BLAST job is complete, and hits are found!")
     else print ("(" ++ str_of_nat poll_count ++ ") BLAST job is complete, but NO hits found."));;
    mret ({| is_ready := true; poll_count := poll_count; last_status := "READY" |}, true)
  else
    print ("(" ++ str_of_nat poll_count ++ ") Unexpected status. Stopping...");;
    mret ({| is_ready := is_ready v; poll_count := poll_count; last_status := "OTHER" |}, true).

(** The stage of [run_blast] that follows the submission (lines 60-139): poll
    the status of the job [rid], then fetch the result if it is ready. *)
Definition run_blast_poll_and_fetch (fuel : nat) (rid : string)
    (export : bool) (export_folder : string) : M (option string * option string) :=
  v ← while fuel (fun v => negb (is_ready v)) (run_blast_poll rid)
        {| is_ready := false; poll_count := O; last_status := "" |};
  if String.eqb (last_status v) "READY" then
    let params_result :=
      [("CMD", VStr "Get"); ("RID", VStr rid); ("FORMAT_TYPE", VStr "XML")] in
    xml_result ← requests_get_text BASE_URL params_result;
    print ("=== BLAST XML RESULTS ===" ++ nl);;
    (if export then
       write_file (export_path export_folder ++ rid ++ "_results.xml") (Text xml_result);;
       print ("Results written to " ++ rid ++ "_results.xml")
     else
       print ("BLAST Results not exported (Argument 'export' = False). RID: " ++ rid ++ nl));;
    mret (Some rid, Some xml_result)
  else mret (None, None).

Definition params_put (sequence organism database program : string) (word_size : Z)
    (expect_value : float) (matrix gapcosts filter_string : string)
    (composition_stats : Z) : dict :=
  [("CMD", VStr "Put");
   ("QUERY", VStr sequence);
   ("DATABASE", VStr "nr");
   ("PROGRAM", VStr "blastp");
   ("ENTREZ_QUERY", VStr organism);
   ("OUTPUT_TYPE", VStr "XML");
   ("WORD_SIZE", VInt word_size);
   ("EXPECT", VFloat expect_value);
   ("MATRIX", VStr matrix);
   ("GAPCOSTS", VStr gapcosts);
   ("FILTER", VStr filter_string);
   ("COMPOSITION_BASED_STATISTICS", VInt composition_stats)].

(** [run_blast] from its [try] block on (lines 49-145), for parameters whose
    submission URL could be built at line 47; [run_blast_from_url] below is
    the function from its first line. *)
Definition run_blast (fuel : nat) (sequence organism database program : string)
    (word_size : Z) (expect_value : float) (matrix gapcosts filter_string : string)
    (composition_stats : Z) (export : bool) (export_folder : string)
  : M (option string * option string) :=
  try_except
    (text_put ← requests_get_text BASE_URL
                  (params_put sequence organism database program word_size expect_value
                     matrix gapcosts filter_string composition_stats);
     if contains "RID = " text_put then
       let rid := strip (nth 0 (split nl (nth 1 (split "RID = " text_put) "")) "") in
       print ("RID obtained: " ++ rid);;
       run_blast_poll_and_fetch fuel rid export export_folder
     else raise (Exn "Exception" "No RID found in the PUT response. Aborting."))
    (fun error =>
       print ("Error: " ++ exn_str error);;
       mret (None, None)).

(** The status-poll loop body of [get_blast_results] (lines 164-206). *)
Definition get_blast_results_poll (rid : string) (v : poll_vars) : M (poll_vars * bool) :=
  let poll_count := S (poll_count v) in
  let params_get :=
    [("CMD", VStr "Get"); ("RID", VStr rid); ("FORMAT_OBJECT", VStr "SearchInfo")] in
  text_get ← requests_get_text BASE_URL params_get;
  if contains "Status=WAITING" text_get then
    print ("(" ++ str_of_nat poll_count ++ ") BLAST is still running. Waiting 15 seconds...");;
    sleep 15;;
    mret ({| is_ready := is_ready v; poll_count := poll_count; last_status := "WAITING" |}, false)
  else if contains "Status=FAILED" text_get then
    print ("(" ++ str_of_nat poll_count ++ ") BLAST job failed.");;
    mret ({| is_ready := is_ready v; poll_count := poll_count; last_status := "FAILED" |}, true)
  else if contains "Status=UNKNOWN" text_get then
    print ("(" ++ str_of_nat poll_count
           ++ ") BLAST job unknown (possibly expired or invalid RID).");;
    mret ({| is_ready := is_ready v; poll_count := poll_count; last_status := "UNKNOWN" |}, true)
  else if contains "Status=READY" text_get then
    (if contains "ThereAreHits=yes" text_get
     then print ("(" ++ str_of_nat poll_count ++ ") BLAST job is complete, and hits are found!")
     else print ("(" ++ str_of_nat poll_count ++ ") BLAST job is complete, but NO hits found."));;
    mret ({| is_ready := true; poll_count := poll_count; last_status := "READY" |}, true)
  else
    print ("(" ++ str_of_nat poll_count ++ ") Unexpected status. Stopping...");;
    mret ({| is_ready := is_ready v; poll_count := poll_count; last_status := "OTHER" |}, true).

Definition get_blast_results (fuel : nat) (rid : string)
    (export : bool) (export_folder : string) : M (option string * option string) :=
  v ← while fuel (fun v => negb (is_ready v)) (get_blast_results_poll rid)
        {| is_ready := false; poll_count := O; last_status := "" |};
  if String.eqb (last_status v) "READY" then
    let params_result :=
      [("CMD", VStr "Get"); ("RID", VStr rid); ("FORMAT_TYPE", VStr "XML")] in
    xml_result ← requests_get_text BASE_URL params_result;
    print ("=== BLAST XML RESULTS ===" ++ nl);;
    (if export then
       write_file (export_path export_folder ++ rid ++ "_results.xml") (Text xml_result);;
       print ("Results written to " ++ rid ++ "_results.xml")
     else
       print ("BLAST Results not exported (Argument 'export' = False). RID: " ++ rid));;
    mret (Some rid, Some xml_result)
  else mret (None, None).

(** ** XML trees: [xml.etree.ElementTree] *)

Inductive Element := Elem (tag : string) (text : option string) (children : list Element).

Definition tag_of (e : Element) : string := let 'Elem t _ _ := e in t.
Definition text_of (e : Element) : option string := let 'Elem _ t _ := e in t.
Definition children_of (e : Element) : list Element := let 'Elem _ _ c := e in c.

(** All elements below [e], in document order. *)
Fixpoint descendants (e : Element) : list Element :=
  match e with
  | Elem _ _ cs => flat_map (fun c => c :: descendants c) cs
  end.

(** [e.findall('.//tag')] *)
Definition findall_desc (e : Element) (tag : string) : list Element :=
  List.filter (fun c => String.eqb (tag_of c) tag) (descendants e).

(** [e.find('.//tag')] *)
Definition find_desc (e : Element) (tag : string) : option Element :=
  List.find (fun c => String.eqb (tag_of c) tag) (descendants e).

(** [e.find('tag')] *)
Definition find_child (e : Element) (tag : string) : option Element :=
  List.find (fun c => String.eqb (tag_of c) tag) (children_of e).

Definition of_text (t : option string) : pyval :=
  match t with
  | Some s => VStr s
  | None => VNone
  end.

(** [e.text] where [e] is the result of a [find]: an AttributeError on None. *)
Definition dot_text (e : option Element) : M pyval :=
  match e with
  | Some e => mret (of_text (text_of e))
  | None => raise (Exn "AttributeError" "'NoneType' object has no attribute 'text'")
  end.

(** ** Float arithmetic *)

Definition float_of_Z (z : Z) : float := binary_normalize prec emax z 0 false.

(** An int as the numerator or denominator of a division: its exact value. *)
Definition exact_float (z : Z) : float :=
  match z with
  | Z0 => S754_zero false
  | Zpos m => S754_finite false m 0
  | Zneg m => S754_finite true m 0
  end.

(** [a / b] on ints: the exact quotient rounded to the nearest float. *)
Definition int_true_div (a b : Z) : M float :=
  if b =? 0 then raise (Exn "ZeroDivisionError" "division by zero")
  else
    match SFdiv prec emax (exact_float a) (exact_float b) with
    | S754_infinity _ =>
        raise (Exn "OverflowError" "integer division result too large for a float")
    | q => mret q
    end.

(** The integer nearest to [m * 2^e], ties to even. *)
Definition round_half_even (m e : Z) : Z :=
  match e with
  | Zneg k =>
      let d := Z.pow 2 (Zpos k) in
      let q := m / d in
      let r := m mod d in
      match 2 * r ?= d with
      | Lt => q
      | Gt => q + 1
      | Eq => if Z.even q then q else q + 1
      end
  | _ => m * Z.pow 2 e
  end.

(** [round(x, 2)] on a float: the float nearest to the decimal with two
    places nearest to [x], ties to even; a float that is not finite is
    returned as it is. *)
Definition round2 (x : float) : float :=
  match x with
  | S754_finite s m e =>
      match round_half_even (Zpos m * 100) e with
      | Zpos n => SFdiv prec emax (S754_finite s n 0) (S754_finite false 100 0)
      | _ => S754_zero s
      end
  | _ => x
  end.

(** [round(int(identity) / int(align_len) * 100, 2)] *)
Definition percent_identity (identity align_len : Z) : M float :=
  q ← int_true_div identity align_len;
  mret (round2 (SFmul prec emax q (float_of_Z 100))).

(** [for x in l: body x], collecting what the bodies return. *)
Fixpoint for_each {A B} (l : list A) (body : A -> M B) : M (list B) :=
  match l with
  | [] => mret []
  | x :: rest =>
      y ← body x;
      ys ← for_each rest body;
      mret (y :: ys)
  end.

Definition hit_columns : list string :=
  ["Hit_num"; "Hit_id"; "Hit_def"; "Hit_accession"; "Hit_len"; "Hsp_num"; "Bit_score";
   "Score"; "E_value"; "Query_from"; "Query_to"; "Hit_from"; "Hit_to"; "Identity";
   "Positive"; "Gaps"; "Align_len"; "Percent_identity"; "Query_seq"; "Hit_seq"; "Midline"].

Section Builtins.

(** The library functions the scripts call on text: the XML parser and the
    conversions between strings and numbers. *)
Variable ET_fromstring : string -> exn + Element.
Variable py_int : pyval -> exn + Z.
Variable py_float : pyval -> exn + float.
Variable str_of_float : float -> string.

Definition call {A} (r : exn + A) : M A :=
  match r with
  | inl e => raise e
  | inr a => mret a
  end.

(** The body of the loop over the hits of [convert_blast_xml_to_pd]: the row
    of a hit, or nothing for a hit without an alignment. *)
Definition convert_hit (hit : Element) : M (option dict) :=
  hit_num ← dot_text (find_child hit "Hit_num");
  hit_id ← dot_text (find_child hit "Hit_id");
  hit_def ← dot_text (find_child hit "Hit_def");
  hit_accession ← dot_text (find_child hit "Hit_accession");
  hit_len ← dot_text (find_child hit "Hit_len");
  match find_desc hit "Hsp" with
  | Some hsp =>
      hsp_num ← dot_text (find_child hsp "Hsp_num");
      bit_score ← dot_text (find_child hsp "Hsp_bit-score");
      score ← dot_text (find_child hsp "Hsp_score");
      evalue ← dot_text (find_child hsp "Hsp_evalue");
      query_from ← dot_text (find_child hsp "Hsp_query-from");
      query_to ← dot_text (find_child hsp "Hsp_query-to");
      hit_from ← dot_text (find_child hsp "Hsp_hit-from");
      hit_to ← dot_text (find_child hsp "Hsp_hit-to");
      identity ← dot_text (find_child hsp "Hsp_identity");
      positive ← dot_text (find_child hsp "Hsp_positive");
      gaps ← dot_text (find_child hsp "Hsp_gaps");
      align_len ← dot_text (find_child hsp "Hsp_align-len");
      qseq ← dot_text (find_child hsp "Hsp_qseq");
      hseq ← dot_text (find_child hsp "Hsp_hseq");
      midline ← dot_text (find_child hsp "Hsp_midline");
      v_bit_score ← call (py_float bit_score);
      v_score ← call (py_int score);
      v_query_from ← call (py_int query_from);
      v_query_to ← call (py_int query_to);
      v_hit_from ← call (py_int hit_from);
      v_hit_to ← call (py_int hit_to);
      v_identity ← call (py_int identity);
      v_positive ← call (py_int positive);
      v_gaps ← call (py_int gaps);
      v_align_len ← call (py_int align_len);
      n ← call (py_int identity);
      d ← call (py_int align_len);
      v_percent ← percent_identity n d;
      mret (Some
        [("Hit_num", hit_num);
         ("Hit_id", hit_id);
         ("Hit_def", hit_def);
         ("Hit_accession", hit_accession);
         ("Hit_len", hit_len);
         ("Hsp_num", hsp_num);
         ("Bit_score", VFloat v_bit_score);
         ("Score", VInt v_score);
         ("E_value", evalue);
         ("Query_from", VInt v_query_from);
         ("Query_to", VInt v_query_to);
         ("Hit_from", VInt v_hit_from);
         ("Hit_to", VInt v_hit_to);
         ("Identity", VInt v_identity);
         ("Positive", VInt v_positive);
         ("Gaps", VInt v_gaps);
         ("Align_len", VInt v_align_len);
         ("Percent_identity", VFloat v_percent);
         ("Query_seq", qseq);
         ("Hit_seq", hseq);
         ("Midline", midline)])
  | None => mret None
  end.

Definition convert_blast_xml_to_pd (xml_results rid : string)
    (export : bool) (export_folder : string) : M DataFrame :=
  root ← call (ET_fromstring xml_results);
  found ← for_each (findall_desc root "Hit") convert_hit;
  let data := omap (fun r : option dict => r) found in
  let df := pd_DataFrame data in
  print ("DataFrame shape: (" ++ str_of_nat (fst (shape df)) ++ ", "
         ++ str_of_nat (snd (shape df)) ++ ")");;
  (if export then
     write_file (export_path export_folder ++ rid ++ "_results.csv") (Csv df);;
     print ("DataFrame saved to " ++ rid ++ "_results.csv")
   else mret tt);;
  mret df.

(** * ncbi_search.py *)

(** A bound of a slice [l[start:stop]], brought into [0 .. len(l)]. *)
Definition slice_bound (len : nat) (i : Z) : nat :=
  if i <? 0 then Z.to_nat (Z.max (i + Z.of_nat len) 0)
  else Z.to_nat (Z.min i (Z.of_nat len)).

(** [l[start:stop]] *)
Definition slice {A} (l : list A) (start stop : Z) : list A :=
  let a := slice_bound (List.length l) start in
  let b := slice_bound (List.length l) stop in
  firstn (b - a) (skipn a l).

(** [range(a, b)] *)
Definition range (a b : Z) : list Z :=
  map (fun i => a + Z.of_nat i) (seq O (Z.to_nat (b - a))).

Definition EFETCH_URL : string := "https://eutils.ncbi.nlm.nih.gov/entrez/eutils/efetch.fcgi".
Definition BATCH_SIZE : Z := 25.

Definition get_text (element : Element) (tag_name : string) : pyval :=
  match find_child element tag_name with
  | Some el => of_text (text_of el)
  | None => VNone
  end.

Definition fetch_protein_info_batch (id_list : list string) (batch_number : Z)
  : M DataFrame :=
  let start_index := (batch_number - 1) * BATCH_SIZE in
  let end_index := batch_number * BATCH_SIZE in
  let batch_ids := slice id_list start_index end_index in
  let id_string := join "," batch_ids in
  let params := [("db", VStr "protein"); ("id", VStr id_string); ("retmode", VStr "xml")] in
  xml_content ← requests_get_text EFETCH_URL params;
  root ← call (ET_fromstring xml_content);
  let data :=
    map (fun gbseq =>
           [("definition", get_text gbseq "GBSeq_definition");
            ("primary_accession", get_text gbseq "GBSeq_primary-accession");
            ("organism", get_text gbseq "GBSeq_organism");
            ("locus", get_text gbseq "GBSeq_locus");
            ("length", get_text gbseq "GBSeq_length");
            ("moltype", get_text gbseq "GBSeq_moltype");
            ("topology", get_text gbseq "GBSeq_topology");
            ("division", get_text gbseq "GBSeq_division");
            ("update_date", get_text gbseq "GBSeq_update-date");
            ("create_date", get_text gbseq "GBSeq_create-date");
            ("accession_version", get_text gbseq "GBSeq_accession-version");
            ("source", get_text gbseq "GBSeq_source");
            ("taxonomy", get_text gbseq "GBSeq_taxonomy")])
        (findall_desc root "GBSeq") in
  mret (pd_DataFrame data).

(** The loop of [fetch_all_protein_data] over the batch numbers. *)
Fixpoint fetch_batches (id_list : list string) (end_batch : Z) (batches : list Z)
    (all_data : list DataFrame) : M (list DataFrame) :=
  match batches with
  | [] => mret all_data
  | batch_num :: rest =>
      print ("Fetching batch " ++ str_of_Z batch_num ++ " of " ++ str_of_Z end_batch ++ "...");;
      all_data' ← try_except
        (batch_df ← fetch_protein_info_batch id_list batch_num;
         sleep 1;;
         mret ((all_data ++ [batch_df])%list))
        (fun e =>
           print ("Error fetching batch " ++ str_of_Z batch_num ++ ": " ++ exn_str e);;
           mret all_data);
      fetch_batches id_list end_batch rest all_data'
  end.

Definition fetch_all_protein_data (id_list : list string) (start_batch : Z)
    (end_batch : option Z) : M DataFrame :=
  let end_batch :=
    match end_batch with
    | None => (Z.of_nat (List.length id_list) + 24) / 25
    | Some b => b
    end in
  all_data ← fetch_batches id_list end_batch (range start_batch (end_batch + 1)) [];
  match all_data with
  | [] => mret {| columns := []; rows := [] |}
  | _ => mret (pd_concat all_data)
  end.

(** * msa.py *)

(** [row[key]] for a row of [df] *)
Definition cell (df : DataFrame) (row : list pyval) (key : string) : M pyval :=
  match dict_get (row_dict df row) key with
  | Some v => mret v
  | None => raise (Exn "KeyError" key)
  end.

(** [Seq(data)] *)
Definition Seq (data : pyval) : M string :=
  match data with
  | VStr s => mret s
  | VNone => raise (Exn "ValueError" "length must not be None if data is None")
  | _ => raise (Exn "TypeError"
                  "data should be a string, bytes, bytearray, Seq, or MutableSeq object")
  end.

(** [str(v)], as an f-string formats a value. *)
Definition py_str (v : pyval) : string :=
  match v with
  | VNone => "None"
  | VStr s => s
  | VInt z => str_of_Z z
  | VFloat f => str_of_float f
  end.

(** [SeqRecord(seq, id=id, name=id, description=description)] *)
Definition make_SeqRecord (seq : string) (id : pyval) (description : string) : M SeqRecord :=
  match id with
  | VStr s => mret {| r_seq := seq; r_id := s; r_name := s; r_description := description |}
  | VNone => raise (Exn "TypeError" "name argument should be a string")
  | _ => raise (Exn "TypeError" "id argument should be a string")
  end.

(** The body of the loop over the top hits (lines 44-56). *)
Definition hit_record (df : DataFrame) (row : list pyval) : M SeqRecord :=
  hit_id ← cell df row "Hit_id";
  accession_parts ←
    match hit_id with
    | VStr s => mret (split "|" s)
    | _ => raise (Exn "AttributeError" "object has no attribute 'split'")
    end;
  seq_id ← (if (1 <? Z.of_nat (List.length accession_parts))
            then mret (VStr (nth 1 accession_parts ""))
            else cell df row "Hit_accession");
  seq_def ← cell df row "Hit_def";
  hit_seq ← cell df row "Hit_seq";
  s ← Seq hit_seq;
  make_SeqRecord s seq_id (py_str seq_id ++ " | " ++ py_str seq_def).

Definition os_path_exists (path : string) : M bool := fun w =>
  (Ret (bool_decide (is_Some (fs w !! path))), w).

Definition os_remove (path : string) : M unit := fun w =>
  match fs w !! path with
  | Some _ => (Ret tt, set_fs (delete path (fs w)) w)
  | None => (Raise (Exn "FileNotFoundError" path), w)
  end.

(** [subprocess.run(cmd, capture_output=True, text=True)]: the return code
    and the standard error of the command. *)
Definition subprocess_run (cmd : list string) : M (Z * string) := fun w =>
  match subprocess w cmd (fs w) with
  | ProcFails e => (Raise e, w)
  | Completed returncode stderr fs' => (Ret (returncode, stderr), set_fs fs' w)
  end.

(** [AlignIO.read(path, "fasta")]: the records of the file as one alignment,
    which must have a record and rows of one length. *)
Definition AlignIO_read (path : string) : M (list SeqRecord) := fun w =>
  match fs w !! path with
  | None => (Raise (Exn "FileNotFoundError" path), w)
  | Some (Fasta (r :: rs)) =>
      if forallb (fun x => (String.length (r_seq x) =? String.length (r_seq r))%nat) rs
      then (Ret (r :: rs), w)
      else (Raise (Exn "ValueError" "Sequences must all be the same length"), w)
  | Some _ => (Raise (Exn "ValueError" "No records found in handle"), w)
  end.

Definition random_suffix : M string := fun w => (Ret (random_choices w), w).

(** The alignment step of [perform_msa] (lines 74-103): run Clustal Omega on
    the temporary input file and read the temporary output file back. *)
Definition run_clustalo (temp_fasta_in temp_aln_out : string)
  : M (option (list SeqRecord)) :=
  try_except
    (let cmd := ["clustalo"; "-i"; temp_fasta_in; "-o"; temp_aln_out;
                 "--outfmt=fasta"; "--verbose"; "--auto"] in
     print ("Running: " ++ join " " cmd);;
     '(returncode, stderr) ← subprocess_run cmd;
     if negb (returncode =? 0) then
       print ("Clustal Omega failed with error: " ++ stderr);;
       mret None
     else
       print "Alignment completed successfully";;
       alignment ← AlignIO_read temp_aln_out;
       os_remove temp_fasta_in;;
       os_remove temp_aln_out;;
       print "Temporary files cleaned up.";;
       mret (Some alignment))
    (fun e =>
       print ("Error during alignment: " ++ exn_str e);;
       in_exists ← os_path_exists temp_fasta_in;
       (if in_exists : bool then os_remove temp_fasta_in else mret tt);;
       out_exists ← os_path_exists temp_aln_out;
       (if out_exists : bool then os_remove temp_aln_out else mret tt);;
       mret None).

Definition perform_msa (df : DataFrame) (query_id : string) (num_sequences : Z)
  : M (option (list SeqRecord)) :=
  if df_empty df then
    print "Error: Input DataFrame is empty.";;
    mret None
  else
    query_seq_str ← cell df (nth 0 (rows df) []) "Query_seq";
    query_seq ← Seq query_seq_str;
    let query_record :=
      {| r_seq := query_seq; r_id := query_id; r_name := query_id;
         r_description := "Query Sequence: " ++ query_id |} in
    let num_hits := Z.max 0 (num_sequences - 1) in
    let top_hits := head df num_hits in
    sequences ← for_each (rows top_hits) (hit_record top_hits);
    if (List.length sequences <? 2)%nat then
      print ("Error: Only " ++ str_of_nat (List.length sequences)
             ++ " sequence(s) available. Need at least two sequences for alignment.");;
      mret None
    else
      print ("Prepared " ++ str_of_nat (List.length sequences) ++ " sequences (1 Query + "
             ++ str_of_nat (List.length sequences - 1) ++ " Top Hits) for alignment.");;
      suffix ← random_suffix;
      let temp_fasta_in := "temp_input_" ++ suffix ++ ".fasta" in
      let temp_aln_out := "temp_output_" ++ suffix ++ ".fasta" in
      write_file temp_fasta_in (Fasta sequences);;
      print ("Sequences saved to temporary file: " ++ temp_fasta_in);;
      run_clustalo temp_fasta_in temp_aln_out.

End Builtins.

(** * Observing a run *)

(** The HTTP requests of a trace, in order. *)
Definition requests_of (t : list event) : list (string * dict) :=
  flat_map (fun e => match e with EGet u p => [(u, p)] | _ => [] end) t.

(** The sleeps of a trace, in order. *)
Definition sleeps_of (t : list event) : list Z :=
  flat_map (fun e => match e with ESleep n => [n] | _ => [] end) t.

(** The printed lines of a trace, in order. *)
Definition prints_of (t : list event) : list string :=
  flat_map (fun e => match e with EPrint l => [l] | _ => [] end) t.

(** A trace without what it prints. *)
Definition silent (t : list event) : list event :=
  List.filter (fun e => match e with EPrint _ => false | _ => true end) t.

(** The remote end answers the next status request with [Status=WAITING]. *)
Definition is_waiting (r : response) : bool :=
  match r with
  | Response None text => contains "Status=WAITING" text
  | _ => false
  end.

Definition status_request (rid : string) : string * dict :=
  (BASE_URL, [("CMD", VStr "Get"); ("RID", VStr rid); ("FORMAT_OBJECT", VStr "SearchInfo")]).

Definition result_request (rid : string) : string * dict :=
  (BASE_URL, [("CMD", VStr "Get"); ("RID", VStr rid); ("FORMAT_TYPE", VStr "XML")]).

Definition poll_start : poll_vars :=
  {| is_ready := false; poll_count := O; last_status := "" |}.

(** The status loop of [run_blast] (lines 61-109). *)
Definition run_blast_poll_loop (fuel : nat) (rid : string) : M poll_vars :=
  while fuel (fun v => negb (is_ready v)) (run_blast_poll rid) poll_start.

(** The loop variables and the world after one iteration that met
    [Status=WAITING]. *)
Definition waiting_round (rid : string) (vw : poll_vars * world) : poll_vars * world :=
  let '(v, w) := vw in
  ({| is_ready := is_ready v; poll_count := S (poll_count v); last_status := "WAITING" |},
   {| responses := fun n => responses w (S n); writable := writable w;
      subprocess := subprocess w; random_choices := random_choices w; fs := fs w;
      trace := ((trace w ++ [EGet (fst (status_request rid)) (snd (status_request rid))])
                ++ [EPrint ("(" ++ str_of_nat (S (poll_count v))
                            ++ ") BLAST is still running. Waiting 15 seconds...")])
               ++ [ESleep 15] |}).

Fixpoint waiting_rounds (rid : string) (k : nat) (vw : poll_vars * world)
  : poll_vars * world :=
  match k with
  | O => vw
  | S k' => waiting_rounds rid k' (waiting_round rid vw)
  end.

(** The marker the status checks of the poll loop find in a response that
    has no [Status=WAITING]. *)
Definition terminal_status (text : string) : string :=
  if contains "Status=FAILED" text then "FAILED"
  else if contains "Status=UNKNOWN" text then "UNKNOWN"
  else if contains "Status=READY" text then "READY"
  else "OTHER".

(** Two worlds that differ at most in what was printed. *)
Definition same_but_prints (w1 w2 : world) : Prop :=
  responses w1 = responses w2 /\ writable w1 = writable w2 /\
  subprocess w1 = subprocess w2 /\ random_choices w1 = random_choices w2 /\
  fs w1 = fs w2 /\ silent (trace w1) = silent (trace w2).

(** * Example worlds *)

(** A world whose remote end gives the responses [rs], then drops the
    connection; every path can be written and the file system is empty. *)
Definition world_of (rs : list response)
    (proc : list string -> gmap string content -> completed) : world :=
  {| responses := fun n => nth n rs (NetworkError (Exn "ConnectionError" "connection lost"));
     writable := fun _ => true;
     subprocess := proc;
     random_choices := "a1B2c3D4e5F6";
     fs := ∅;
     trace := [] |}.

(** An external command that fails with exit code 1 and touches no file. *)
Definition proc_fails : list string -> gmap string content -> completed :=
  fun _ files => Completed 1 "clustalo: fatal error" files.

(** A remote end that answers [Status=WAITING] for ever. *)
Definition always_waiting : world :=
  {| responses := fun _ => Response None "Status=WAITING";
     writable := fun _ => true;
     subprocess := proc_fails;
     random_choices := "a1B2c3D4e5F6";
     fs := ∅;
     trace := [] |}.

(** Two polls answered [Status=WAITING], then a ready job without hits and
    its result page. *)
Definition waits_then_ready : world :=
  world_of [Response None "Status=WAITING"; Response None "Status=WAITING";
            Response None "Status=READY ThereAreHits=no";
            Response None "<BlastOutput></BlastOutput>"] proc_fails.

(** A submission answered by a page without a job handle. *)
Definition no_handle : world :=
  world_of [Response None "<html>Service unavailable</html>"] proc_fails.

(** The parameters of the request for one page of identifiers. *)
Definition efetch_params (id_string : string) : dict :=
  [("db", VStr "protein"); ("id", VStr id_string); ("retmode", VStr "xml")].

(** The request of the page number [b] of the identifiers [ids]. *)
Definition page_request (ids : list string) (b : Z) : string * dict :=
  (EFETCH_URL, efetch_params (join "," (slice ids ((b - 1) * BATCH_SIZE) (b * BATCH_SIZE)))).

(** The command line of the aligner. *)
Definition clustalo_cmd (temp_fasta_in temp_aln_out : string) : list string :=
  ["clustalo"; "-i"; temp_fasta_in; "-o"; temp_aln_out;
   "--outfmt=fasta"; "--verbose"; "--auto"].

(** * Example inputs *)

(** An XML parser that reads every payload as a search result without hits. *)
Definition parse_no_hits (xml : string) : exn + Element :=
  inr (Elem "BlastOutput" None
         [Elem "BlastOutput_program" (Some "blastp") [];
          Elem "BlastOutput_iterations" None
            [Elem "Iteration" None [Elem "Iteration_hits" None []]]]).

Definition no_int (v : pyval) : exn + Z := inl (Exn "ValueError" "invalid literal for int()").
Definition no_float (v : pyval) : exn + float := inl (Exn "ValueError" "could not convert").
Definition nan_str (f : float) : string := "nan".

(** A row of a hit table. *)
Definition example_hit (num hit_id accession def qseq hseq : string) : dict :=
  [("Hit_num", VStr num);
   ("Hit_id", VStr hit_id);
   ("Hit_def", VStr def);
   ("Hit_accession", VStr accession);
   ("Hit_len", VStr "8");
   ("Hsp_num", VStr "1");
   ("Bit_score", VFloat (float_of_Z 20));
   ("Score", VInt 40);
   ("E_value", VStr "1e-05");
   ("Query_from", VInt 1);
   ("Query_to", VInt 8);
   ("Hit_from", VInt 1);
   ("Hit_to", VInt 8);
   ("Identity", VInt 6);
   ("Positive", VInt 7);
   ("Gaps", VInt 0);
   ("Align_len", VInt 8);
   ("Percent_identity", VFloat (float_of_Z 75));
   ("Query_seq", VStr qseq);
   ("Hit_seq", VStr hseq);
   ("Midline", VStr "MSSLKG+R")].

(** A hit table with two rows. *)
Definition two_hits : DataFrame :=
  pd_DataFrame
    [example_hit "1" "ref|WP_000001.1|" "WP_000001" "dipicolinate synthase A"
       "MSSLKGKR" "MSSLKGQR";
     example_hit "2" "ref|WP_000002.1|" "WP_000002" "dipicolinate synthase B"
       "MSSLKGKR" "MSALKGKR"].

(** A hit table with one row. *)
Definition one_hit : DataFrame :=
  pd_DataFrame
    [example_hit "1" "ref|WP_000001.1|" "WP_000001" "dipicolinate synthase A"
       "MSSLKGKR" "MSSLKGQR"].

(** The records of the two hits of [two_hits], and the record of a query. *)
Definition first_hit_record : SeqRecord :=
  {| r_seq := "MSSLKGQR"; r_id := "WP_000001.1"; r_name := "WP_000001.1";
     r_description := "WP_000001.1 | dipicolinate synthase A" |}.

Definition second_hit_record : SeqRecord :=
  {| r_seq := "MSALKGKR"; r_id := "WP_000002.1"; r_name := "WP_000002.1";
     r_description := "WP_000002.1 | dipicolinate synthase B" |}.

Definition query_record_of (query_id query_seq : string) : SeqRecord :=
  {| r_seq := query_seq; r_id := query_id; r_name := query_id;
     r_description := "Query Sequence: " ++ query_id |}.

(** An aligner that succeeds and writes the records of its input file, as
    they are, to its output file. *)
Definition proc_copies (cmd : list string) (files : gmap string content) : completed :=
  match cmd with
  | [_; _; input; _; output; _; _; _] =>
      match files !! input with
      | Some c => Completed 0 "" (<[output := c]> files)
      | None => Completed 1 "clustalo: cannot open input" files
      end
  | _ => Completed 1 "clustalo: bad command line" files
  end.

(** Thirty identifiers. *)
Definition thirty_ids : list string :=
  map (fun i => "ID" ++ str_of_nat i) (seq 1 30).

(** A payload with one hit, of identity 45 over an alignment of length 90. *)
Definition leaf (tag text : string) : Element := Elem tag (Some text) [].

Definition one_hit_payload : Element :=
  Elem "BlastOutput" None
    [Elem "BlastOutput_iterations" None
       [Elem "Iteration" None
          [Elem "Iteration_hits" None
             [Elem "Hit" None
                [leaf "Hit_num" "1";
                 leaf "Hit_id" "ref|WP_000001.1|";
                 leaf "Hit_def" "dipicolinate synthase A";
                 leaf "Hit_accession" "WP_000001";
                 leaf "Hit_len" "200";
                 Elem "Hit_hsps" None
                   [Elem "Hsp" None
                      [leaf "Hsp_num" "1";
                       leaf "Hsp_bit-score" "85";
                       leaf "Hsp_score" "210";
                       leaf "Hsp_evalue" "1e-20";
                       leaf "Hsp_query-from" "1";
                       leaf "Hsp_query-to" "90";
                       leaf "Hsp_hit-from" "3";
                       leaf "Hsp_hit-to" "92";
                       leaf "Hsp_identity" "45";
                       leaf "Hsp_positive" "60";
                       leaf "Hsp_gaps" "0";
                       leaf "Hsp_align-len" "90";
                       leaf "Hsp_qseq" "MSSLKGKR";
                       leaf "Hsp_hseq" "MSSLKGQR";
                       leaf "Hsp_midline" "MSSLKG+R"]]]]]]].

Definition parse_one_hit (xml : string) : exn + Element := inr one_hit_payload.

(** [int(s)] and [float(s)] on the strings of decimal digits. *)
Fixpoint digits_value (s : string) (acc : Z) : option Z :=
  match s with
  | EmptyString => Some acc
  | String c rest =>
      let n := Z.of_nat (nat_of_ascii c) in
      if (48 <=? n) && (n <=? 57) then digits_value rest (10 * acc + (n - 48)) else None
  end.

Definition digits_int (v : pyval) : exn + Z :=
  match v with
  | VStr (String c rest) =>
      match digits_value (String c rest) 0 with
      | Some z => inr z
      | None => inl (Exn "ValueError" "invalid literal for int() with base 10")
      end
  | VStr EmptyString => inl (Exn "ValueError" "invalid literal for int() with base 10")
  | _ => inl (Exn "TypeError" "int() argument must be a string or a real number")
  end.

Definition digits_float (v : pyval) : exn + float :=
  match digits_int v with
  | inr z => inr (float_of_Z z)
  | inl e => inl e
  end.

(** * More of the scripts *)

Definition ESEARCH_URL : string :=
  "https://eutils.ncbi.nlm.nih.gov/entrez/eutils/esearch.fcgi".

(** [s.replace(old, new)] for one-character [old] and [new] *)
Fixpoint replace_char (old new : ascii) (s : string) : string :=
  match s with
  | EmptyString => EmptyString
  | String c rest =>
      String (if Ascii.eqb c old then new else c) (replace_char old new rest)
  end.

Section MoreBuiltins.

Variable ET_fromstring : string -> exn + Element.
Variable py_int : pyval -> exn + Z.
Variable str_of_float : float -> string.

(** ncbi_search.py, lines 11-35 *)
Definition search_ncbi_proteins (query : string) : M (string * Z) :=
  let params :=
    [("db", VStr "protein"); ("term", VStr query); ("retmode", VStr "xml");
     ("retmax", VInt 100000)] in
  xml_result ← requests_get_text ESEARCH_URL params;
  root ← call (ET_fromstring xml_result);
  count ← dot_text (find_child root "Count");
  print ("Total entries found: " ++ py_str str_of_float count);;
  n ← call (py_int count);
  let num_batches := (n + 24) / 25 in
  print ("Total available pages: " ++ str_of_Z num_batches);;
  print "(25 entries per page)";;
  mret (xml_result, num_batches).

(** ncbi_search.py, lines 96-116 *)
Definition fetch_single_protein_info (protein_id : string) (export : bool)
    (export_folder : string) : M string :=
  let params :=
    [("db", VStr "protein"); ("id", VStr protein_id); ("retmode", VStr "xml")] in
  text ← requests_get_text EFETCH_URL params;
  (if export then
     write_file (export_path export_folder ++ replace_char "." "_" protein_id
                 ++ "_result.xml") (Text text)
   else mret tt);;
  mret text.

End MoreBuiltins.

(** ** Notions the properties are stated with *)

(** The row [fetch_protein_info_batch] makes of one [GBSeq] element. *)
Definition gbseq_row (gbseq : Element) : dict :=
  [("definition", get_text gbseq "GBSeq_definition");
   ("primary_accession", get_text gbseq "GBSeq_primary-accession");
   ("organism", get_text gbseq "GBSeq_organism");
   ("locus", get_text gbseq "GBSeq_locus");
   ("length", get_text gbseq "GBSeq_length");
   ("moltype", get_text gbseq "GBSeq_moltype");
   ("topology", get_text gbseq "GBSeq_topology");
   ("division", get_text gbseq "GBSeq_division");
   ("update_date", get_text gbseq "GBSeq_update-date");
   ("create_date", get_text gbseq "GBSeq_create-date");
   ("accession_version", get_text gbseq "GBSeq_accession-version");
   ("source", get_text gbseq "GBSeq_source");
   ("taxonomy", get_text gbseq "GBSeq_taxonomy")].

(** The table of a page, when the remote end answers the page request with
    [r]: none when the request fails or the answer is not XML. *)
Definition page_table (ET_fromstring : string -> exn + Element) (r : response)
  : option DataFrame :=
  match r with
  | Response None text =>
      match ET_fromstring text with
      | inr root => Some (pd_DataFrame (map gbseq_row (findall_desc root "GBSeq")))
      | inl _ => None
      end
  | _ => None
  end.

(** The identifiers of the page number [b]. *)
Definition page_ids (ids : list string) (b : Z) : list string :=
  slice ids ((b - 1) * BATCH_SIZE) (b * BATCH_SIZE).

(** A world with another external command. *)
Definition with_subprocess (proc : list string -> gmap string content -> completed)
    (w : world) : world :=
  {| responses := responses w; writable := writable w; subprocess := proc;
     random_choices := random_choices w; fs := fs w; trace := trace w |}.


(** The text of the child [tag] of an element, as a cell. *)
Definition child_text (e : Element) (tag : string) : option pyval :=
  match find_child e tag with
  | Some c => Some (of_text (text_of c))
  | None => None
  end.

(** A cell without a value.  pandas keeps the None of a dict as None in a
    column of objects and stores it as NaN in a column it keeps as strings
    (the default from pandas 3 on); the two are not told apart here. *)
Definition missing (v : pyval) : Prop := v = VNone \/ v = NaN.

(** The cell [key] of [row] is the text [t] of an element: the string, or a
    missing value when the element has no text. *)
Definition cell_of_text (row : dict) (key : string) (t : option string) : Prop :=
  match t with
  | Some s => dict_get row key = Some (VStr s)
  | None => exists v, dict_get row key = Some v /\ missing v
  end.


(** The cell [key] of [row] is the text of the child [tag] of [e], and a
    missing value when [e] has no such child. *)
Definition optional_text_cell (row : dict) (key : string) (e : Element) (tag : string)
  : Prop :=
  match find_child e tag with
  | Some el => cell_of_text row key (text_of el)
  | None => exists v, dict_get row key = Some v /\ missing v
  end.

(** The job handle [run_blast] reads off a submission page (line 57). *)
Definition handle_of (text_put : string) : string :=
  strip (nth 0 (split nl (nth 1 (split "RID = " text_put) "")) "").

Definition hit_fields : list string :=
  ["Hit_num"; "Hit_id"; "Hit_def"; "Hit_accession"; "Hit_len"].

Definition hsp_fields : list string :=
  ["Hsp_num"; "Hsp_bit-score"; "Hsp_score"; "Hsp_evalue"; "Hsp_query-from";
   "Hsp_query-to"; "Hsp_hit-from"; "Hsp_hit-to"; "Hsp_identity"; "Hsp_positive";
   "Hsp_gaps"; "Hsp_align-len"; "Hsp_qseq"; "Hsp_hseq"; "Hsp_midline"].

(** A search result that counts 30 entries. *)
Definition count_payload : Element :=
  Elem "eSearchResult" None [leaf "Count" "30"; leaf "RetMax" "30"; Elem "IdList" None []].

Definition parse_count (xml : string) : exn + Element := inr count_payload.

(** A page of two protein records, the second without an organism. *)
Definition two_records_payload : Element :=
  Elem "GBSet" None
    [Elem "GBSeq" None
       [leaf "GBSeq_locus" "SPY12701"; leaf "GBSeq_length" "200";
        leaf "GBSeq_definition" "dipicolinate synthase subunit A";
        leaf "GBSeq_organism" "Bacillus subtilis"];
     Elem "GBSeq" None
       [leaf "GBSeq_locus" "WP_000001"; leaf "GBSeq_length" "198"]].

Definition parse_two_records (xml : string) : exn + Element := inr two_records_payload.

Definition gbseq_columns : list string :=
  ["definition"; "primary_accession"; "organism"; "locus"; "length"; "moltype";
   "topology"; "division"; "update_date"; "create_date"; "accession_version";
   "source"; "taxonomy"].

(** A remote end that answers every request with the same page. *)
Definition always_answers (text : string) : world :=
  {| responses := fun _ => Response None text;
     writable := fun _ => true;
     subprocess := proc_fails;
     random_choices := "a1B2c3D4e5F6";
     fs := ∅;
     trace := [] |}.

(** A computation that never runs out of fuel. *)
Definition no_fuel {A} (c : M A) : Prop := forall w, fst (c w) <> Fuel.

(** A computation that looks at nothing and changes nothing. *)
Definition pure {A} (c : M A) : Prop := exists r, forall w, c w = (r, w).

(** The line [convert_blast_xml_to_pd] prints about its table. *)
Definition shape_line (df : DataFrame) : string :=
  "DataFrame shape: (" ++ str_of_nat (List.length (rows df)) ++ ", "
  ++ str_of_nat (List.length (columns df)) ++ ")".

Definition saved_line (rid : string) : string := "DataFrame saved to " ++ rid ++ "_results.csv".

Definition csv_path (export_folder rid : string) : string :=
  export_path export_folder ++ rid ++ "_results.csv".

(** The world after [run_blast] has sent its submission and printed the job
    handle [rid]. *)
Definition after_submission (params : dict) (rid : string) (w : world) : world :=
  {| responses := fun n => responses w (S n); writable := writable w;
     subprocess := subprocess w; random_choices := random_choices w; fs := fs w;
     trace := (trace w ++ [EGet BASE_URL params]) ++ [EPrint ("RID obtained: " ++ rid)] |}.

Section SubmissionUrl.

(** [urlencode(params)]: the query string, or the exception of a value that
    cannot be encoded (a [str] with a lone surrogate raises
    UnicodeEncodeError). *)
Variable urlencode : dict -> exn + string.

(** blast.py, lines 12-145, from the first line: the submission URL is built
    at line 47, before the [try] of line 49, so that an exception of
    [urlencode] there is not caught; [run_blast] above is the function from
    line 49 on, for a submission URL that could be built.  (The URLs built
    inside the [try] encode only literals and the job handle, which is read
    off a response text.) *)
Definition run_blast_from_url (fuel : nat) (sequence organism database program : string)
    (word_size : Z) (expect_value : float) (matrix gapcosts filter_string : string)
    (composition_stats : Z) (export : bool) (export_folder : string)
  : M (option string * option string) :=
  _ ← call (urlencode (params_put sequence organism database program word_size
                         expect_value matrix gapcosts filter_string composition_stats));
  run_blast fuel sequence organism database program word_size expect_value matrix
    gapcosts filter_string composition_stats export export_folder.

End SubmissionUrl.

(** The file [run_blast] and [get_blast_results] export the payload to. *)
Definition xml_path (export_folder rid : string) : string :=
  export_path export_folder ++ rid ++ "_results.xml".

(** The remote end fails the next request with the exception [e]. *)
Definition fails_with (r : response) (e : exn) : Prop :=
  r = NetworkError e \/ exists text, r = Response (Some e) text.

(** An aligner that exits with code 0 and writes nothing. *)
Definition proc_silent : list string -> gmap string content -> completed :=
  fun _ files => Completed 0 "" files.

(** All records of an alignment have one length. *)
Definition same_lengths (a : list SeqRecord) : bool :=
  match a with
  | [] => false
  | r :: rs =>
      forallb (fun x => (String.length (r_seq x) =? String.length (r_seq r))%nat) rs
  end.

(** A payload whose only hit has no [Hit_def]. *)
Definition hit_without_def : Element :=
  Elem "Hit" None
    [leaf "Hit_num" "1";
     leaf "Hit_id" "ref|WP_000001.1|";
     leaf "Hit_accession" "WP_000001";
     leaf "Hit_len" "200"].

Definition hit_without_def_payload : Element :=
  Elem "BlastOutput" None
    [Elem "BlastOutput_iterations" None
       [Elem "Iteration" None [Elem "Iteration_hits" None [hit_without_def]]]].

Definition parse_hit_without_def (xml : string) : exn + Element :=
  inr hit_without_def_payload.

(** A submission page with a job handle. *)
Definition submission_page : string :=
  "<!--QBlastInfoBegin" ++ nl ++ "    RID = ABC123XYZ  " ++ nl ++ "    RTOE = 25" ++ nl
  ++ "QBlastInfoEnd-->".

(** A submission, one poll answered [Status=WAITING], a ready job and its
    result page. *)
Definition submitted_then_ready : world :=
  world_of [Response None submission_page; Response None "Status=WAITING";
            Response None "Status=READY ThereAreHits=yes";
            Response None "<BlastOutput></BlastOutput>"] proc_fails.

(** A submission and one poll answered [Status=WAITING], then the connection
    is lost. *)
Definition submitted_then_drops : world :=
  world_of [Response None submission_page; Response None "Status=WAITING"] proc_fails.

(** One poll answered [Status=WAITING], then the connection is lost. *)
Definition waits_then_drops : world :=
  world_of [Response None "Status=WAITING"] proc_fails.

(** A world whose file system holds the input file of the aligner [proc]. *)
Definition with_input_file (proc : list string -> gmap string content -> completed)
  : world :=
  set_fs (<["temp_input_a1B2c3D4e5F6.fasta" := Fasta [first_hit_record; second_hit_record]]> ∅)
    (world_of [] proc).

(** ** blast.py: the export to FASTA *)

(** [open(path, "w")]: the file is created, or emptied when it is there. *)
Definition open_w (path : string) : M unit := fun w =>
  if writable w path
  then (Ret tt, set_fs (<[path := Text ""]> (fs w)) w)
  else (Raise (Exn "OSError" path), w).

(** The text of the file [path]. *)
Definition text_at (files : gmap string content) (path : string) : string :=
  match files !! path with
  | Some (Text t) => t
  | _ => ""
  end.

(** [f.write(s)] on the file opened at [path]; what is written is in the
    file when the [with] block is left, by its end or by an exception. *)
Definition file_write (path s : string) : M unit := fun w =>
  (Ret tt, set_fs (<[path := Text (text_at (fs w) path ++ s)]> (fs w)) w).

(** [df[key]]: the column must be there. *)
Definition column (df : DataFrame) (key : string) : M unit :=
  if mem_str key (columns df) then mret tt else raise (Exn "KeyError" key).

(** [str(e)] for the [KeyError] of a missing column: the [repr] of its name,
    which for the column names of this program is the name between single
    quotes. *)
Definition key_error_str (e : exn) : string := "'" ++ exn_str e ++ "'".

Section ExportFasta.

Variable str_of_float : float -> string.

(** The text of the object that [df['Query_seq'].iloc(0)] returns.  Called
    with an argument, [iloc] does not look a value up: it returns an indexer
    for the axis 0, and an f-string formats it as Python formats an object
    without [__str__], by its type and its address. *)
Variable iloc_str : string.

(** blast.py, lines 332-366 *)
Definition export_blast_results_to_fasta (rid query_id : string) (df : DataFrame)
    (export_folder : string) : M unit :=
  try_except
    (let output_filename := export_path export_folder ++ rid ++ "_blast.fasta" in
     open_w output_filename;;
     column df "Query_seq";;
     file_write output_filename (">" ++ query_id ++ nl);;
     file_write output_filename (iloc_str ++ nl);;
     for_each (rows df)
       (fun row =>
          title ← cell df row "Hit_def";
          sequence ← cell df row "Hit_seq";
          file_write output_filename (">" ++ py_str str_of_float title ++ nl);;
          file_write output_filename (py_str str_of_float sequence ++ nl));;
     print ("BLAST results successfully exported to " ++ output_filename);;
     print ("Total sequences exported: " ++ str_of_nat (List.length (rows df))))
    (fun e =>
       if String.eqb (exn_type e) "KeyError"
       then print ("Error: Missing required column in DataFrame: " ++ key_error_str e)
       else print ("Error exporting BLAST results: " ++ exn_str e)).

End ExportFasta.

(** The file [export_blast_results_to_fasta] writes. *)
Definition fasta_path (export_folder rid : string) : string :=
  export_path export_folder ++ rid ++ "_blast.fasta".

(** The FASTA entries of a list of titles and sequences, two lines each. *)
Fixpoint fasta_entries (entries : list (string * string)) : string :=
  match entries with
  | [] => ""
  | (title, sequence) :: rest =>
      ">" ++ title ++ nl ++ sequence ++ nl ++ fasta_entries rest
  end.

(** A computation that always ends, changes no file but [path], sends no
    request and does not sleep. *)
Definition writes_only {A} (path : string) (c : M A) : Prop :=
  forall w,
    fst (c w) <> Fuel /\
    (forall p, p <> path -> fs (snd (c w)) !! p = fs w !! p) /\
    silent (trace (snd (c w))) = silent (trace w).

(** The file [fetch_single_protein_info] exports to. *)
Definition protein_path (export_folder protein_id : string) : string :=
  export_path export_folder ++ replace_char "." "_" protein_id ++ "_result.xml".

(** A hit table without the column [Query_seq]. *)
Definition no_query_column : DataFrame :=
  {| columns := ["Hit_def"; "Hit_seq"];
     rows := [[VStr "dipicolinate synthase A"; VStr "MSSLKGQR"]] |}.

(** The two lines [export_blast_results_to_fasta] prints after an export. *)
Definition exported_line (export_folder rid : string) : string :=
  "BLAST results successfully exported to " ++ fasta_path export_folder rid.

Definition total_line (n : nat) : string :=
  "Total sequences exported: " ++ str_of_nat n.

(** The text Python gives for an indexer object. *)
Definition example_iloc_str : string :=
  "<pandas.core.indexing._iLocIndexer object at 0x7f3a5c1d2e50>".

(** ** The percent identity as a number *)





(** * Properties *)

(** ** Traces *)

Lemma requests_of_app (t u : list event) :
  requests_of (t ++ u) = (requests_of t ++ requests_of u)%list.
Proof. unfold requests_of. apply flat_map_app. Qed.

Lemma sleeps_of_app (t u : list event) :
  sleeps_of (t ++ u) = (sleeps_of t ++ sleeps_of u)%list.
Proof. unfold sleeps_of. apply flat_map_app. Qed.

Lemma silent_app (t u : list event) : silent (t ++ u) = (silent t ++ silent u)%list.
Proof. unfold silent. apply List.filter_app. Qed.

Ltac trace_simpl :=
  rewrite ?requests_of_app, ?sleeps_of_app, ?silent_app;
  cbn [requests_of sleeps_of silent flat_map List.filter List.app];
  rewrite ?app_nil_r.

(** ** The status loop *)

Lemma poll_waiting (rid : string) (v : poll_vars) (w : world) :
  is_waiting (responses w O) = true ->
  run_blast_poll rid v w =
    (Ret (fst (waiting_round rid (v, w)), false), snd (waiting_round rid (v, w))).
Proof.
  intros Hw. unfold run_blast_poll, mbind, M_bind, requests_get_text.
  unfold is_waiting in Hw.
  destruct (responses w O) as [e | [e |] text]; try discriminate.
  rewrite Hw. reflexivity.
Qed.

Lemma responses_waiting_rounds (rid : string) (k : nat) :
  forall vw i,
    responses (snd (waiting_rounds rid k vw)) i = responses (snd vw) (k + i)%nat.
Proof.
  induction k as [| k IH]; intros [v w] i; [reflexivity |].
  cbn [waiting_rounds]. rewrite IH. cbn. f_equal; lia.
Qed.

Lemma is_ready_waiting_rounds (rid : string) (k : nat) :
  forall vw, is_ready (fst (waiting_rounds rid k vw)) = is_ready (fst vw).
Proof.
  induction k as [| k IH]; intros [v w]; [reflexivity |].
  cbn [waiting_rounds]. now rewrite IH.
Qed.

Lemma requests_waiting_rounds (rid : string) (k : nat) :
  forall vw,
    requests_of (trace (snd (waiting_rounds rid k vw))) =
    (requests_of (trace (snd vw)) ++ repeat (status_request rid) k)%list.
Proof.
  induction k as [| k IH]; intros [v w].
  - cbn. now rewrite app_nil_r.
  - cbn [waiting_rounds]. rewrite IH. cbn [waiting_round snd trace].
    trace_simpl. rewrite <- app_assoc. reflexivity.
Qed.

Lemma sleeps_waiting_rounds (rid : string) (k : nat) :
  forall vw,
    sleeps_of (trace (snd (waiting_rounds rid k vw))) =
    (sleeps_of (trace (snd vw)) ++ repeat 15 k)%list.
Proof.
  induction k as [| k IH]; intros [v w].
  - cbn. now rewrite app_nil_r.
  - cbn [waiting_rounds]. rewrite IH. cbn [waiting_round snd trace].
    trace_simpl. rewrite <- app_assoc. reflexivity.
Qed.

Lemma while_unfold {S} (fuel : nat) (cond : S -> bool) (body : S -> M (S * bool)) (s : S) :
  while (Datatypes.S fuel) cond body s =
  if cond s then
    '(s', broke) ← body s;
    if broke : bool then mret s' else while fuel cond body s'
  else mret s.
Proof. reflexivity. Qed.

Lemma loop_waiting (rid : string) (k : nat) :
  forall fuel v w,
    is_ready v = false ->
    (forall i, (i < k)%nat -> is_waiting (responses w i) = true) ->
    while (k + fuel) (fun v => negb (is_ready v)) (run_blast_poll rid) v w =
    while fuel (fun v => negb (is_ready v)) (run_blast_poll rid)
      (fst (waiting_rounds rid k (v, w))) (snd (waiting_rounds rid k (v, w))).
Proof.
  induction k as [| k IH]; intros fuel v w Hv Hw; [reflexivity |].
  change (Datatypes.S k + fuel)%nat with (Datatypes.S (k + fuel)).
  rewrite while_unfold, Hv. cbn [negb].
  unfold mbind at 1. unfold M_bind at 1.
  rewrite poll_waiting by (apply Hw; lia).
  cbn [waiting_rounds waiting_round fst snd].
  apply IH; [exact Hv |].
  intros i Hi. apply (Hw (Datatypes.S i)). lia.
Qed.

Lemma frame_waiting_rounds (rid : string) (k : nat) :
  forall vw,
    fs (snd (waiting_rounds rid k vw)) = fs (snd vw) /\
    writable (snd (waiting_rounds rid k vw)) = writable (snd vw).
Proof.
  induction k as [| k IH]; intros [v w]; [now split |].
  cbn [waiting_rounds]. destruct (IH (waiting_round rid (v, w))) as [-> ->]. now split.
Qed.

(** What one iteration does at a response that is not [Status=WAITING]: it
    leaves the loop, by [break] or by an exception, without sleeping. *)
Lemma poll_not_waiting (rid : string) (v : poll_vars) (w : world) :
  is_waiting (responses w O) = false ->
  exists r w',
    run_blast_poll rid v w = (r, w') /\
    requests_of (trace w') = (requests_of (trace w) ++ [status_request rid])%list /\
    sleeps_of (trace w') = sleeps_of (trace w) /\
    (forall i, responses w' i = responses w (S i)) /\
    fs w' = fs w /\ writable w' = writable w /\
    match responses w O with
    | NetworkError e | Response (Some e) _ => r = Raise e
    | Response None text =>
        exists v', r = Ret (v', true) /\ last_status v' = terminal_status text
    end.
Proof.
  intros Hw.
  unfold run_blast_poll, mbind, M_bind, requests_get_text, terminal_status.
  unfold is_waiting in Hw.
  destruct (responses w O) as [e | [e |] text].
  - eexists _, _. split; [reflexivity |]. cbn [trace responses fs writable].
    trace_simpl. repeat split; congruence.
  - eexists _, _. split; [reflexivity |]. cbn [trace responses fs writable].
    trace_simpl. repeat split; congruence.
  - rewrite Hw.
    destruct (contains "Status=FAILED" text);
      [| destruct (contains "Status=UNKNOWN" text);
         [| destruct (contains "Status=READY" text);
            [ destruct (contains "ThereAreHits=yes" text) |]]];
      (eexists _, _; split; [reflexivity |]; cbn [trace responses fs writable];
       trace_simpl; repeat split; try congruence; eexists; split; reflexivity).
Qed.

(** The loop run up to and including its first response that is not
    [Status=WAITING], the response number [k]. *)
Lemma loop_until (rid : string) (k fuel : nat) (v : poll_vars) (w : world) :
  is_ready v = false ->
  (forall i, (i < k)%nat -> is_waiting (responses w i) = true) ->
  is_waiting (responses w k) = false ->
  (k < fuel)%nat ->
  exists r w',
    while fuel (fun v => negb (is_ready v)) (run_blast_poll rid) v w = (r, w') /\
    requests_of (trace w') =
      (requests_of (trace w) ++ repeat (status_request rid) (S k))%list /\
    sleeps_of (trace w') = (sleeps_of (trace w) ++ repeat 15 k)%list /\
    (forall i, responses w' i = responses w (S k + i)%nat) /\
    fs w' = fs w /\ writable w' = writable w /\
    match responses w k with
    | NetworkError e | Response (Some e) _ => r = Raise e
    | Response None text =>
        exists v', r = Ret v' /\ last_status v' = terminal_status text
    end.
Proof.
  intros Hv Hw Hk Hfuel.
  replace fuel with (k + S (fuel - S k))%nat by lia.
  rewrite loop_waiting by assumption.
  pose proof (responses_waiting_rounds rid k (v, w)) as Hresp.
  pose proof (requests_waiting_rounds rid k (v, w)) as Hreq.
  pose proof (sleeps_waiting_rounds rid k (v, w)) as Hsl.
  pose proof (is_ready_waiting_rounds rid k (v, w)) as Hrd.
  destruct (frame_waiting_rounds rid k (v, w)) as [Hfs Hwr].
  destruct (waiting_rounds rid k (v, w)) as [vk wk]. cbn [fst snd] in *.
  assert (Hk0 : responses wk O = responses w k)
    by (rewrite Hresp; f_equal; lia).
  destruct (poll_not_waiting rid vk wk) as (r & w' & Hrun & Hreq' & Hsl' & Hresp' & Hfs' & Hwr' & Hres).
  { now rewrite Hk0. }
  rewrite while_unfold, Hrd, Hv. cbn [negb].
  unfold mbind at 1. unfold M_bind at 1. rewrite Hrun.
  rewrite Hk0 in Hres.
  assert (Hreqs : requests_of (trace w') =
                  (requests_of (trace w) ++ repeat (status_request rid) (S k))%list).
  { rewrite Hreq', Hreq, <- app_assoc. f_equal.
    change [status_request rid] with (repeat (status_request rid) 1).
    rewrite <- repeat_app. f_equal. lia. }
  assert (Hresps : forall i, responses w' i = responses w (S k + i)%nat).
  { intros i. rewrite Hresp', Hresp. f_equal. lia. }
  destruct (responses w k) as [e | [e |] text].
  - subst r. eexists _, _. split; [reflexivity |].
    repeat split; try congruence.
  - subst r. eexists _, _. split; [reflexivity |].
    repeat split; try congruence.
  - destruct Hres as (v' & -> & Hst). eexists _, _. split; [reflexivity |].
    repeat split; try congruence. now exists v'.
Qed.

(** The loop never ends on a remote end that always answers
    [Status=WAITING]. *)
Lemma loop_forever (rid : string) (fuel : nat) (v : poll_vars) (w : world) :
  is_ready v = false ->
  (forall i, is_waiting (responses w i) = true) ->
  exists w',
    while fuel (fun v => negb (is_ready v)) (run_blast_poll rid) v w = (Fuel, w') /\
    requests_of (trace w') =
      (requests_of (trace w) ++ repeat (status_request rid) fuel)%list /\
    sleeps_of (trace w') = (sleeps_of (trace w) ++ repeat 15 fuel)%list.
Proof.
  intros Hv Hw.
  pose proof (loop_waiting rid fuel O v w Hv (fun i _ => Hw i)) as Hloop.
  rewrite Nat.add_0_r in Hloop. rewrite Hloop.
  pose proof (requests_waiting_rounds rid fuel (v, w)) as Hreq.
  pose proof (sleeps_waiting_rounds rid fuel (v, w)) as Hsl.
  pose proof (is_ready_waiting_rounds rid fuel (v, w)) as Hrd.
  destruct (waiting_rounds rid fuel (v, w)) as [vk wk]. cbn [fst snd] in *.
  exists wk. cbn [while]. rewrite Hrd, Hv. cbn [negb]. auto.
Qed.

(** ** The two poll-and-fetch flows *)

Lemma poll_bodies_agree (rid : string) : get_blast_results_poll rid = run_blast_poll rid.
Proof. reflexivity. Qed.

Lemma requests_of_silent (t : list event) : requests_of (silent t) = requests_of t.
Proof.
  unfold requests_of, sleeps_of, silent.
  induction t as [| [u p | n | l] t IH]; cbn; [reflexivity | | |]; now rewrite ?IH.
Qed.

Lemma sleeps_of_silent (t : list event) : sleeps_of (silent t) = sleeps_of t.
Proof.
  unfold requests_of, sleeps_of, silent.
  induction t as [| [u p | n | l] t IH]; cbn; [reflexivity | | |]; now rewrite ?IH.
Qed.

(** The stage of [run_blast] after the submission and [get_blast_results] do
    the same, up to one printed line. *)
Lemma flows_agree (fuel : nat) (rid : string) (export : bool) (export_folder : string)
    (w : world) :
  fst (run_blast_poll_and_fetch fuel rid export export_folder w) =
  fst (get_blast_results fuel rid export export_folder w) /\
  same_but_prints (snd (run_blast_poll_and_fetch fuel rid export export_folder w))
                  (snd (get_blast_results fuel rid export export_folder w)).
Proof.
  unfold run_blast_poll_and_fetch, get_blast_results, same_but_prints.
  change (get_blast_results_poll rid) with (run_blast_poll rid). unfold mbind, M_bind.
  destruct (while fuel _ (run_blast_poll rid) _ w) as [[v | e |] w']; cbn [fst snd];
    try (repeat split; reflexivity).
  destruct (last_status v =? "READY")%string; [| repeat split; reflexivity].
  unfold requests_get_text.
  destruct (responses w' O) as [e | [e |] text]; cbn [fst snd];
    try (repeat split; reflexivity).
  unfold print, emit, write_file, mret, M_ret, set_fs.
  destruct export; simpl;
    [match goal with |- context [writable w' ?p] => destruct (writable w' p) end |];
    simpl; repeat split; trace_simpl; reflexivity.
Qed.

(** What the stage after the submission does when the response number [k] is
    the first one that is not [Status=WAITING]. *)
Lemma poll_and_fetch_until (rid : string) (export : bool) (export_folder : string)
    (k fuel : nat) (w : world) :
  (forall i, (i < k)%nat -> is_waiting (responses w i) = true) ->
  is_waiting (responses w k) = false ->
  (k < fuel)%nat ->
  exists r w',
    run_blast_poll_and_fetch fuel rid export export_folder w = (r, w') /\
    match responses w k with
    | NetworkError e | Response (Some e) _ =>
        r = Raise e /\
        requests_of (trace w') =
          (requests_of (trace w) ++ repeat (status_request rid) (S k))%list
    | Response None text =>
        if (terminal_status text =? "READY")%string then
          requests_of (trace w') =
            (requests_of (trace w) ++ repeat (status_request rid) (S k)
               ++ [result_request rid])%list /\
          match responses w (S k) with
          | NetworkError e | Response (Some e) _ => r = Raise e
          | Response None payload =>
              let path := export_path export_folder ++ rid ++ "_results.xml" in
              if export && negb (writable w path)
              then r = Raise (Exn "OSError" path)
              else r = Ret (Some rid, Some payload)
          end
        else
          r = Ret (None, None) /\
          requests_of (trace w') =
            (requests_of (trace w) ++ repeat (status_request rid) (S k))%list
    end.
Proof.
  intros Hw Hk Hfuel.
  destruct (loop_until rid k fuel poll_start w eq_refl Hw Hk Hfuel)
    as (r0 & w0 & Hrun & Hreq & _ & Hresp & _ & Hwr & Hres).
  unfold run_blast_poll_and_fetch. unfold mbind at 1. unfold M_bind at 1.
  change (while fuel _ (run_blast_poll rid) _ w)
    with (while fuel (fun v => negb (is_ready v)) (run_blast_poll rid) poll_start w).
  rewrite Hrun.
  destruct (responses w k) as [e | [e |] text].
  - subst r0. eexists _, _. split; [reflexivity | now split].
  - subst r0. eexists _, _. split; [reflexivity | now split].
  - destruct Hres as (v' & -> & ->).
    destruct (terminal_status text =? "READY")%string;
      [| eexists _, _; split; [reflexivity | now split]].
    unfold mbind, M_bind, requests_get_text.
    pose proof (Hresp O) as H0. rewrite Nat.add_0_r in H0. rewrite H0.
    destruct (responses w (S k)) as [e | [e |] payload].
    + eexists _, _. split; [reflexivity |]. cbn [trace]. trace_simpl.
      rewrite Hreq, <- app_assoc. now split.
    + eexists _, _. split; [reflexivity |]. cbn [trace]. trace_simpl.
      rewrite Hreq, <- app_assoc. now split.
    + unfold print, emit, write_file, mret, M_ret, set_fs.
      destruct export; simpl; [rewrite Hwr |].
      * destruct (writable w _); simpl;
          (eexists _, _; split; [reflexivity |]; cbn [trace]; trace_simpl;
           rewrite Hreq, <- app_assoc; now split).
      * eexists _, _; split; [reflexivity |]; cbn [trace]; trace_simpl.
        rewrite Hreq, <- app_assoc; now split.
Qed.

(** * blast.py: the claims *)

(** What [params_put] does with each input of [run_blast]: eight of them are
    the values of their parameters, the database and the program are not
    looked at. *)
Lemma params_put_values (sequence organism database program : string) (word_size : Z)
    (expect_value : float) (matrix gapcosts filter_string : string)
    (composition_stats : Z) :
  let p := params_put sequence organism database program word_size expect_value
             matrix gapcosts filter_string composition_stats in
  dict_get p "QUERY" = Some (VStr sequence) /\
  dict_get p "ENTREZ_QUERY" = Some (VStr organism) /\
  dict_get p "WORD_SIZE" = Some (VInt word_size) /\
  dict_get p "EXPECT" = Some (VFloat expect_value) /\
  dict_get p "MATRIX" = Some (VStr matrix) /\
  dict_get p "GAPCOSTS" = Some (VStr gapcosts) /\
  dict_get p "FILTER" = Some (VStr filter_string) /\
  dict_get p "COMPOSITION_BASED_STATISTICS" = Some (VInt composition_stats) /\
  dict_get p "DATABASE" = Some (VStr "nr") /\
  dict_get p "PROGRAM" = Some (VStr "blastp").
Proof. repeat split. Qed.

(** C2, at the input of the script's own entry point with another program:
    the submission request of [run_blast] carries the database "nr" and the
    program "blastp", not the ["nr_cluster_seq"] and ["blastn"] of the caller. *)
Theorem run_blast_drops_database_and_program :
  let w' := snd (run_blast 10 "msslkgkrigfgltgshctyeavf" "Bacillus[Organism]"
                   "nr_cluster_seq" "blastn" 6 (float_of_Z 10) "BLOSUM62" "11 1" "L" 2
                   false "files/" no_handle) in
  exists params,
    requests_of (trace w') = [(BASE_URL, params)] /\
    dict_get params "QUERY" = Some (VStr "msslkgkrigfgltgshctyeavf") /\
    dict_get params "DATABASE" = Some (VStr "nr") /\
    dict_get params "DATABASE" <> Some (VStr "nr_cluster_seq") /\
    dict_get params "PROGRAM" = Some (VStr "blastp") /\
    dict_get params "PROGRAM" <> Some (VStr "blastn").
Proof.
  eexists. split; [vm_compute; reflexivity |].
  repeat split; try reflexivity; discriminate.
Qed.

(** C4, as the code has it: on a submission response without the marker
    ['RID = '], [run_blast] raises inside its own [try], its handler prints
    the error, and the caller gets the pair (None, None); no status request
    is sent. *)
Theorem run_blast_missing_rid (fuel : nat) (sequence organism database program : string)
    (word_size : Z) (expect_value : float) (matrix gapcosts filter_string : string)
    (composition_stats : Z) (export : bool) (export_folder : string)
    (w : world) (text : string) :
  responses w O = Response None text ->
  contains "RID = " text = false ->
  exists w',
    run_blast fuel sequence organism database program word_size expect_value matrix
      gapcosts filter_string composition_stats export export_folder w
    = (Ret (None, None), w') /\
    trace w' =
      (trace w ++
       [EGet BASE_URL (params_put sequence organism database program word_size
                         expect_value matrix gapcosts filter_string composition_stats);
        EPrint "Error: No RID found in the PUT response. Aborting."])%list /\
    fs w' = fs w.
Proof.
  intros Hresp Hrid.
  unfold run_blast, try_except, mbind, M_bind, requests_get_text.
  rewrite Hresp, Hrid. eexists. split; [reflexivity |].
  cbn [trace fs]. rewrite <- app_assoc. now split.
Qed.

Lemma run_blast_missing_rid_witness :
  exists w',
    run_blast 10 "msslkgk" "Bacillus[Organism]" "nr" "blastp" 6 (float_of_Z 10)
      "BLOSUM62" "11 1" "L" 2 false "files/" no_handle
    = (Ret (None, None), w') /\
    trace w' =
      (trace no_handle ++
       [EGet BASE_URL (params_put "msslkgk" "Bacillus[Organism]" "nr" "blastp" 6
                         (float_of_Z 10) "BLOSUM62" "11 1" "L" 2);
        EPrint "Error: No RID found in the PUT response. Aborting."])%list /\
    fs w' = fs no_handle.
Proof.
  apply (run_blast_missing_rid 10 "msslkgk" "Bacillus[Organism]" "nr" "blastp" 6
           (float_of_Z 10) "BLOSUM62" "11 1" "L" 2 false "files/" no_handle
           "<html>Service unavailable</html>"); reflexivity.
Defined.

(** C4 as stated fails: the page of [no_handle] has no ['RID = '], and
    [run_blast] returns to its caller instead of raising. *)
Lemma run_blast_missing_rid_does_not_raise :
  responses no_handle O = Response None "<html>Service unavailable</html>" /\
  contains "RID = " "<html>Service unavailable</html>" = false /\
  forall e,
    fst (run_blast 10 "msslkgk" "Bacillus[Organism]" "nr" "blastp" 6 (float_of_Z 10)
           "BLOSUM62" "11 1" "L" 2 false "files/" no_handle) <> Raise e.
Proof.
  split; [reflexivity |]. split; [reflexivity |].
  intros e. vm_compute. discriminate.
Qed.

Lemma terminal_status_ready (text : string) :
  (terminal_status text =? "READY")%string = true <->
  contains "Status=FAILED" text = false /\
  contains "Status=UNKNOWN" text = false /\
  contains "Status=READY" text = true.
Proof.
  unfold terminal_status.
  destruct (contains "Status=FAILED" text), (contains "Status=UNKNOWN" text),
    (contains "Status=READY" text); cbn; intuition congruence.
Qed.

(** C5.  A status response carries one status marker (spec, section 6);
    the status checks are tried in the order WAITING, FAILED, UNKNOWN, READY,
    so that on such a response the marker it carries decides.  In both
    flows, at the first status response [text] without [Status=WAITING]:
    - when [text] has [Status=READY] and neither [Status=FAILED] nor
      [Status=UNKNOWN], exactly one more request, the result request, is
      sent, with or without [ThereAreHits=yes]; when that request is answered
      with a payload and the optional export file can be written, the flow
      returns (rid, payload);
    - when [text] has [Status=FAILED] or [Status=UNKNOWN], or has no
      [Status=READY], no result request is sent and the flow returns
      (None, None). *)
Theorem poll_flows_at_terminal_status (flow : nat -> string -> bool -> string ->
                                               M (option string * option string))
    (rid : string) (export : bool) (export_folder : string) (k fuel : nat)
    (w : world) (text : string) :
  flow = run_blast_poll_and_fetch \/ flow = get_blast_results ->
  (forall i, (i < k)%nat -> is_waiting (responses w i) = true) ->
  responses w k = Response None text ->
  contains "Status=WAITING" text = false ->
  (k < fuel)%nat ->
  exists r w',
    flow fuel rid export export_folder w = (r, w') /\
    (contains "Status=FAILED" text = false ->
     contains "Status=UNKNOWN" text = false ->
     contains "Status=READY" text = true ->
     requests_of (trace w') =
       (requests_of (trace w) ++ repeat (status_request rid) (S k)
          ++ [result_request rid])%list /\
     forall payload,
       responses w (S k) = Response None payload ->
       export = false \/
         writable w (export_path export_folder ++ rid ++ "_results.xml") = true ->
       r = Ret (Some rid, Some payload)) /\
    (contains "Status=FAILED" text = true \/
     contains "Status=UNKNOWN" text = true \/
     contains "Status=READY" text = false ->
     requests_of (trace w') =
       (requests_of (trace w) ++ repeat (status_request rid) (S k))%list /\
     r = Ret (None, None)).
Proof.
  intros Hflow Hw Hk Htext Hfuel.
  assert (Hnw : is_waiting (responses w k) = false) by now rewrite Hk.
  destruct (poll_and_fetch_until rid export export_folder k fuel w Hw Hnw Hfuel)
    as (r & w1 & Hrun & Hres).
  rewrite Hk in Hres.
  pose proof (flows_agree fuel rid export export_folder w) as [Hfst Hsame].
  rewrite Hrun in Hfst, Hsame. cbn [fst snd] in Hfst, Hsame.
  destruct (get_blast_results fuel rid export export_folder w) as [r2 w2] eqn:Hrun2.
  cbn [fst snd] in Hfst, Hsame. subst r2.
  assert (Hreq2 : requests_of (trace w2) = requests_of (trace w1)).
  { destruct Hsame as (_ & _ & _ & _ & _ & Hs).
    now rewrite <- (requests_of_silent (trace w2)), <- Hs, requests_of_silent. }
  assert (Hgoal :
    (contains "Status=FAILED" text = false ->
     contains "Status=UNKNOWN" text = false ->
     contains "Status=READY" text = true ->
     requests_of (trace w1) =
       (requests_of (trace w) ++ repeat (status_request rid) (S k)
          ++ [result_request rid])%list /\
     forall payload,
       responses w (S k) = Response None payload ->
       export = false \/
         writable w (export_path export_folder ++ rid ++ "_results.xml") = true ->
       r = Ret (Some rid, Some payload)) /\
    (contains "Status=FAILED" text = true \/
     contains "Status=UNKNOWN" text = true \/
     contains "Status=READY" text = false ->
     requests_of (trace w1) =
       (requests_of (trace w) ++ repeat (status_request rid) (S k))%list /\
     r = Ret (None, None))).
  { destruct (terminal_status text =? "READY")%string eqn:Hst.
    - apply terminal_status_ready in Hst. destruct Hst as (Hf & Hu & Hr).
      split; [| intros [H | [H | H]]; congruence].
      intros _ _ _. destruct Hres as [Hreq Hpay]. split; [exact Hreq |].
      intros payload Hp Hexp. rewrite Hp in Hpay.
      cbv zeta in Hpay.
      destruct Hexp as [He | Hwr]; [subst export; exact Hpay |].
      rewrite Hwr, andb_false_r in Hpay. exact Hpay.
    - split; [| intros _; destruct Hres; now split].
      intros Hf Hu Hr.
      assert (Hst' : (terminal_status text =? "READY")%string = true)
        by now apply terminal_status_ready.
      congruence. }
  destruct Hflow as [-> | ->].
  - exists r, w1. split; [exact Hrun | exact Hgoal].
  - exists r, w2. split; [exact Hrun2 |]. rewrite Hreq2. exact Hgoal.
Qed.

Lemma poll_flows_at_terminal_status_witness :
  exists r w',
    get_blast_results 5 "RID123" false "files/" waits_then_ready = (r, w') /\
    requests_of (trace w') =
      (repeat (status_request "RID123") 3 ++ [result_request "RID123"])%list /\
    r = Ret (Some "RID123", Some "<BlastOutput></BlastOutput>").
Proof.
  destruct (poll_flows_at_terminal_status get_blast_results "RID123" false "files/"
              2 5 waits_then_ready "Status=READY ThereAreHits=no")
    as (r & w' & Hrun & Hready & _).
  - now right.
  - intros [| [| i]] Hi; [reflexivity | reflexivity | lia].
  - reflexivity.
  - reflexivity.
  - lia.
  - exists r, w'. split; [exact Hrun |].
    destruct (Hready eq_refl eq_refl eq_refl) as [Hreq Hpay].
    split; [exact Hreq |].
    apply Hpay; [reflexivity | now left].
Defined.

(** C9: the status loop of [run_blast] sends one status request in each
    iteration; after a response with [Status=WAITING] it sleeps 15 seconds
    and goes on, after any other response it leaves the loop without
    sleeping.  So the loop never ends when every response has
    [Status=WAITING], whatever the fuel, and when the response number [k] is
    the first without it the loop ends there, after [k + 1] requests and [k]
    sleeps. *)
Theorem run_blast_poll_loop_spec (rid : string) (w : world) :
  (forall v, exists r w',
     run_blast_poll rid v w = (r, w') /\
     requests_of (trace w') = (requests_of (trace w) ++ [status_request rid])%list /\
     (forall i, responses w' i = responses w (S i)) /\
     (is_waiting (responses w O) = true ->
      (exists v', r = Ret (v', false)) /\
      sleeps_of (trace w') = (sleeps_of (trace w) ++ [15])%list) /\
     (is_waiting (responses w O) = false ->
      ((exists v', r = Ret (v', true)) \/ exists e, r = Raise e) /\
      sleeps_of (trace w') = sleeps_of (trace w))) /\
  ((forall i, is_waiting (responses w i) = true) ->
   forall fuel, exists w',
     run_blast_poll_loop fuel rid w = (Fuel, w') /\
     requests_of (trace w') =
       (requests_of (trace w) ++ repeat (status_request rid) fuel)%list /\
     sleeps_of (trace w') = (sleeps_of (trace w) ++ repeat 15 fuel)%list) /\
  (forall k,
     (forall i, (i < k)%nat -> is_waiting (responses w i) = true) ->
     is_waiting (responses w k) = false ->
     forall fuel, (k < fuel)%nat ->
     exists r w',
       run_blast_poll_loop fuel rid w = (r, w') /\
       r <> Fuel /\
       requests_of (trace w') =
         (requests_of (trace w) ++ repeat (status_request rid) (S k))%list /\
       sleeps_of (trace w') = (sleeps_of (trace w) ++ repeat 15 k)%list /\
       (forall i, responses w' i = responses w (S k + i)%nat)).
Proof.
  split; [| split].
  - intros v. destruct (is_waiting (responses w O)) eqn:Hw.
    + rewrite (poll_waiting rid v w Hw). eexists _, _. split; [reflexivity |].
      cbn [waiting_round fst snd trace responses]. trace_simpl.
      repeat split; try discriminate; eauto.
    + destruct (poll_not_waiting rid v w Hw)
        as (r & w' & Hrun & Hreq & Hsl & Hresp & _ & _ & Hres).
      exists r, w'. repeat split; try assumption; try discriminate.
      destruct (responses w O) as [e | [e |] text]; eauto.
      destruct Hres as (v' & -> & _). eauto.
  - intros Hw fuel. now apply loop_forever.
  - intros k Hw Hk fuel Hfuel.
    destruct (loop_until rid k fuel poll_start w eq_refl Hw Hk Hfuel)
      as (r & w' & Hrun & Hreq & Hsl & Hresp & _ & _ & Hres).
    exists r, w'. repeat split; try assumption.
    destruct (responses w k) as [e | [e |] text]; try (subst r; discriminate).
    destruct Hres as (v' & -> & _). discriminate.
Qed.

Lemma run_blast_poll_loop_spec_witness :
  (forall fuel, exists w',
     run_blast_poll_loop fuel "RID123" always_waiting = (Fuel, w') /\
     requests_of (trace w') = repeat (status_request "RID123") fuel /\
     sleeps_of (trace w') = repeat 15 fuel) /\
  (exists r w',
     run_blast_poll_loop 5 "RID123" waits_then_ready = (r, w') /\
     r <> Fuel /\
     requests_of (trace w') = repeat (status_request "RID123") 3 /\
     sleeps_of (trace w') = [15; 15] /\
     (forall i, responses w' i = responses waits_then_ready (3 + i)%nat)).
Proof.
  split.
  - apply (proj1 (proj2 (run_blast_poll_loop_spec "RID123" always_waiting))).
    intros i. reflexivity.
  - apply (proj2 (proj2 (run_blast_poll_loop_spec "RID123" waits_then_ready)) 2%nat).
    + intros [| [| i]] Hi; [reflexivity | reflexivity | lia].
    + reflexivity.
    + lia.
Defined.

(** C10: on the same job handle and the same responses of the remote end, the
    stage of [run_blast] that follows the submission and [get_blast_results]
    end the same way, with the same pair or the same exception or both still
    polling, and leave the same world but for what they printed. *)
Theorem poll_and_fetch_stage_equivalent (fuel : nat) (rid : string) (export : bool)
    (export_folder : string) (w : world) :
  fst (run_blast_poll_and_fetch fuel rid export export_folder w) =
  fst (get_blast_results fuel rid export export_folder w) /\
  same_but_prints (snd (run_blast_poll_and_fetch fuel rid export export_folder w))
                  (snd (get_blast_results fuel rid export export_folder w)).
Proof. apply flows_agree. Qed.

(** * Binary64: the arithmetic of the percent identity *)

(** The floats are those of [Floats.SpecFloat]; what follows relates its
    division, multiplication and rounding to the exact quotients. *)






















(** * blast.py: the conversion of a payload to a table *)

(** ** Running the monad backwards *)

Lemma bind_ret_inv {A B} (c : M A) (f : A -> M B) (w w' : world) (b : B) :
  (c ≫= f) w = (Ret b, w') ->
  exists a w1, c w = (Ret a, w1) /\ f a w1 = (Ret b, w').
Proof.
  unfold mbind, M_bind. destruct (c w) as [[a | e |] w1]; intros H; try discriminate.
  now exists a, w1.
Qed.

Lemma dot_text_ret_inv (e : option Element) (w w' : world) (v : pyval) :
  dot_text e w = (Ret v, w') -> w' = w.
Proof. destruct e; unfold dot_text, mret, M_ret, raise; intros H; congruence. Qed.

Lemma call_ret_inv {A} (r : exn + A) (w w' : world) (a : A) :
  call r w = (Ret a, w') -> r = inr a /\ w' = w.
Proof. destruct r; unfold call, mret, M_ret, raise; intros H; split; congruence. Qed.

Lemma int_true_div_ret_inv (a b : Z) (w w' : world) (q : float) :
  int_true_div a b w = (Ret q, w') ->
  b <> 0 /\ q = SFdiv prec emax (exact_float a) (exact_float b) /\ w' = w.
Proof.
  unfold int_true_div. destruct (Z.eqb_spec b 0) as [-> | Hb]; [discriminate |].
  destruct (SFdiv prec emax (exact_float a) (exact_float b));
    unfold mret, M_ret, raise; intros H; try discriminate;
    repeat split; congruence.
Qed.

Lemma percent_identity_ret_inv (identity align_len : Z) (w w' : world) (p : float) :
  percent_identity identity align_len w = (Ret p, w') ->
  align_len <> 0 /\
  p = round2 (SFmul prec emax
                (SFdiv prec emax (exact_float identity) (exact_float align_len))
                (float_of_Z 100)) /\
  w' = w.
Proof.
  unfold percent_identity. intros H.
  apply bind_ret_inv in H. destruct H as (q & w1 & Hq & H).
  apply int_true_div_ret_inv in Hq. destruct Hq as (Hb & -> & ->).
  unfold mret, M_ret in H. repeat split; congruence.
Qed.

(** ** Columns of a table *)

Lemma mem_str_In (k : string) (l : list string) : mem_str k l = true <-> In k l.
Proof.
  unfold mem_str. rewrite existsb_exists. split.
  - intros (x & Hx & He). apply String.eqb_eq in He. now subst.
  - intros H. exists k. split; [exact H | apply String.eqb_refl].
Qed.

Lemma add_keys_fresh (ks : list string) :
  forall seen, List.NoDup (seen ++ ks)%list -> add_keys seen ks = (seen ++ ks)%list.
Proof.
  induction ks as [| k ks IH]; intros seen Hnd; cbn [add_keys].
  - now rewrite app_nil_r.
  - destruct (mem_str k seen) eqn:Hmem.
    + apply mem_str_In in Hmem. apply NoDup_remove_2 in Hnd.
      exfalso. apply Hnd. apply in_or_app. now left.
    + rewrite IH; rewrite <- app_assoc; [reflexivity | exact Hnd].
Qed.

Lemma add_keys_seen (ks : list string) :
  forall seen, (forall k, In k ks -> In k seen) -> add_keys seen ks = seen.
Proof.
  induction ks as [| k ks IH]; intros seen Hin; cbn [add_keys]; [reflexivity |].
  assert (Hmem : mem_str k seen = true) by (apply mem_str_In, Hin; now left).
  rewrite Hmem. apply IH. intros k' Hk'. apply Hin. now right.
Qed.

(** The columns of a table made of dicts that all have the keys [ks]. *)
Lemma all_keys_uniform (ks : list string) (d : dict) (data : list dict) :
  List.NoDup ks ->
  (forall d', In d' (d :: data) -> map fst d' = ks) ->
  all_keys (d :: data) = ks.
Proof.
  intros Hnd Hall. unfold all_keys. cbn [fold_left].
  rewrite (Hall d) by now left.
  rewrite add_keys_fresh by exact Hnd. cbn [List.app].
  assert (Hrest : forall d', In d' data -> map fst d' = ks)
    by (intros d' Hd'; apply Hall; now right).
  clear Hall. induction data as [| d' data IH]; cbn [fold_left]; [reflexivity |].
  rewrite (Hrest d') by now left.
  rewrite add_keys_seen by auto.
  apply IH. intros d'' Hd''. apply Hrest. now right.
Qed.

(** Reading the cells of a row back by the keys of its dict gives the dict. *)
Lemma combine_dict_get (d : dict) :
  List.NoDup (map fst d) ->
  combine (map fst d) (map (fun k => default NaN (dict_get d k)) (map fst d)) = d.
Proof.
  induction d as [| [k v] d IH]; intros Hnd; [reflexivity |].
  cbn [map fst combine dict_get]. rewrite String.eqb_refl. cbn [default].
  f_equal. inversion Hnd as [| ? ? Hk Hnd']; subst.
  rewrite <- (IH Hnd') at 3. f_equal.
  apply map_ext_in. intros k' Hk'.
  destruct (String.eqb_spec k k') as [-> | _]; [contradiction | reflexivity].
Qed.



Section Conversion.

Variable ET_fromstring : string -> exn + Element.
Variable py_int : pyval -> exn + Z.
Variable py_float : pyval -> exn + float.






(** C6, as the code has it: for a payload without a [Hit] element,
    [convert_blast_xml_to_pd] returns, without raising, the table with no
    rows and no columns; the columns of a table are the keys of its rows.
    (The export, when asked for, has to be able to write its file.) *)
Theorem convert_blast_xml_to_pd_no_hits (xml_results rid : string) (export : bool)
    (export_folder : string) (w : world) (root : Element) :
  ET_fromstring xml_results = inr root ->
  findall_desc root "Hit" = [] ->
  export = false \/
    writable w (export_path export_folder ++ rid ++ "_results.csv") = true ->
  exists w',
    convert_blast_xml_to_pd ET_fromstring py_int py_float xml_results rid export
      export_folder w = (Ret {| columns := []; rows := [] |}, w').
Proof.
  intros Hroot Hhits Hexp.
  unfold convert_blast_xml_to_pd, mbind, M_bind. rewrite Hroot. cbn [call].
  unfold mret at 1. unfold M_ret at 1. rewrite Hhits. cbn [for_each].
  unfold mret at 1. unfold M_ret at 1. cbv zeta.
  unfold print, emit, write_file, mret, M_ret, set_fs.
  destruct Hexp as [-> | Hwr]; simpl; [eexists; reflexivity |].
  destruct export; simpl; [rewrite Hwr |]; eexists; reflexivity.
Qed.

End Conversion.

Lemma convert_blast_xml_to_pd_no_hits_witness :
  exists w',
    convert_blast_xml_to_pd parse_no_hits no_int no_float "<BlastOutput/>" "RID123"
      false "files/" no_handle = (Ret {| columns := []; rows := [] |}, w').
Proof.
  apply (convert_blast_xml_to_pd_no_hits parse_no_hits no_int no_float "<BlastOutput/>"
           "RID123" false "files/" no_handle
           (Elem "BlastOutput" None
              [Elem "BlastOutput_program" (Some "blastp") [];
               Elem "BlastOutput_iterations" None
                 [Elem "Iteration" None [Elem "Iteration_hits" None []]]])).
  - reflexivity.
  - reflexivity.
  - now left.
Defined.

(** C6 as stated fails: the table returned for a payload without hits has no
    column at all, not the 21 declared ones. *)
Lemma no_hits_table_has_no_columns :
  exists df,
    fst (convert_blast_xml_to_pd parse_no_hits no_int no_float "<BlastOutput/>" "RID123"
           false "files/" no_handle) = Ret df /\
    rows df = [] /\
    columns df = [] /\
    List.length hit_columns = 21%nat /\
    columns df <> hit_columns.
Proof.
  eexists. split; [reflexivity |]. repeat split. discriminate.
Qed.


(** The same function where rounding matters: 1/3 gives 33.33, 2/3 gives
    66.67, 7/9 gives 77.78, 123/457 gives 26.91, and 1/800, whose percentage
    0.125 lies halfway between two hundredths, gives 0.12. *)
Lemma percent_identity_rounds (w : world) :
  percent_identity 1 3 w = (Ret (S754_finite false 4690780486883082 (-47)), w) /\
  percent_identity 2 3 w = (Ret (S754_finite false 4691484174324859 (-46)), w) /\
  percent_identity 7 9 w = (Ret (S754_finite false 5473280922138706 (-46)), w) /\
  percent_identity 123 457 w = (Ret (S754_finite false 7574491623283753 (-48)), w) /\
  percent_identity 1 800 w = (Ret (S754_finite false 8646911284551352 (-56)), w) /\
  percent_identity 0 90 w = (Ret (S754_zero false), w) /\
  percent_identity 90 90 w = (Ret (S754_finite false 7036874417766400 (-46)), w).
Proof. repeat split. Qed.

(** * ncbi_search.py: the paged fetch *)

Section Paging.

Variable ET_fromstring : string -> exn + Element.

(** A page call sends one request, whatever the remote end answers. *)
Lemma fetch_protein_info_batch_request (ids : list string) (b : Z) (w : world) :
  exists r w',
    fetch_protein_info_batch ET_fromstring ids b w = (r, w') /\
    r <> Fuel /\
    requests_of (trace w') = (requests_of (trace w) ++ [page_request ids b])%list /\
    sleeps_of (trace w') = sleeps_of (trace w).
Proof.
  unfold fetch_protein_info_batch, mbind, M_bind, requests_get_text.
  destruct (responses w O) as [e | [e |] text].
  - eexists _, _. split; [reflexivity |]. cbn [trace]. trace_simpl.
    repeat split; discriminate.
  - eexists _, _. split; [reflexivity |]. cbn [trace]. trace_simpl.
    repeat split; discriminate.
  - destruct (ET_fromstring text) as [e | root]; cbn [call].
    + eexists _, _. split; [reflexivity |]. cbn [trace]. trace_simpl.
      repeat split; discriminate.
    + eexists _, _. split; [reflexivity |]. cbn [trace]. trace_simpl.
      repeat split; discriminate.
Qed.

(** The loop over the pages sends the request of each page, in order, and
    goes on after a page that fails. *)
Lemma fetch_batches_requests (ids : list string) (end_batch : Z) (batches : list Z) :
  forall all_data w,
    exists l w',
      fetch_batches ET_fromstring ids end_batch batches all_data w = (Ret l, w') /\
      requests_of (trace w') =
        (requests_of (trace w) ++ map (page_request ids) batches)%list.
Proof.
  induction batches as [| b batches IH]; intros all_data w; cbn [fetch_batches].
  - exists all_data, w. split; [reflexivity |]. cbn [map]. now rewrite app_nil_r.
  - unfold mbind at 1. unfold M_bind at 1. unfold print at 1. unfold emit at 1.
    unfold mbind at 1. unfold M_bind at 1. unfold try_except at 1.
    unfold mbind at 1. unfold M_bind at 1.
    match goal with
    | |- context [fetch_protein_info_batch ET_fromstring ids b ?w0] =>
        destruct (fetch_protein_info_batch_request ids b w0)
          as (r & w1 & Hrun & Hfuel & Hreq & _);
        rewrite Hrun
    end.
    cbn [trace] in Hreq. rewrite requests_of_app in Hreq. cbn in Hreq.
    rewrite app_nil_r in Hreq.
    destruct r as [df | e |]; [| | contradiction].
    + unfold mbind at 1. unfold M_bind at 1. unfold sleep at 1. unfold emit at 1.
      unfold mret at 1. unfold M_ret at 1.
      match goal with
      | |- context [fetch_batches _ _ _ _ ?a ?w0] =>
          destruct (IH a w0) as (l & w' & Hl & Hreq')
      end.
      exists l, w'. split; [exact Hl |].
      rewrite Hreq'. cbn [trace]. trace_simpl. rewrite Hreq.
      cbn [map]. now rewrite <- app_assoc.
    + unfold mbind at 1. unfold M_bind at 1. unfold print at 1. unfold emit at 1.
      unfold mret at 1. unfold M_ret at 1.
      match goal with
      | |- context [fetch_batches _ _ _ _ ?a ?w0] =>
          destruct (IH a w0) as (l & w' & Hl & Hreq')
      end.
      exists l, w'. split; [exact Hl |].
      rewrite Hreq'. cbn [trace]. trace_simpl. rewrite Hreq.
      cbn [map]. now rewrite <- app_assoc.
Qed.

(** C8: on a list of 30 identifiers, with the default [end_batch],
    [fetch_all_protein_data] sends exactly two page requests, of page size
    25: the first for the identifiers 1 to 25, the second for the
    identifiers 26 to 30 (the indices 25 to 29). *)
Theorem fetch_all_protein_data_thirty (id_list : list string) (w : world) :
  List.length id_list = 30%nat ->
  exists df w',
    fetch_all_protein_data ET_fromstring id_list 1 None w = (Ret df, w') /\
    requests_of (trace w') =
      (requests_of (trace w) ++
       [(EFETCH_URL, efetch_params (join "," (firstn 25 id_list)));
        (EFETCH_URL,
         efetch_params
           (join "," (map (fun i => nth i id_list "") [25; 26; 27; 28; 29]%nat)))])%list /\
    BATCH_SIZE = 25 /\
    List.length (firstn 25 id_list) = 25%nat.
Proof.
  intros Hlen. unfold fetch_all_protein_data. rewrite Hlen.
  change (range 1 ((Z.of_nat 30 + 24) / 25 + 1)) with [1; 2].
  unfold mbind, M_bind.
  destruct (fetch_batches_requests id_list ((Z.of_nat 30 + 24) / 25) [1; 2] [] w)
    as (l & w' & Hrun & Hreq).
  rewrite Hrun.
  assert (Hpages : map (page_request id_list) [1; 2] =
    [(EFETCH_URL, efetch_params (join "," (firstn 25 id_list)));
     (EFETCH_URL,
      efetch_params
        (join "," (map (fun i => nth i id_list "") [25; 26; 27; 28; 29]%nat)))]).
  { do 30 (destruct id_list as [| ? id_list]; [discriminate |]).
    destruct id_list; [| discriminate]. reflexivity. }
  rewrite Hpages in Hreq.
  assert (Hfirst : List.length (firstn 25 id_list) = 25%nat)
    by (rewrite length_firstn; lia).
  destruct l as [| df0 l]; eexists _, _; (split; [reflexivity |]); now repeat split.
Qed.

End Paging.

Lemma fetch_all_protein_data_thirty_witness :
  exists df w',
    fetch_all_protein_data parse_no_hits thirty_ids 1 None no_handle = (Ret df, w') /\
    requests_of (trace w') =
      (requests_of (trace no_handle) ++
       [(EFETCH_URL, efetch_params (join "," (firstn 25 thirty_ids)));
        (EFETCH_URL,
         efetch_params
           (join "," (map (fun i => nth i thirty_ids "") [25; 26; 27; 28; 29]%nat)))])%list /\
    BATCH_SIZE = 25 /\
    List.length (firstn 25 thirty_ids) = 25%nat.
Proof.
  apply (fetch_all_protein_data_thirty parse_no_hits thirty_ids no_handle).
  reflexivity.
Defined.

(** * msa.py: the alignment *)

Lemma for_each_length {A B} (body : A -> M B) (l : list A) :
  forall w ys w',
    for_each l body w = (Ret ys, w') -> List.length ys = List.length l.
Proof.
  induction l as [| x l IH]; intros w ys w' H; cbn [for_each] in H.
  - unfold mret, M_ret in H. now inversion H.
  - apply bind_ret_inv in H. destruct H as (y & w1 & _ & H).
    apply bind_ret_inv in H. destruct H as (ys' & w2 & Hys & H).
    unfold mret, M_ret in H. inversion H; subst. cbn. f_equal. eauto.
Qed.

(** The handler of the alignment step removes both temporary files. *)
Lemma cleanup_removes (temp_fasta_in temp_aln_out : string) (w : world) :
  let h : M (option (list SeqRecord)) :=
    in_exists ← os_path_exists temp_fasta_in;
    (if in_exists : bool then os_remove temp_fasta_in else mret tt);;
    out_exists ← os_path_exists temp_aln_out;
    (if out_exists : bool then os_remove temp_aln_out else mret tt);;
    mret None in
  fst (h w) = Ret None /\
  fs (snd (h w)) !! temp_fasta_in = None /\
  fs (snd (h w)) !! temp_aln_out = None.
Proof.
  cbv zeta. unfold mbind, M_bind, os_path_exists, os_remove, mret, M_ret, set_fs.
  destruct (fs w !! temp_fasta_in) as [c |] eqn:Hin; simpl.
  - rewrite Hin. simpl.
    destruct (delete temp_fasta_in (fs w) !! temp_aln_out) as [c' |] eqn:Hout; simpl.
    + rewrite Hout. simpl. split; [reflexivity |].
      split; [| apply lookup_delete_eq].
      rewrite lookup_delete_None. right. apply lookup_delete_eq.
    + split; [reflexivity |]. split; [apply lookup_delete_eq | exact Hout].
  - destruct (fs w !! temp_aln_out) as [c' |] eqn:Hout; simpl.
    + rewrite Hout. simpl. split; [reflexivity |].
      split; [| apply lookup_delete_eq].
      rewrite lookup_delete_None. now right.
    + now repeat split.
Qed.

(** On a non-zero exit code the alignment step returns at once: it removes
    no file, so the file system is the one the aligner left. *)
Lemma run_clustalo_nonzero_exit (temp_fasta_in temp_aln_out : string) (w : world)
    (returncode : Z) (stderr : string) (fs' : gmap string content) :
  subprocess w (clustalo_cmd temp_fasta_in temp_aln_out) (fs w)
    = Completed returncode stderr fs' ->
  returncode <> 0 ->
  exists w', run_clustalo temp_fasta_in temp_aln_out w = (Ret None, w') /\ fs w' = fs'.
Proof.
  intros Hproc Hrc.
  unfold run_clustalo, try_except, mbind, M_bind, print, emit, subprocess_run, set_fs.
  cbn [subprocess fs trace]. fold (clustalo_cmd temp_fasta_in temp_aln_out).
  rewrite Hproc.
  destruct (Z.eqb_spec returncode 0) as [-> | _]; [contradiction |].
  cbn [negb]. eexists. split; [reflexivity | reflexivity].
Qed.

Lemma try_except_post {A} (c : M A) (h : exn -> M A) (P : world -> Prop) (w : world) :
  (forall e w0, P (snd (h e w0))) ->
  (forall r w', c w = (r, w') -> (forall e, r <> Raise e) -> P w') ->
  P (snd (try_except c h w)).
Proof.
  intros Hh Hc. unfold try_except.
  destruct (c w) as [[a | e |] w'] eqn:Hrun; [| apply Hh |];
    (apply (Hc _ _ eq_refl); intros e; discriminate).
Qed.

(** On the two other ways out of the alignment step, the exit code zero and
    an exception, both temporary files are gone when it returns. *)
Lemma run_clustalo_cleans (temp_fasta_in temp_aln_out : string) (w : world) :
  match subprocess w (clustalo_cmd temp_fasta_in temp_aln_out) (fs w) with
  | Completed returncode _ _ => returncode = 0
  | ProcFails _ => True
  end ->
  fs (snd (run_clustalo temp_fasta_in temp_aln_out w)) !! temp_fasta_in = None /\
  fs (snd (run_clustalo temp_fasta_in temp_aln_out w)) !! temp_aln_out = None.
Proof.
  intros Hproc. unfold run_clustalo.
  apply (try_except_post _ _
           (fun w' => fs w' !! temp_fasta_in = None /\ fs w' !! temp_aln_out = None)).
  - intros e w0. unfold mbind at 1. unfold M_bind at 1. unfold print at 1.
    unfold emit at 1.
    match goal with
    | |- context [fs (snd (?k ?w1))] =>
        destruct (cleanup_removes temp_fasta_in temp_aln_out w1) as (_ & H1 & H2)
    end.
    split; assumption.
  - intros r w'.
    unfold mbind, M_bind, print, emit, subprocess_run, AlignIO_read, os_remove,
      set_fs, mret, M_ret.
    unfold clustalo_cmd in Hproc. simpl.
    destruct (subprocess w _ (fs w)) as [e | returncode stderr fs'].
    { intros H Hnr. inversion H; subst. exact (False_ind _ (Hnr _ eq_refl)). }
    subst returncode. simpl.
    destruct (fs' !! temp_aln_out) as [[s | df | [| r0 rs]] |] eqn:Hout; simpl;
      try (intros H Hnr; inversion H; subst; exact (False_ind _ (Hnr _ eq_refl))).
    destruct (forallb _ rs); simpl;
      [| intros H Hnr; inversion H; subst; exact (False_ind _ (Hnr _ eq_refl))].
    destruct (fs' !! temp_fasta_in) as [c |] eqn:Hin; simpl;
      [| intros H Hnr; inversion H; subst; exact (False_ind _ (Hnr _ eq_refl))].
    destruct (delete temp_fasta_in fs' !! temp_aln_out) as [c' |] eqn:Hout'; simpl;
      [| intros H Hnr; inversion H; subst; exact (False_ind _ (Hnr _ eq_refl))].
    intros H _. inversion H; subst. simpl.
    split; [| apply lookup_delete_eq].
    rewrite lookup_delete_None. right. apply lookup_delete_eq.
Qed.

(** What [perform_msa] writes: when the table is not empty, the query cell
    is a string, the loop over the top hits makes the records [sequences],
    at least two, and the temporary input file can be written, the file
    holds exactly [sequences], the records of the hits, and the alignment
    step runs on it.  The record of the query is in none of this. *)
Lemma perform_msa_writes_hit_records (str_of_float : float -> string) (df : DataFrame)
    (query_id : string) (num_sequences : Z) (w : world) (query_seq : string)
    (sequences : list SeqRecord) :
  let temp_fasta_in := "temp_input_" ++ random_choices w ++ ".fasta" in
  let temp_aln_out := "temp_output_" ++ random_choices w ++ ".fasta" in
  df_empty df = false ->
  cell df (nth 0 (rows df) []) "Query_seq" w = (Ret (VStr query_seq), w) ->
  for_each (rows (head df (Z.max 0 (num_sequences - 1))))
    (hit_record str_of_float (head df (Z.max 0 (num_sequences - 1)))) w
    = (Ret sequences, w) ->
  (2 <= List.length sequences)%nat ->
  writable w temp_fasta_in = true ->
  List.length sequences
    = Nat.min (Z.to_nat (Z.max 0 (num_sequences - 1))) (List.length (rows df)) /\
  exists w1,
    perform_msa str_of_float df query_id num_sequences w
      = run_clustalo temp_fasta_in temp_aln_out w1 /\
    fs w1 = <[temp_fasta_in := Fasta sequences]> (fs w).
Proof.
  intros tin tout Hne Hq Hseq Hlen Hwr. split.
  - rewrite (for_each_length _ _ _ _ _ Hseq). cbn [head rows]. apply length_firstn.
  - unfold perform_msa. rewrite Hne.
    unfold mbind at 1. unfold M_bind at 1. rewrite Hq.
    unfold mbind at 1. unfold M_bind at 1. cbn [Seq]. unfold mret at 1. unfold M_ret at 1.
    cbv zeta. unfold mbind at 1. unfold M_bind at 1. rewrite Hseq.
    destruct (Nat.ltb_spec (List.length sequences) 2) as [Hlt | _]; [lia |].
    unfold mbind, M_bind, print, emit, random_suffix, write_file, set_fs.
    cbn [random_choices writable fs trace]. fold tin. fold tout. rewrite Hwr.
    eexists. split; [reflexivity | reflexivity].
Qed.

(** C1, at the hit table [two_hits] with the default [num_sequences]: the
    list [perform_msa] writes to the temporary input file holds the records
    of the two hits and no record of the query.  The aligner [proc_copies]
    hands the records of the file back as the alignment; after the failing
    aligner [proc_fails] the file is still there to be read.  On the table
    [one_hit] the list has one record, so nothing is written and no
    alignment is made. *)
Theorem perform_msa_omits_query_record :
  fst (perform_msa nan_str two_hits "SPY12701.1" 100 (world_of [] proc_copies))
    = Ret (Some [first_hit_record; second_hit_record]) /\
  fs (snd (perform_msa nan_str two_hits "SPY12701.1" 100 (world_of [] proc_fails)))
    !! "temp_input_a1B2c3D4e5F6.fasta"
    = Some (Fasta [first_hit_record; second_hit_record]) /\
  ~ In (query_record_of "SPY12701.1" "MSSLKGKR") [first_hit_record; second_hit_record] /\
  fst (perform_msa nan_str one_hit "SPY12701.1" 100 (world_of [] proc_copies)) = Ret None /\
  fs (snd (perform_msa nan_str one_hit "SPY12701.1" 100 (world_of [] proc_copies))) = ∅ /\
  prints_of
    (trace (snd (perform_msa nan_str one_hit "SPY12701.1" 100 (world_of [] proc_copies))))
    = ["Error: Only 1 sequence(s) available. Need at least two sequences for alignment."].
Proof.
  split; [vm_compute; reflexivity |].
  split; [vm_compute; reflexivity |].
  split; [intros [H | [H | []]]; discriminate |].
  split; [vm_compute; reflexivity |].
  split; vm_compute; reflexivity.
Qed.

(** C3, at the hit table [two_hits] and an aligner that exits with code 1:
    [perform_msa] returns None and the temporary input file is still on
    disk. *)
Theorem perform_msa_keeps_input_file_on_nonzero_exit :
  fst (perform_msa nan_str two_hits "SPY12701.1" 100 (world_of [] proc_fails)) = Ret None /\
  is_Some (fs (snd (perform_msa nan_str two_hits "SPY12701.1" 100
                      (world_of [] proc_fails)))
             !! "temp_input_a1B2c3D4e5F6.fasta") /\
  prints_of
    (trace (snd (perform_msa nan_str two_hits "SPY12701.1" 100 (world_of [] proc_fails))))
    = ["Prepared 2 sequences (1 Query + 1 Top Hits) for alignment.";
       "Sequences saved to temporary file: temp_input_a1B2c3D4e5F6.fasta";
       "Running: clustalo -i temp_input_a1B2c3D4e5F6.fasta -o temp_output_a1B2c3D4e5F6.fasta --outfmt=fasta --verbose --auto";
       "Clustal Omega failed with error: clustalo: fatal error"].
Proof.
  split; [vm_compute; reflexivity |].
  split; [eexists; vm_compute; reflexivity |].
  vm_compute; reflexivity.
Qed.

(** * Further properties *)

(** ** Lists cut into pages *)

Lemma firstn_plus {A} (a b : nat) (l : list A) :
  firstn (a + b) l = (firstn a l ++ firstn b (skipn a l))%list.
Proof.
  revert l. induction a as [| a IH]; intros l; [reflexivity |].
  destruct l as [| x l]; cbn; [now rewrite firstn_nil | now rewrite IH].
Qed.

Lemma slice_of_nat {A} (l : list A) (x y : nat) :
  (x <= y)%nat ->
  slice l (Z.of_nat x) (Z.of_nat y) = firstn (y - x) (skipn x l).
Proof.
  intros Hxy. unfold slice, slice_bound.
  destruct (Z.ltb_spec (Z.of_nat x) 0) as [? | _]; [lia |].
  destruct (Z.ltb_spec (Z.of_nat y) 0) as [? | _]; [lia |].
  rewrite <- !Nat2Z.inj_min, !Nat2Z.id.
  destruct (Nat.le_gt_cases (List.length l) x) as [Hle | Hlt].
  - rewrite (Nat.min_r x) by exact Hle. rewrite (skipn_all2 l (n := x)) by exact Hle.
    rewrite skipn_all. now rewrite !firstn_nil.
  - rewrite (Nat.min_l x) by lia.
    destruct (Nat.le_gt_cases y (List.length l)) as [Hy | Hy].
    + now rewrite Nat.min_l by exact Hy.
    + rewrite Nat.min_r by lia.
      rewrite !firstn_all2; [reflexivity | |]; rewrite length_skipn; lia.
Qed.

Lemma page_ids_of_nat (ids : list string) (i : nat) :
  page_ids ids (1 + Z.of_nat i) = firstn 25 (skipn (25 * i) ids).
Proof.
  unfold page_ids, BATCH_SIZE.
  replace ((1 + Z.of_nat i - 1) * 25) with (Z.of_nat (25 * i)) by lia.
  replace ((1 + Z.of_nat i) * 25) with (Z.of_nat (25 * i + 25)) by lia.
  rewrite slice_of_nat by lia. f_equal. lia.
Qed.

Lemma pages_concat (ids : list string) (n : nat) :
  concat (map (fun i => firstn 25 (skipn (25 * i) ids)) (seq O n)) = firstn (25 * n) ids.
Proof.
  induction n as [| n IH]; [reflexivity |].
  rewrite seq_S, map_app, concat_app, IH. cbn [map concat Nat.add].
  rewrite app_nil_r. replace (25 * S n)%nat with (25 * n + 25)%nat by lia.
  now rewrite firstn_plus.
Qed.

Lemma range_from_one (n : Z) :
  range 1 (n + 1) = map (fun i => 1 + Z.of_nat i) (seq O (Z.to_nat n)).
Proof. unfold range. do 2 f_equal. lia. Qed.

(** * ncbi_search.py *)

Lemma omap_cons_match {A B} (f : A -> option B) (x : A) (l : list A) :
  omap f (x :: l) = match f x with
                    | Some y => y :: omap f l
                    | None => omap f l
                    end.
Proof. reflexivity. Qed.

Section MorePaging.

Variable ET_fromstring : string -> exn + Element.

(** One page call: one request, no sleep, no file; the table of the page when
    the answer is a readable payload, an exception otherwise. *)
Lemma fetch_protein_info_batch_page (ids : list string) (b : Z) (w : world) :
  exists r w',
    fetch_protein_info_batch ET_fromstring ids b w = (r, w') /\
    requests_of (trace w') = (requests_of (trace w) ++ [page_request ids b])%list /\
    sleeps_of (trace w') = sleeps_of (trace w) /\
    (forall i, responses w' i = responses w (S i)) /\
    fs w' = fs w /\
    match page_table ET_fromstring (responses w O) with
    | Some df => r = Ret df
    | None => exists e, r = Raise e
    end.
Proof.
  unfold fetch_protein_info_batch, page_table, mbind, M_bind, requests_get_text.
  destruct (responses w O) as [e | [e |] text].
  - eexists _, _. split; [reflexivity |]. cbn [trace fs responses]. trace_simpl.
    repeat split. now exists e.
  - eexists _, _. split; [reflexivity |]. cbn [trace fs responses]. trace_simpl.
    repeat split. now exists e.
  - destruct (ET_fromstring text) as [e | root]; cbn [call].
    + eexists _, _. split; [reflexivity |]. cbn [trace fs responses]. trace_simpl.
      repeat split. now exists e.
    + eexists _, _. split; [reflexivity |]. cbn [trace fs responses]. trace_simpl.
      repeat split.
Qed.

(** The loop over the pages: the page number [i] of the loop is answered by
    the response number [i]; the tables of the pages that succeed are
    collected in order, each followed by a sleep of one second, and a page
    that fails is left out. *)
Lemma fetch_batches_total (ids : list string) (end_batch : Z) (batches : list Z) :
  forall all_data w,
    exists w',
      fetch_batches ET_fromstring ids end_batch batches all_data w
        = (Ret (all_data ++
                omap (page_table ET_fromstring)
                  (map (responses w) (seq O (List.length batches))))%list, w') /\
      requests_of (trace w') =
        (requests_of (trace w) ++ map (page_request ids) batches)%list /\
      sleeps_of (trace w') =
        (sleeps_of (trace w) ++
         repeat 1 (List.length
                     (omap (page_table ET_fromstring)
                        (map (responses w) (seq O (List.length batches))))))%list /\
      fs w' = fs w.
Proof.
  induction batches as [| b batches IH]; intros all_data w; cbn [fetch_batches].
  - exists w. cbn. rewrite !app_nil_r. now repeat split.
  - unfold mbind at 1. unfold M_bind at 1. unfold print at 1. unfold emit at 1.
    unfold mbind at 1. unfold M_bind at 1. unfold try_except at 1.
    unfold mbind at 1. unfold M_bind at 1.
    match goal with
    | |- context [fetch_protein_info_batch ET_fromstring ids b ?w0] =>
        destruct (fetch_protein_info_batch_page ids b w0)
          as (r & w1 & Hrun & Hreq & Hsl & Hresp & Hfs & Hres);
        rewrite Hrun
    end.
    cbn [trace responses fs] in Hreq, Hsl, Hresp, Hfs, Hres.
    rewrite requests_of_app in Hreq. rewrite sleeps_of_app in Hsl.
    cbn in Hreq, Hsl. rewrite app_nil_r in Hreq, Hsl.
    cbn [List.length seq map]. rewrite omap_cons_match.
    assert (Hshift : map (responses w) (seq 1 (List.length batches))
                     = map (responses w1) (seq O (List.length batches))).
    { rewrite <- seq_shift, map_map. apply map_ext. intros i. now rewrite Hresp. }
    rewrite Hshift.
    destruct (page_table ET_fromstring (responses w O)) as [df |].
    + subst r.
      unfold mbind at 1. unfold M_bind at 1. unfold sleep at 1. unfold emit at 1.
      unfold mret at 1. unfold M_ret at 1.
      match goal with
      | |- context [fetch_batches _ _ _ _ ?a ?w0] =>
          destruct (IH a w0) as (w' & Hl & Hreq' & Hsl' & Hfs')
      end.
      cbn [responses trace fs] in Hl, Hreq', Hsl', Hfs'.
      exists w'. rewrite Hl, <- app_assoc. split; [reflexivity |].
      rewrite Hreq', Hsl', Hfs'. trace_simpl. rewrite Hreq, Hsl, Hfs.
      cbn [map List.length repeat]. rewrite <- !app_assoc. now repeat split.
    + destruct Hres as (e & ->).
      unfold mbind at 1. unfold M_bind at 1. unfold print at 1. unfold emit at 1.
      unfold mret at 1. unfold M_ret at 1.
      match goal with
      | |- context [fetch_batches _ _ _ _ ?a ?w0] =>
          destruct (IH a w0) as (w' & Hl & Hreq' & Hsl' & Hfs')
      end.
      cbn [responses trace fs] in Hl, Hreq', Hsl', Hfs'.
      exists w'. rewrite Hl. split; [reflexivity |].
      rewrite Hreq', Hsl', Hfs'. trace_simpl. rewrite Hreq, Hsl, Hfs.
      cbn [map]. rewrite <- !app_assoc. now repeat split.
Qed.

(** [fetch_all_protein_data] never raises, whatever the remote end does: it
    sends one request for each page number from [start_batch] to
    [end_batch], the page number [i] being answered by the response number
    [i]; it returns the concatenation, in page order, of the tables of the
    pages that were answered with a readable payload, and the empty table
    when there is none; a page that fails is skipped.  It sleeps one second
    after each page that succeeded, and touches no file. *)
Theorem fetch_all_protein_data_total (ids : list string) (start_batch : Z)
    (end_batch : option Z) (w : world) :
  let last := match end_batch with
              | Some b => b
              | None => (Z.of_nat (List.length ids) + 24) / 25
              end in
  let pages := range start_batch (last + 1) in
  let tables := omap (page_table ET_fromstring)
                  (map (responses w) (seq O (List.length pages))) in
  exists w',
    fetch_all_protein_data ET_fromstring ids start_batch end_batch w
      = (Ret (match tables with
              | [] => {| columns := []; rows := [] |}
              | _ => pd_concat tables
              end), w') /\
    requests_of (trace w') = (requests_of (trace w) ++ map (page_request ids) pages)%list /\
    sleeps_of (trace w') = (sleeps_of (trace w) ++ repeat 1 (List.length tables))%list /\
    fs w' = fs w.
Proof.
  cbv zeta. unfold fetch_all_protein_data.
  set (last := match end_batch with Some b => b | None => _ end).
  destruct (fetch_batches_total ids last (range start_batch (last + 1)) [] w)
    as (w' & Hrun & Hreq & Hsl & Hfs).
  unfold mbind, M_bind. rewrite Hrun. cbn [List.app].
  exists w'. split; [| now repeat split].
  now destruct (omap _ _).
Qed.

(** With the default [end_batch], the pages [fetch_all_protein_data] asks for
    cut the list of identifiers into consecutive pieces: put end to end, in
    the order of the requests, the identifiers of the pages are the list
    itself, and each page has between 1 and 25 identifiers (so an empty
    list gives no request). *)
Theorem fetch_all_protein_data_pages (ids : list string) (w : world) :
  let pages := range 1 ((Z.of_nat (List.length ids) + 24) / 25 + 1) in
  exists df w',
    fetch_all_protein_data ET_fromstring ids 1 None w = (Ret df, w') /\
    requests_of (trace w') =
      (requests_of (trace w) ++
       map (fun b => (EFETCH_URL, efetch_params (join "," (page_ids ids b)))) pages)%list /\
    concat (map (page_ids ids) pages) = ids /\
    Forall (fun b => (1 <= List.length (page_ids ids b) <= 25)%nat) pages.
Proof.
  cbv zeta. unfold fetch_all_protein_data.
  destruct (fetch_batches_total ids ((Z.of_nat (List.length ids) + 24) / 25)
              (range 1 ((Z.of_nat (List.length ids) + 24) / 25 + 1)) [] w)
    as (w' & Hrun & Hreq & _).
  unfold mbind, M_bind. rewrite Hrun. cbn [List.app].
  exists (match omap (page_table ET_fromstring)
                  (map (responses w)
                     (seq O (List.length
                               (range 1 ((Z.of_nat (List.length ids) + 24) / 25 + 1)))))
          with
          | [] => {| columns := []; rows := [] |}
          | tables => pd_concat tables
          end), w'.
  split; [now destruct (omap _ _) |]. split; [exact Hreq |].
  set (n := (Z.of_nat (List.length ids) + 24) / 25).
  assert (Hn : 0 <= n) by (apply Z.div_pos; lia).
  assert (Hdiv : 25 * n <= Z.of_nat (List.length ids) + 24 < 25 * n + 25).
  { unfold n.
    pose proof (Z.div_mod (Z.of_nat (List.length ids) + 24) 25 ltac:(lia)) as Hd.
    pose proof (Z.mod_pos_bound (Z.of_nat (List.length ids) + 24) 25 ltac:(lia)) as Hm.
    lia. }
  rewrite range_from_one.
  split.
  - rewrite map_map.
    rewrite (map_ext _ (fun i => firstn 25 (skipn (25 * i) ids)))
      by (intros i; apply page_ids_of_nat).
    rewrite pages_concat. apply firstn_all2. lia.
  - apply List.Forall_forall. intros b Hb. apply in_map_iff in Hb.
    destruct Hb as (i & <- & Hi). apply in_seq in Hi.
    rewrite page_ids_of_nat, length_firstn, length_skipn. lia.
Qed.

End MorePaging.

(** ** Tables of rows with the same keys *)

Lemma pd_DataFrame_uniform (ks : list string) (d0 : dict) (data : list dict) :
  List.NoDup ks ->
  (forall d, In d (d0 :: data) -> map fst d = ks) ->
  columns (pd_DataFrame (d0 :: data)) = ks /\
  map (row_dict (pd_DataFrame (d0 :: data))) (rows (pd_DataFrame (d0 :: data)))
    = d0 :: data.
Proof.
  intros Hnd Hall. unfold row_dict, pd_DataFrame. cbn [columns rows].
  rewrite (all_keys_uniform ks d0 data Hnd Hall). split; [reflexivity |].
  rewrite map_map. rewrite <- (map_id (d0 :: data)) at 2.
  apply map_ext_in. intros d Hd.
  rewrite <- (Hall d Hd). apply combine_dict_get. rewrite (Hall d Hd). exact Hnd.
Qed.

Lemma gbseq_columns_NoDup : List.NoDup gbseq_columns.
Proof.
  unfold gbseq_columns.
  repeat (constructor; [cbn; intuition discriminate |]). constructor.
Qed.

Section MoreLookup.

Variable ET_fromstring : string -> exn + Element.
Variable py_int : pyval -> exn + Z.
Variable str_of_float : float -> string.

Lemma optional_text_cell_get_text (row : dict) (key : string) (e : Element)
    (tag : string) :
  dict_get row key = Some (get_text e tag) -> optional_text_cell row key e tag.
Proof.
  unfold optional_text_cell, get_text, cell_of_text, of_text. intros H.
  destruct (find_child e tag) as [el |]; [destruct (text_of el) |];
    try exact H; exists VNone; (split; [exact H | now left]).
Qed.

(** A page answered with a readable payload gives a table with one row for
    each [GBSeq] element of the payload, in document order, each under the
    13 columns; a cell holds the text of the sub-field it is read from, and
    a missing value, not an error, when the element has no such sub-field
    or the sub-field has no text. *)
Theorem fetch_protein_info_batch_rows (ids : list string) (b : Z) (w : world)
    (text : string) (root : Element) :
  responses w O = Response None text ->
  ET_fromstring text = inr root ->
  exists df w',
    fetch_protein_info_batch ET_fromstring ids b w = (Ret df, w') /\
    Forall2
      (fun gbseq row =>
         map fst row = gbseq_columns /\
         optional_text_cell row "definition" gbseq "GBSeq_definition" /\
         optional_text_cell row "primary_accession" gbseq "GBSeq_primary-accession" /\
         optional_text_cell row "organism" gbseq "GBSeq_organism" /\
         optional_text_cell row "locus" gbseq "GBSeq_locus" /\
         optional_text_cell row "length" gbseq "GBSeq_length" /\
         optional_text_cell row "moltype" gbseq "GBSeq_moltype" /\
         optional_text_cell row "topology" gbseq "GBSeq_topology" /\
         optional_text_cell row "division" gbseq "GBSeq_division" /\
         optional_text_cell row "update_date" gbseq "GBSeq_update-date" /\
         optional_text_cell row "create_date" gbseq "GBSeq_create-date" /\
         optional_text_cell row "accession_version" gbseq "GBSeq_accession-version" /\
         optional_text_cell row "source" gbseq "GBSeq_source" /\
         optional_text_cell row "taxonomy" gbseq "GBSeq_taxonomy")
      (findall_desc root "GBSeq")
      (map (row_dict df) (rows df)).
Proof.
  intros Hresp Hroot.
  destruct (fetch_protein_info_batch_page ET_fromstring ids b w)
    as (r & w' & Hrun & _ & _ & _ & _ & Hres).
  unfold page_table in Hres. rewrite Hresp, Hroot in Hres. subst r.
  eexists _, w'. split; [exact Hrun |].
  assert (Hrows : map (row_dict (pd_DataFrame (map gbseq_row (findall_desc root "GBSeq"))))
                    (rows (pd_DataFrame (map gbseq_row (findall_desc root "GBSeq"))))
                  = map gbseq_row (findall_desc root "GBSeq")).
  { destruct (findall_desc root "GBSeq") as [| g gs] eqn:Hg; [reflexivity |].
    destruct (pd_DataFrame_uniform gbseq_columns (gbseq_row g) (map gbseq_row gs)
                gbseq_columns_NoDup) as [_ Hrows]; [| exact Hrows].
    intros d Hd. change (gbseq_row g :: map gbseq_row gs)
      with (map gbseq_row (g :: gs)) in Hd.
    apply in_map_iff in Hd. destruct Hd as (x & <- & _). reflexivity. }
  rewrite Hrows. clear Hrun Hrows.
  induction (findall_desc root "GBSeq") as [| g gs IH]; cbn [map];
    [constructor | constructor; [| exact IH]].
  split; [reflexivity |].
  repeat split; apply optional_text_cell_get_text; reflexivity.
Qed.

(** When [search_ncbi_proteins] returns, it has sent one search request for
    the query, the payload it returns is the answer to it, and the number of
    pages it returns is the count of the payload divided by 25 and rounded
    up: that many pages of 25 hold the count, and one page less does not. *)
Theorem search_ncbi_proteins_pages (query : string) (w w' : world) (xml : string)
    (num_batches : Z) :
  search_ncbi_proteins ET_fromstring py_int str_of_float query w
    = (Ret (xml, num_batches), w') ->
  exists root count n,
    responses w O = Response None xml /\
    ET_fromstring xml = inr root /\
    child_text root "Count" = Some count /\
    py_int count = inr n /\
    25 * (num_batches - 1) < n <= 25 * num_batches /\
    requests_of (trace w') =
      (requests_of (trace w) ++
       [(ESEARCH_URL,
         [("db", VStr "protein"); ("term", VStr query); ("retmode", VStr "xml");
          ("retmax", VInt 100000)])])%list.
Proof.
  intros H. unfold search_ncbi_proteins in H.
  apply bind_ret_inv in H. destruct H as (x & w1 & Hget & H).
  apply bind_ret_inv in H. destruct H as (root & w2 & Hroot & H).
  apply call_ret_inv in Hroot. destruct Hroot as [Hroot ->].
  apply bind_ret_inv in H. destruct H as (count & w3 & Hcount & H).
  pose proof (dot_text_ret_inv _ _ _ _ Hcount) as ->.
  apply bind_ret_inv in H. destruct H as (? & w4 & Hp1 & H).
  apply bind_ret_inv in H. destruct H as (n & w5 & Hn & H).
  apply call_ret_inv in Hn. destruct Hn as [Hn ->].
  cbv zeta in H.
  apply bind_ret_inv in H. destruct H as (? & w6 & Hp2 & H).
  apply bind_ret_inv in H. destruct H as (? & w7 & Hp3 & H).
  unfold mret, M_ret in H. inversion H; subst.
  unfold print, emit in Hp1, Hp2, Hp3. inversion Hp1; subst. inversion Hp2; subst.
  inversion Hp3; subst. clear Hp1 Hp2 Hp3 H.
  unfold requests_get_text in Hget.
  destruct (responses w O) as [e | [e |] text]; inversion Hget; subst.
  exists root, count, n.
  split; [reflexivity |]. split; [exact Hroot |].
  split.
  { unfold child_text. unfold dot_text in Hcount.
    destruct (find_child root "Count"); [| discriminate].
    unfold mret, M_ret in Hcount. now inversion Hcount. }
  split; [exact Hn |]. split.
  - pose proof (Z.div_mod (n + 24) 25 ltac:(lia)) as Hd.
    pose proof (Z.mod_pos_bound (n + 24) 25 ltac:(lia)) as Hm. lia.
  - cbn [trace]. trace_simpl. reflexivity.
Qed.

End MoreLookup.

Lemma fetch_protein_info_batch_rows_witness :
  exists df w',
    fetch_protein_info_batch parse_two_records thirty_ids 1 (always_answers "<GBSet/>")
      = (Ret df, w') /\
    Forall2
      (fun gbseq row =>
         map fst row = gbseq_columns /\
         optional_text_cell row "definition" gbseq "GBSeq_definition" /\
         optional_text_cell row "primary_accession" gbseq "GBSeq_primary-accession" /\
         optional_text_cell row "organism" gbseq "GBSeq_organism" /\
         optional_text_cell row "locus" gbseq "GBSeq_locus" /\
         optional_text_cell row "length" gbseq "GBSeq_length" /\
         optional_text_cell row "moltype" gbseq "GBSeq_moltype" /\
         optional_text_cell row "topology" gbseq "GBSeq_topology" /\
         optional_text_cell row "division" gbseq "GBSeq_division" /\
         optional_text_cell row "update_date" gbseq "GBSeq_update-date" /\
         optional_text_cell row "create_date" gbseq "GBSeq_create-date" /\
         optional_text_cell row "accession_version" gbseq "GBSeq_accession-version" /\
         optional_text_cell row "source" gbseq "GBSeq_source" /\
         optional_text_cell row "taxonomy" gbseq "GBSeq_taxonomy")
      (findall_desc two_records_payload "GBSeq")
      (map (row_dict df) (rows df)).
Proof.
  apply (fetch_protein_info_batch_rows parse_two_records thirty_ids 1
           (always_answers "<GBSet/>") "<GBSet/>" two_records_payload);
    reflexivity.
Defined.

Lemma search_ncbi_proteins_pages_witness :
  exists root count n,
    responses (always_answers "<eSearchResult/>") O = Response None "<eSearchResult/>" /\
    parse_count "<eSearchResult/>" = inr root /\
    child_text root "Count" = Some count /\
    digits_int count = inr n /\
    25 * (2 - 1) < n <= 25 * 2 /\
    requests_of
      (trace (snd (search_ncbi_proteins parse_count digits_int nan_str "dipicolinate"
                     (always_answers "<eSearchResult/>")))) =
      (requests_of (trace (always_answers "<eSearchResult/>")) ++
       [(ESEARCH_URL,
         [("db", VStr "protein"); ("term", VStr "dipicolinate"); ("retmode", VStr "xml");
          ("retmax", VInt 100000)])])%list.
Proof.
  apply (search_ncbi_proteins_pages parse_count digits_int nan_str "dipicolinate"
           (always_answers "<eSearchResult/>")
           (snd (search_ncbi_proteins parse_count digits_int nan_str "dipicolinate"
                   (always_answers "<eSearchResult/>")))
           "<eSearchResult/>" 2).
  vm_compute. reflexivity.
Defined.

(** * blast.py: more on the conversion *)

Lemma dot_text_ret_full (e : option Element) (w w' : world) (v : pyval) :
  dot_text e w = (Ret v, w') ->
  w' = w /\ exists el, e = Some el /\ v = of_text (text_of el).
Proof.
  destruct e as [el |]; unfold dot_text, mret, M_ret, raise; intros H;
    inversion H; subst. split; [reflexivity |]. now exists el.
Qed.

Lemma for_each_Forall2 {A B} (body : A -> M B) (l : list A) (w : world) :
  (forall x y w1 w2, body x w1 = (Ret y, w2) -> w2 = w1) ->
  forall ys w',
    for_each l body w = (Ret ys, w') ->
    w' = w /\ Forall2 (fun x y => body x w = (Ret y, w)) l ys.
Proof.
  intros Hpure. induction l as [| x l IH]; intros ys w' H; cbn [for_each] in H.
  - unfold mret, M_ret in H. inversion H; subst. split; constructor.
  - apply bind_ret_inv in H. destruct H as (y & w1 & Hy & H).
    apply bind_ret_inv in H. destruct H as (ys' & w2 & Hys & H).
    pose proof (Hpure _ _ _ _ Hy) as ->.
    destruct (IH _ _ Hys) as [-> Hall].
    unfold mret, M_ret in H. inversion H; subst.
    split; [reflexivity |]. now constructor.
Qed.

(** ** Computations that do not run out of fuel *)

Lemma no_fuel_bind {A B} (c : M A) (f : A -> M B) :
  no_fuel c -> (forall a, no_fuel (f a)) -> no_fuel (c ≫= f).
Proof.
  intros Hc Hf w. unfold mbind, M_bind. specialize (Hc w).
  destruct (c w) as [[a | e |] w1]; cbn [fst] in *;
    [apply Hf | discriminate | contradiction].
Qed.

Lemma no_fuel_ret {A} (a : A) : no_fuel (mret a : M A).
Proof. intros w. discriminate. Qed.

Lemma no_fuel_raise {A} (e : exn) : no_fuel (raise e : M A).
Proof. intros w. discriminate. Qed.

Lemma no_fuel_print (l : string) : no_fuel (print l).
Proof. intros w. discriminate. Qed.

Lemma no_fuel_dot_text (e : option Element) : no_fuel (dot_text e).
Proof. destruct e; intros w; discriminate. Qed.

Lemma no_fuel_call {A} (r : exn + A) : no_fuel (call r).
Proof. destruct r; intros w; discriminate. Qed.

Lemma no_fuel_write_file (path : string) (c : content) : no_fuel (write_file path c).
Proof. intros w. unfold write_file. destruct (writable w path); discriminate. Qed.

Lemma no_fuel_percent_identity (a b : Z) : no_fuel (percent_identity a b).
Proof.
  apply no_fuel_bind; [| intros q; apply no_fuel_ret].
  intros w. unfold int_true_div. destruct (b =? 0); [discriminate |].
  destruct (SFdiv prec emax (exact_float a) (exact_float b)); discriminate.
Qed.

Lemma no_fuel_for_each {A B} (body : A -> M B) (l : list A) :
  (forall x, no_fuel (body x)) -> no_fuel (for_each l body).
Proof.
  intros Hb. induction l as [| x l IH]; cbn [for_each]; [apply no_fuel_ret |].
  apply no_fuel_bind; [apply Hb |]. intros y.
  apply no_fuel_bind; [apply IH |]. intros ys. apply no_fuel_ret.
Qed.

Lemma for_each_raises {A B} (body : A -> M B) (l : list A) (w : world) (x : A) :
  (forall x, no_fuel (body x)) ->
  (forall x y w1 w2, body x w1 = (Ret y, w2) -> w2 = w1) ->
  In x l ->
  (forall y, body x w <> (Ret y, w)) ->
  exists e, fst (for_each l body w) = Raise e.
Proof.
  intros Hnf Hpure Hin Hx.
  destruct (for_each l body w) as [[ys | e |] w'] eqn:Hrun.
  - destruct (for_each_Forall2 body l w Hpure _ _ Hrun) as [_ Hall].
    exfalso. clear Hrun. induction Hall as [| x' y l' ys' Hy Hall IH]; [destruct Hin |].
    destruct Hin as [-> | Hin]; [now apply (Hx y) | now apply IH].
  - now exists e.
  - exfalso. apply (no_fuel_for_each body l Hnf w). now rewrite Hrun.
Qed.

Section MoreConversion.

Variable ET_fromstring : string -> exn + Element.
Variable py_int : pyval -> exn + Z.
Variable py_float : pyval -> exn + float.

Lemma no_fuel_convert_hit (hit : Element) : no_fuel (convert_hit py_int py_float hit).
Proof.
  unfold convert_hit.
  repeat (apply no_fuel_bind; [apply no_fuel_dot_text | intros ?]).
  destruct (find_desc hit "Hsp"); [| apply no_fuel_ret].
  repeat (apply no_fuel_bind; [apply no_fuel_dot_text | intros ?]).
  repeat (apply no_fuel_bind; [apply no_fuel_call | intros ?]).
  apply no_fuel_bind; [apply no_fuel_percent_identity | intros ?].
  apply no_fuel_ret.
Qed.

Ltac field H :=
  apply bind_ret_inv in H;
  let a := fresh "a" in
  let w1 := fresh "w" in
  let Hc := fresh "Hf" in
  let el := fresh "el" in
  destruct H as (a & w1 & Hc & H);
  apply dot_text_ret_full in Hc; destruct Hc as (-> & el & Hc & ->).

Ltac convert H :=
  apply bind_ret_inv in H;
  let a := fresh "a" in
  let w1 := fresh "w" in
  let Hc := fresh "Hc" in
  destruct H as (a & w1 & Hc & H);
  first [ apply call_ret_inv in Hc; destruct Hc as [Hc ->]
        | apply percent_identity_ret_inv in Hc; destruct Hc as (? & ? & ->) ].

(** What a hit has to have for the loop body to return, and the row it
    returns: the five fields of the hit; no row when the hit has no
    alignment; otherwise the fifteen fields of its first alignment, and a row
    whose text cells are the texts of these fields. *)
Lemma convert_hit_ret_full (hit : Element) (w w' : world) (r : option dict) :
  convert_hit py_int py_float hit w = (Ret r, w') ->
  w' = w /\
  (forall t, In t hit_fields -> is_Some (find_child hit t)) /\
  match find_desc hit "Hsp" with
  | None => r = None
  | Some hsp =>
      (forall t, In t hsp_fields -> is_Some (find_child hsp t)) /\
      exists row,
        r = Some row /\
        map fst row = hit_columns /\
        dict_get row "Hit_num" = child_text hit "Hit_num" /\
        dict_get row "Hit_id" = child_text hit "Hit_id" /\
        dict_get row "Hit_def" = child_text hit "Hit_def" /\
        dict_get row "Hit_accession" = child_text hit "Hit_accession" /\
        dict_get row "Hit_len" = child_text hit "Hit_len" /\
        dict_get row "Hsp_num" = child_text hsp "Hsp_num" /\
        dict_get row "E_value" = child_text hsp "Hsp_evalue" /\
        dict_get row "Query_seq" = child_text hsp "Hsp_qseq" /\
        dict_get row "Hit_seq" = child_text hsp "Hsp_hseq" /\
        dict_get row "Midline" = child_text hsp "Hsp_midline"
  end.
Proof.
  intros H. unfold convert_hit in H.
  do 5 field H.
  assert (Hhit : forall t, In t hit_fields -> is_Some (find_child hit t)).
  { intros t Ht. unfold hit_fields in Ht. cbn [In] in Ht.
    repeat (destruct Ht as [<- | Ht]; [eauto |]). destruct Ht. }
  destruct (find_desc hit "Hsp") as [hsp |].
  - do 15 field H. do 13 convert H.
    unfold mret, M_ret in H. inversion H; subst.
    split; [reflexivity |]. split; [exact Hhit |]. split.
    { intros t Ht. unfold hsp_fields in Ht. cbn [In] in Ht.
      repeat (destruct Ht as [<- | Ht]; [eauto |]). destruct Ht. }
    eexists. split; [reflexivity |]. split; [reflexivity |].
    unfold child_text. cbn [dict_get String.eqb Ascii.eqb Bool.eqb].
    repeat match goal with
           | Hf : find_child _ _ = Some _ |- _ => rewrite Hf; clear Hf
           end.
    repeat split.
  - unfold mret, M_ret in H. inversion H; subst. now repeat split.
Qed.

Lemma convert_hit_keeps_world (hit : Element) (r : option dict) (w1 w2 : world) :
  convert_hit py_int py_float hit w1 = (Ret r, w2) -> w2 = w1.
Proof. intros H. now destruct (convert_hit_ret_full _ _ _ _ H). Qed.



(** A field that is not there makes the conversion raise: when some [Hit]
    element of the payload lacks one of its five fields, or its first [Hsp]
    lacks one of its fifteen, no table is returned and no default is put in
    its place. *)
Theorem convert_blast_xml_to_pd_missing_field (xml_results rid : string) (export : bool)
    (export_folder : string) (w : world) (root hit : Element) (t : string) :
  ET_fromstring xml_results = inr root ->
  In hit (findall_desc root "Hit") ->
  (In t hit_fields /\ find_child hit t = None) \/
  (exists hsp, find_desc hit "Hsp" = Some hsp /\ In t hsp_fields /\
               find_child hsp t = None) ->
  exists e,
    fst (convert_blast_xml_to_pd ET_fromstring py_int py_float xml_results rid export
           export_folder w) = Raise e.
Proof.
  intros Hroot Hin Hmiss.
  destruct (for_each_raises (convert_hit py_int py_float) (findall_desc root "Hit") w hit
              no_fuel_convert_hit convert_hit_keeps_world Hin) as (e & He).
  { intros y Hy. apply convert_hit_ret_full in Hy. destruct Hy as (_ & Hhit & Hhsp).
    destruct Hmiss as [[Ht Hnone] | (hsp & Hfind & Ht & Hnone)].
    - destruct (Hhit t Ht) as [el Hel]. congruence.
    - rewrite Hfind in Hhsp. destruct Hhsp as (Hfields & _).
      destruct (Hfields t Ht) as [el Hel]. congruence. }
  exists e. unfold convert_blast_xml_to_pd, mbind, M_bind.
  rewrite Hroot. cbn [call]. unfold mret at 1. unfold M_ret at 1.
  destruct (for_each _ _ w) as [[ys | e' |] w1]; cbn [fst] in *; congruence.
Qed.

Lemma prints_of_app (t u : list event) :
  prints_of (t ++ u) = (prints_of t ++ prints_of u)%list.
Proof. unfold prints_of. apply flat_map_app. Qed.

(** What the conversion does besides returning the table: it sends no
    request and does not sleep; it prints the shape of the table; with
    [export] it writes the table it returns to the file
    [<export_folder>/<rid>_results.csv] and to no other file, without
    [export] it leaves the files as they are. *)
Theorem convert_blast_xml_to_pd_effects (xml_results rid : string) (export : bool)
    (export_folder : string) (w w' : world) (df : DataFrame) :
  convert_blast_xml_to_pd ET_fromstring py_int py_float xml_results rid export
    export_folder w = (Ret df, w') ->
  requests_of (trace w') = requests_of (trace w) /\
  sleeps_of (trace w') = sleeps_of (trace w) /\
  prints_of (trace w') =
    (prints_of (trace w) ++
     shape_line df :: (if export then [saved_line rid] else []))%list /\
  fs w' = (if export then <[csv_path export_folder rid := Csv df]> (fs w) else fs w).
Proof.
  intros H. unfold convert_blast_xml_to_pd in H.
  apply bind_ret_inv in H. destruct H as (root & w1 & Hroot & H).
  apply call_ret_inv in Hroot. destruct Hroot as [Hroot ->].
  apply bind_ret_inv in H. destruct H as (found & w2 & Hfound & H).
  destruct (for_each_Forall2 _ _ _ convert_hit_keeps_world _ _ Hfound) as [-> _].
  cbv zeta in H.
  apply bind_ret_inv in H. destruct H as (? & w3 & Hp & H).
  apply bind_ret_inv in H. destruct H as (? & w4 & He & H).
  unfold mret, M_ret in H. inversion H; subst. clear H.
  unfold print, emit in Hp. inversion Hp; subst. clear Hp.
  destruct export.
  - apply bind_ret_inv in He. destruct He as (? & w5 & Hw & He).
    unfold print, emit in He. inversion He; subst. clear He.
    unfold write_file in Hw. cbn [writable fs] in Hw.
    destruct (writable w _); inversion Hw; subst. clear Hw.
    cbn [trace fs set_fs]. unfold shape. cbn [fst snd].
    rewrite !requests_of_app, !sleeps_of_app, !prints_of_app. cbn.
    rewrite !app_nil_r, <- app_assoc. repeat split.
  - unfold mret, M_ret in He. inversion He; subst. clear He.
    cbn [trace fs]. unfold shape. cbn [fst snd].
    rewrite !requests_of_app, !sleeps_of_app, !prints_of_app. cbn.
    rewrite !app_nil_r. repeat split.
Qed.

End MoreConversion.

(** * blast.py: the flows as a whole *)

(** [run_blast] after a submission that was answered with a job handle: the
    stage that polls and fetches runs on the handle read off the page, and
    an exception of the stage is printed and turned into (None, None). *)
Lemma run_blast_after_submission (fuel : nat) (sequence organism database program : string)
    (word_size : Z) (expect_value : float) (matrix gapcosts filter_string : string)
    (composition_stats : Z) (export : bool) (export_folder : string)
    (w : world) (text_put : string) :
  responses w O = Response None text_put ->
  contains "RID = " text_put = true ->
  run_blast fuel sequence organism database program word_size expect_value matrix
    gapcosts filter_string composition_stats export export_folder w
  = match run_blast_poll_and_fetch fuel (handle_of text_put) export export_folder
            (after_submission
               (params_put sequence organism database program word_size expect_value
                  matrix gapcosts filter_string composition_stats)
               (handle_of text_put) w) with
    | (Raise e, w2) => (print ("Error: " ++ exn_str e);; mret (None, None)) w2
    | r => r
    end.
Proof.
  intros Hresp Hrid. unfold run_blast, try_except.
  unfold mbind at 1. unfold M_bind at 1. unfold requests_get_text at 1.
  rewrite Hresp, Hrid.
  unfold mbind at 1. unfold M_bind at 1. unfold print at 1. unfold emit at 1.
  cbn [trace responses writable subprocess random_choices fs].
  reflexivity.
Qed.

Lemma run_blast_result (fuel : nat) (sequence organism database program : string)
    (word_size : Z) (expect_value : float) (matrix gapcosts filter_string : string)
    (composition_stats : Z) (export : bool) (export_folder : string) (w : world) :
  fst (run_blast fuel sequence organism database program word_size expect_value matrix
         gapcosts filter_string composition_stats export export_folder w) = Fuel \/
  fst (run_blast fuel sequence organism database program word_size expect_value matrix
         gapcosts filter_string composition_stats export export_folder w)
    = Ret (None, None) \/
  exists rid payload,
    fst (run_blast fuel sequence organism database program word_size expect_value matrix
           gapcosts filter_string composition_stats export export_folder w)
      = Ret (Some rid, Some payload).
Proof.
  unfold run_blast, try_except.
  match goal with
  | |- context [match ?c w with _ => _ end] => destruct (c w) as [[p | e |] w1] eqn:Hrun
  end; cbn [fst]; [| right; left; reflexivity | left; reflexivity].
  right.
  apply bind_ret_inv in Hrun. destruct Hrun as (text & w2 & _ & Hrun).
  destruct (contains "RID = " text); [| discriminate].
  apply bind_ret_inv in Hrun. destruct Hrun as (? & w3 & _ & Hrun).
  unfold run_blast_poll_and_fetch in Hrun.
  apply bind_ret_inv in Hrun. destruct Hrun as (v & w4 & _ & Hrun).
  destruct (last_status v =? "READY")%string.
  - apply bind_ret_inv in Hrun. destruct Hrun as (xml & w5 & _ & Hrun).
    apply bind_ret_inv in Hrun. destruct Hrun as (? & w6 & _ & Hrun).
    apply bind_ret_inv in Hrun. destruct Hrun as (? & w7 & _ & Hrun).
    unfold mret, M_ret in Hrun. inversion Hrun; subst. right. eauto.
  - unfold mret, M_ret in Hrun. inversion Hrun; subst. now left.
Qed.

(** [run_blast] raises to its caller only while it builds the submission
    URL, which it does before its [try] block: when [urlencode] raises on the
    submission parameters, the exception reaches the caller, and no request
    has been sent and nothing printed.  Once the URL is built [run_blast]
    does not raise, whatever the remote end and the file system do: what it
    returns is the absent pair (None, None) or a pair of a job handle and a
    payload, never a pair with one half absent. *)
Theorem run_blast_raises_only_before_try (urlencode : dict -> exn + string) (fuel : nat)
    (sequence organism database program : string)
    (word_size : Z) (expect_value : float) (matrix gapcosts filter_string : string)
    (composition_stats : Z) (export : bool) (export_folder : string) (w : world) :
  match urlencode (params_put sequence organism database program word_size expect_value
                     matrix gapcosts filter_string composition_stats) with
  | inl e =>
      run_blast_from_url urlencode fuel sequence organism database program word_size
        expect_value matrix gapcosts filter_string composition_stats export export_folder w
      = (Raise e, w)
  | inr _ =>
      fst (run_blast_from_url urlencode fuel sequence organism database program word_size
             expect_value matrix gapcosts filter_string composition_stats export
             export_folder w) = Fuel \/
      fst (run_blast_from_url urlencode fuel sequence organism database program word_size
             expect_value matrix gapcosts filter_string composition_stats export
             export_folder w) = Ret (None, None) \/
      exists rid payload,
        fst (run_blast_from_url urlencode fuel sequence organism database program
               word_size expect_value matrix gapcosts filter_string composition_stats
               export export_folder w) = Ret (Some rid, Some payload)
  end.
Proof.
  unfold run_blast_from_url, mbind, M_bind.
  destruct (urlencode _) as [e | url]; cbn [call]; [reflexivity |].
  unfold mret at 1. unfold M_ret at 1. apply run_blast_result.
Qed.

(** The stage at a ready job: when the response number [k] is the first
    without [Status=WAITING], reads as READY, and the result request is
    answered with [payload], the stage returns the handle and the payload
    after [k + 1] status requests, [k] sleeps of 15 seconds and one result
    request; with [export] the payload is in the export file, and no other
    file is touched. *)
Lemma stage_ready (rid : string) (export : bool) (export_folder : string)
    (k fuel : nat) (w : world) (text payload : string) :
  (forall i, (i < k)%nat -> is_waiting (responses w i) = true) ->
  responses w k = Response None text ->
  contains "Status=WAITING" text = false ->
  (terminal_status text =? "READY")%string = true ->
  responses w (S k) = Response None payload ->
  export = false \/ writable w (xml_path export_folder rid) = true ->
  (k < fuel)%nat ->
  exists w',
    run_blast_poll_and_fetch fuel rid export export_folder w
      = (Ret (Some rid, Some payload), w') /\
    requests_of (trace w') =
      (requests_of (trace w) ++ repeat (status_request rid) (S k)
         ++ [result_request rid])%list /\
    sleeps_of (trace w') = (sleeps_of (trace w) ++ repeat 15 k)%list /\
    fs w' = (if export then <[xml_path export_folder rid := Text payload]> (fs w)
             else fs w).
Proof.
  intros Hw Hk Htext Hst Hpay Hexp Hfuel.
  assert (Hnw : is_waiting (responses w k) = false) by now rewrite Hk.
  destruct (loop_until rid k fuel poll_start w eq_refl Hw Hnw Hfuel)
    as (r0 & w0 & Hrun & Hreq & Hsl & Hresp & Hfs & Hwr & Hres).
  rewrite Hk in Hres. destruct Hres as (v' & -> & Hlast).
  apply String.eqb_eq in Hst. rewrite Hst in Hlast.
  unfold run_blast_poll_and_fetch. unfold mbind at 1. unfold M_bind at 1.
  change (while fuel _ (run_blast_poll rid) _ w)
    with (while fuel (fun v => negb (is_ready v)) (run_blast_poll rid) poll_start w).
  rewrite Hrun, Hlast. cbn [String.eqb Ascii.eqb Bool.eqb].
  unfold mbind, M_bind, requests_get_text.
  pose proof (Hresp O) as H0. rewrite Nat.add_0_r in H0. rewrite H0, Hpay.
  unfold print, emit, write_file, mret, M_ret, set_fs. unfold xml_path in *.
  destruct export; simpl.
  - destruct Hexp as [? | Hexp]; [discriminate |]. rewrite Hwr, Hexp. simpl.
    eexists. split; [reflexivity |]. cbn [trace fs]. trace_simpl.
    rewrite Hreq, Hsl, Hfs, <- app_assoc. now repeat split.
  - eexists. split; [reflexivity |]. cbn [trace fs]. trace_simpl.
    rewrite Hreq, Hsl, Hfs, <- app_assoc. now repeat split.
Qed.

(** The stage at a failing request: when the first status request that is
    not answered [Status=WAITING] fails with [e], or is answered READY and
    the result request fails with [e], the stage raises [e]. *)
Lemma stage_fails (rid : string) (export : bool) (export_folder : string)
    (k fuel : nat) (w : world) (e : exn) :
  (forall i, (i < k)%nat -> is_waiting (responses w i) = true) ->
  fails_with (responses w k) e \/
  (exists text,
     responses w k = Response None text /\
     contains "Status=WAITING" text = false /\
     (terminal_status text =? "READY")%string = true /\
     fails_with (responses w (S k)) e) ->
  (k < fuel)%nat ->
  fst (run_blast_poll_and_fetch fuel rid export export_folder w) = Raise e.
Proof.
  intros Hw Hfail Hfuel.
  assert (Hnw : is_waiting (responses w k) = false).
  { destruct Hfail as [[H | (t & H)] | (text & H & Htext & _)]; rewrite H; cbn; auto. }
  destruct (poll_and_fetch_until rid export export_folder k fuel w Hw Hnw Hfuel)
    as (r & w' & Hrun & Hres).
  rewrite Hrun. cbn [fst].
  destruct Hfail as [[H | (t & H)] | (text & H & Htext & Hst & Hnext)];
    rewrite H in Hres.
  - now destruct Hres.
  - now destruct Hres.
  - rewrite Hst in Hres. destruct Hres as [_ Hres].
    destruct Hnext as [H' | (t & H')]; rewrite H' in Hres; exact Hres.
Qed.

(** [get_blast_results] lets the exception of a failing request through to
    its caller. *)
Theorem get_blast_results_raises (rid : string) (export : bool) (export_folder : string)
    (k fuel : nat) (w : world) (e : exn) :
  (forall i, (i < k)%nat -> is_waiting (responses w i) = true) ->
  fails_with (responses w k) e \/
  (exists text,
     responses w k = Response None text /\
     contains "Status=WAITING" text = false /\
     (terminal_status text =? "READY")%string = true /\
     fails_with (responses w (S k)) e) ->
  (k < fuel)%nat ->
  fst (get_blast_results fuel rid export export_folder w) = Raise e.
Proof.
  intros Hw Hfail Hfuel.
  destruct (flows_agree fuel rid export export_folder w) as [<- _].
  now apply (stage_fails rid export export_folder k fuel w e).
Qed.

(** [run_blast] on the same failure, after a submission that gave a job
    handle: the exception does not reach the caller; the last thing
    [run_blast] does is to print it, and it returns (None, None). *)
Theorem run_blast_swallows_failure (fuel : nat)
    (sequence organism database program : string)
    (word_size : Z) (expect_value : float) (matrix gapcosts filter_string : string)
    (composition_stats : Z) (export : bool) (export_folder : string)
    (k : nat) (w : world) (text_put : string) (e : exn) :
  responses w O = Response None text_put ->
  contains "RID = " text_put = true ->
  (forall i, (i < k)%nat -> is_waiting (responses w (S i)) = true) ->
  fails_with (responses w (S k)) e \/
  (exists text,
     responses w (S k) = Response None text /\
     contains "Status=WAITING" text = false /\
     (terminal_status text =? "READY")%string = true /\
     fails_with (responses w (S (S k))) e) ->
  (k < fuel)%nat ->
  exists w' t,
    run_blast fuel sequence organism database program word_size expect_value matrix
      gapcosts filter_string composition_stats export export_folder w
    = (Ret (None, None), w') /\
    trace w' = (t ++ [EPrint ("Error: " ++ exn_str e)])%list.
Proof.
  intros Hresp Hrid Hw Hfail Hfuel.
  rewrite (run_blast_after_submission _ _ _ _ _ _ _ _ _ _ _ _ _ w text_put Hresp Hrid).
  match goal with
  | |- context [run_blast_poll_and_fetch fuel ?rid export export_folder ?w1] =>
      pose proof (stage_fails rid export export_folder k fuel w1 e Hw Hfail Hfuel) as Hst;
      destruct (run_blast_poll_and_fetch fuel rid export export_folder w1) as [r w2]
  end.
  cbn [fst] in Hst. subst r.
  eexists _, _. split; reflexivity.
Qed.

(** A whole successful run of [run_blast]: the submission is answered with a
    page that has a job handle, [k] status requests are answered
    [Status=WAITING], the next one READY, and the result request with
    [payload].  The run returns the handle read off the page and the
    payload, after exactly the submission, [k + 1] status requests and one
    result request, in this order, and [k] sleeps of 15 seconds; with
    [export] the payload is in [<export_folder>/<handle>_results.xml]. *)
Theorem run_blast_succeeds (fuel : nat) (sequence organism database program : string)
    (word_size : Z) (expect_value : float) (matrix gapcosts filter_string : string)
    (composition_stats : Z) (export : bool) (export_folder : string)
    (k : nat) (w : world) (text_put text payload : string) :
  responses w O = Response None text_put ->
  contains "RID = " text_put = true ->
  (forall i, (i < k)%nat -> is_waiting (responses w (S i)) = true) ->
  responses w (S k) = Response None text ->
  contains "Status=WAITING" text = false ->
  contains "Status=FAILED" text = false ->
  contains "Status=UNKNOWN" text = false ->
  contains "Status=READY" text = true ->
  responses w (S (S k)) = Response None payload ->
  export = false \/ writable w (xml_path export_folder (handle_of text_put)) = true ->
  (k < fuel)%nat ->
  exists w',
    run_blast fuel sequence organism database program word_size expect_value matrix
      gapcosts filter_string composition_stats export export_folder w
    = (Ret (Some (handle_of text_put), Some payload), w') /\
    requests_of (trace w') =
      (requests_of (trace w) ++
       (BASE_URL, params_put sequence organism database program word_size expect_value
                    matrix gapcosts filter_string composition_stats)
       :: repeat (status_request (handle_of text_put)) (S k)
       ++ [result_request (handle_of text_put)])%list /\
    sleeps_of (trace w') = (sleeps_of (trace w) ++ repeat 15 k)%list /\
    fs w' = (if export
             then <[xml_path export_folder (handle_of text_put) := Text payload]> (fs w)
             else fs w).
Proof.
  intros Hresp Hrid Hw Hk Htext Hf Hu Hr Hpay Hexp Hfuel.
  rewrite (run_blast_after_submission _ _ _ _ _ _ _ _ _ _ _ _ _ w text_put Hresp Hrid).
  assert (Hst : (terminal_status text =? "READY")%string = true)
    by now apply terminal_status_ready.
  match goal with
  | |- context [run_blast_poll_and_fetch fuel ?rid export export_folder ?w1] =>
      destruct (stage_ready rid export export_folder k fuel w1 text payload
                  Hw Hk Htext Hst Hpay Hexp Hfuel)
        as (w' & Hrun & Hreq & Hsl & Hfs)
  end.
  rewrite Hrun. exists w'. split; [reflexivity |].
  rewrite Hreq, Hsl, Hfs. cbn [after_submission trace fs]. trace_simpl.
  rewrite <- app_assoc. now repeat split.
Qed.

(** A successful run of [get_blast_results]: it returns the handle it was
    given and the payload, and with [export] the file
    [<export_folder>/<rid>_results.xml] holds exactly the payload it
    returns; no other file is touched. *)
Theorem get_blast_results_succeeds (rid : string) (export : bool) (export_folder : string)
    (k fuel : nat) (w : world) (text payload : string) :
  (forall i, (i < k)%nat -> is_waiting (responses w i) = true) ->
  responses w k = Response None text ->
  contains "Status=WAITING" text = false ->
  contains "Status=FAILED" text = false ->
  contains "Status=UNKNOWN" text = false ->
  contains "Status=READY" text = true ->
  responses w (S k) = Response None payload ->
  export = false \/ writable w (xml_path export_folder rid) = true ->
  (k < fuel)%nat ->
  exists w',
    get_blast_results fuel rid export export_folder w
      = (Ret (Some rid, Some payload), w') /\
    sleeps_of (trace w') = (sleeps_of (trace w) ++ repeat 15 k)%list /\
    fs w' = (if export then <[xml_path export_folder rid := Text payload]> (fs w)
             else fs w) /\
    forall path, path <> xml_path export_folder rid -> fs w' !! path = fs w !! path.
Proof.
  intros Hw Hk Htext Hf Hu Hr Hpay Hexp Hfuel.
  assert (Hst : (terminal_status text =? "READY")%string = true)
    by now apply terminal_status_ready.
  destruct (stage_ready rid export export_folder k fuel w text payload
              Hw Hk Htext Hst Hpay Hexp Hfuel) as (w1 & Hrun & _ & Hsl & Hfs).
  destruct (flows_agree fuel rid export export_folder w) as [Hfst Hsame].
  rewrite Hrun in Hfst, Hsame. cbn [fst snd] in Hfst, Hsame.
  destruct (get_blast_results fuel rid export export_folder w) as [r2 w2].
  cbn [fst snd] in Hfst, Hsame. subst r2.
  destruct Hsame as (_ & _ & _ & _ & Hfs2 & Hs).
  exists w2. split; [reflexivity |].
  split; [now rewrite <- (sleeps_of_silent (trace w2)), <- Hs, sleeps_of_silent |].
  rewrite <- Hfs2, Hfs. split; [reflexivity |].
  intros path Hpath. destruct export; [| reflexivity].
  now apply lookup_insert_ne.
Qed.

(** * blast.py: reading the job handle off the submission page *)

Lemma append_nil_l (t : string) : "" ++ t = t.
Proof. reflexivity. Qed.

Lemma append_cons (c : ascii) (s t : string) : String c s ++ t = String c (s ++ t).
Proof. reflexivity. Qed.

Lemma append_assoc (s t u : string) : (s ++ t) ++ u = s ++ t ++ u.
Proof.
  induction s as [| c s IH]; rewrite ?append_nil_l, ?append_cons;
    [reflexivity | now f_equal].
Qed.

Lemma append_empty_r (s : string) : s ++ "" = s.
Proof.
  induction s as [| c s IH]; rewrite ?append_nil_l, ?append_cons;
    [reflexivity | now f_equal].
Qed.

Lemma rev_app_append (s : string) :
  forall t, String.rev_app s t = String.rev s ++ t.
Proof.
  unfold String.rev. induction s as [| c s IH]; intros t; cbn [String.rev_app];
    [reflexivity |].
  rewrite (IH (String c t)), (IH (String c "")), append_assoc. reflexivity.
Qed.

Lemma rev_cons (c : ascii) (s : string) : String.rev (String c s) = String.rev s ++ String c "".
Proof. unfold String.rev at 1. cbn [String.rev_app]. apply rev_app_append. Qed.

Lemma prefix_append (s t : string) : String.prefix s (s ++ t) = true.
Proof.
  induction s as [| c s IH]; rewrite ?append_nil_l, ?append_cons; cbn [String.prefix].
  - now destruct t.
  - destruct (ascii_dec c c); [exact IH | contradiction].
Qed.

Lemma contains_prefix (sep s : string) :
  contains sep s = false -> String.prefix sep s = false.
Proof. destruct s; cbn [contains]; intros H; apply orb_false_iff in H; tauto. Qed.

Lemma contains_suffix (sep p1 p2 : string) :
  contains sep (p1 ++ p2) = false -> contains sep p2 = false.
Proof.
  induction p1 as [| c p1 IH]; rewrite ?append_nil_l, ?append_cons; [auto |].
  intros H. cbn [contains] in H. apply orb_false_iff in H. tauto.
Qed.

Lemma split_aux_skip (sep x : string) :
  forall cur rest,
    split_aux sep (String.length x) cur (x ++ rest) = split_aux sep O cur rest.
Proof.
  induction x as [| c x IH]; intros cur rest; rewrite ?append_nil_l, ?append_cons;
    cbn [String.length split_aux]; [reflexivity | apply IH].
Qed.

(** The first piece of a split: the text before the first separator, when no
    separator starts inside it. *)
Lemma split_aux_first (c0 : ascii) (sep' pre rest : string) :
  forall cur,
    (forall p1 p2, pre = p1 ++ p2 -> p2 <> "" ->
       String.prefix (String c0 sep') (p2 ++ String c0 sep' ++ rest) = false) ->
    split_aux (String c0 sep') O cur (pre ++ String c0 sep' ++ rest)
    = (String.rev cur ++ pre) :: split_aux (String c0 sep') O "" rest.
Proof.
  induction pre as [| c pre IH]; intros cur Hno.
  - rewrite append_nil_l, append_empty_r, append_cons. cbn [split_aux].
    rewrite <- append_cons, prefix_append. cbn [String.length Nat.sub].
    rewrite Nat.sub_0_r. now rewrite split_aux_skip.
  - rewrite append_cons. cbn [split_aux]. rewrite <- append_cons.
    rewrite (Hno "" (String c pre)) by (reflexivity || discriminate).
    rewrite IH.
    + rewrite rev_cons, append_assoc. reflexivity.
    + intros p1 p2 Hp Hne. apply (Hno (String c p1) p2); [| exact Hne].
      rewrite append_cons. now rewrite Hp.
Qed.

(** The first piece of a split always starts with what was read so far. *)
Lemma split_aux_head (sep s : string) :
  forall cur, exists x, nth 0 (split_aux sep O cur s) "" = String.rev cur ++ x.
Proof.
  induction s as [| c s IH]; intros cur.
  - exists "". cbn [split_aux nth]. now rewrite append_empty_r.
  - cbn [split_aux]. destruct (String.prefix sep (String c s)).
    + exists "". cbn [nth]. now rewrite append_empty_r.
    + destruct (IH (String c cur)) as (x & ->). exists (String c x).
      rewrite rev_cons, append_assoc. reflexivity.
Qed.

(** No ["RID = "] straddles the end of a text that has none, when what
    follows does not start with one of its later characters. *)
Lemma no_straddle (pre rest : string) (t0 : ascii) :
  t0 <> "I"%char -> t0 <> "D"%char -> t0 <> " "%char -> t0 <> "="%char ->
  contains "RID = " pre = false -> pre <> "" ->
  String.prefix "RID = " (pre ++ String t0 rest) = false.
Proof.
  intros HI HD Hs He Hc Hne. apply contains_prefix in Hc.
  destruct pre as [| c1 p]; [contradiction |].
  rewrite append_cons. cbn [String.prefix] in *.
  destruct (ascii_dec "R" c1) as [<- | _]; [| reflexivity].
  destruct p as [| c2 p]; rewrite ?append_nil_l, ?append_cons; cbn [String.prefix] in *.
  { destruct (ascii_dec "I" t0); [congruence | reflexivity]. }
  destruct (ascii_dec "I" c2) as [<- | _]; [| reflexivity].
  destruct p as [| c3 p]; rewrite ?append_nil_l, ?append_cons; cbn [String.prefix] in *.
  { destruct (ascii_dec "D" t0); [congruence | reflexivity]. }
  destruct (ascii_dec "D" c3) as [<- | _]; [| reflexivity].
  destruct p as [| c4 p]; rewrite ?append_nil_l, ?append_cons; cbn [String.prefix] in *.
  { destruct (ascii_dec " " t0); [congruence | reflexivity]. }
  destruct (ascii_dec " " c4) as [<- | _]; [| reflexivity].
  destruct p as [| c5 p]; rewrite ?append_nil_l, ?append_cons; cbn [String.prefix] in *.
  { destruct (ascii_dec "=" t0); [congruence | reflexivity]. }
  destruct (ascii_dec "=" c5) as [<- | _]; [| reflexivity].
  destruct p as [| c6 p]; rewrite ?append_nil_l, ?append_cons; cbn [String.prefix] in *.
  { destruct (ascii_dec " " t0); [congruence | reflexivity]. }
  destruct (ascii_dec " " c6) as [<- | _]; [| reflexivity].
  now destruct p.
Qed.

Lemma nl_char : nl = String "010"%char "".
Proof. reflexivity. Qed.

(** The piece after ["RID = "] starts with the rest of the line. *)
Lemma split_aux_line (rid post : string) :
  forall cur,
    contains "RID = " rid = false ->
    exists x,
      nth 0 (split_aux "RID = " O cur (rid ++ nl ++ post)) ""
      = String.rev cur ++ rid ++ nl ++ x.
Proof.
  rewrite nl_char. induction rid as [| c rid IH]; intros cur Hc.
  - rewrite append_nil_l, append_cons, append_nil_l. cbn [split_aux String.prefix].
    destruct (ascii_dec "R" "010") as [? | _]; [discriminate |].
    destruct (split_aux_head "RID = " post (String "010" cur)) as (x & ->).
    exists x. rewrite rev_cons, append_assoc. reflexivity.
  - assert (Hno : String.prefix "RID = " (String c rid ++ String "010"%char post) = false).
    { apply no_straddle; try discriminate. exact Hc. }
    rewrite (append_cons "010" "" post), append_nil_l.
    rewrite append_cons in Hno |- *. cbn [split_aux]. rewrite Hno.
    cbn [contains] in Hc. apply orb_false_iff in Hc. destruct Hc as [_ Hc].
    destruct (IH (String c cur) Hc) as (x & Hx).
    rewrite (append_cons "010" "" post), append_nil_l in Hx. rewrite Hx.
    exists x. rewrite rev_cons, append_assoc, !append_cons, append_nil_l. reflexivity.
Qed.

(** The job handle [run_blast] reads off a submission page: for a page that
    has its first ["RID = "] followed by [rid] and the end of the line, the
    handle is [rid] without the white space around it. *)
Theorem handle_of_page (pre rid post : string) :
  contains "RID = " pre = false ->
  contains "RID = " rid = false ->
  contains nl rid = false ->
  contains "RID = " (pre ++ "RID = " ++ rid ++ nl ++ post) = true /\
  handle_of (pre ++ "RID = " ++ rid ++ nl ++ post) = strip rid.
Proof.
  intros Hpre Hrid Hnl. split.
  - clear Hpre. induction pre as [| c pre IH].
    + rewrite append_nil_l, append_cons. cbn [contains].
      rewrite <- append_cons. now rewrite prefix_append.
    + rewrite append_cons. cbn [contains]. rewrite IH. apply orb_true_r.
  - unfold handle_of, split.
    rewrite (split_aux_first "R" "ID = " pre (rid ++ nl ++ post) "").
    2:{ intros p1 p2 Hp Hne. rewrite append_cons.
        apply no_straddle; try discriminate; [| exact Hne].
        apply (contains_suffix _ p1). now rewrite <- Hp. }
    cbn [nth].
    destruct (split_aux_line rid post "" Hrid) as (x & ->).
    change (String.rev "") with "". rewrite append_nil_l.
    rewrite nl_char in *.
    rewrite (split_aux_first "010" "" rid x "").
    + cbn [nth]. change (String.rev "") with "". now rewrite append_nil_l.
    + intros p1 p2 Hp Hne. destruct p2 as [| c p2]; [contradiction |].
      rewrite append_cons. cbn [String.prefix].
      assert (Hc : contains (String "010" "") (String c p2) = false)
        by (apply (contains_suffix _ p1); now rewrite <- Hp).
      apply contains_prefix in Hc. cbn [String.prefix] in Hc.
      destruct (ascii_dec "010" c); [| reflexivity].
      now destruct p2.
Qed.

(** * blast.py: the export folder *)

Lemma endswith_slash (s : string) : endswith (s ++ "/") "/" = true.
Proof.
  induction s as [| c s IH]; rewrite ?append_nil_l, ?append_cons; [reflexivity |].
  cbn [endswith]. rewrite IH. apply orb_true_r.
Qed.

(** The export folder is used with one trailing separator: the path the
    export functions build from a folder always ends with ["/"], and a folder
    given with or without it names the same path. *)
Theorem export_path_normalised (export_folder : string) :
  endswith (export_path export_folder) "/" = true /\
  export_path (export_path export_folder) = export_path export_folder /\
  export_path (export_folder ++ "/") = export_folder ++ "/".
Proof.
  assert (Hfix : forall f, endswith f "/" = true -> export_path f = f).
  { intros f Hf. unfold export_path. now rewrite Hf. }
  assert (Hend : endswith (export_path export_folder) "/" = true).
  { unfold export_path. destruct (endswith export_folder "/") eqn:He; cbn [negb];
      [exact He | apply endswith_slash]. }
  split; [exact Hend |]. split; [now apply Hfix |].
  apply Hfix, endswith_slash.
Qed.

(** * msa.py: more on the alignment *)

Lemma pure_ret {A} (a : A) : pure (mret a : M A).
Proof. now exists (Ret a). Qed.

Lemma pure_raise {A} (e : exn) : pure (raise e : M A).
Proof. now exists (Raise e). Qed.

Lemma pure_bind {A B} (c : M A) (f : A -> M B) :
  pure c -> (forall a, pure (f a)) -> pure (c ≫= f).
Proof.
  intros [r Hc] Hf. destruct r as [a | e |].
  - destruct (Hf a) as [r' Hfa]. exists r'. intros w.
    unfold mbind, M_bind. now rewrite Hc, Hfa.
  - exists (Raise e). intros w. unfold mbind, M_bind. now rewrite Hc.
  - exists Fuel. intros w. unfold mbind, M_bind. now rewrite Hc.
Qed.

Lemma pure_cell (df : DataFrame) (row : list pyval) (key : string) : pure (cell df row key).
Proof. unfold cell. destruct (dict_get _ key); [apply pure_ret | apply pure_raise]. Qed.

Lemma pure_Seq (v : pyval) : pure (Seq v).
Proof. destruct v; first [apply pure_ret | apply pure_raise]. Qed.

Lemma pure_make_SeqRecord (s : string) (id : pyval) (d : string) :
  pure (make_SeqRecord s id d).
Proof. destruct id; first [apply pure_ret | apply pure_raise]. Qed.

Lemma pure_hit_record (str_of_float : float -> string) (df : DataFrame) (row : list pyval) :
  pure (hit_record str_of_float df row).
Proof.
  unfold hit_record.
  apply pure_bind; [apply pure_cell | intros hit_id].
  apply pure_bind; [destruct hit_id; first [apply pure_ret | apply pure_raise] |].
  intros parts.
  apply pure_bind; [destruct (1 <? _); [apply pure_ret | apply pure_cell] |].
  intros seq_id.
  apply pure_bind; [apply pure_cell | intros seq_def].
  apply pure_bind; [apply pure_cell | intros hit_seq].
  apply pure_bind; [apply pure_Seq | intros s].
  apply pure_make_SeqRecord.
Qed.

Lemma pure_for_each {A B} (body : A -> M B) (l : list A) :
  (forall x, pure (body x)) -> pure (for_each l body).
Proof.
  intros Hb. induction l as [| x l IH]; cbn [for_each]; [apply pure_ret |].
  apply pure_bind; [apply Hb | intros y].
  apply pure_bind; [apply IH | intros ys]. apply pure_ret.
Qed.

Lemma perform_msa_few (str_of_float : float -> string) (df : DataFrame)
    (query_id : string) (num_sequences : Z) :
  (List.length (rows df) < 2)%nat \/ num_sequences < 3 ->
  exists (r : result (option (list SeqRecord))) (f : world -> world),
    (forall a, r <> Ret (Some a)) /\
    (forall w, perform_msa str_of_float df query_id num_sequences w = (r, f w)) /\
    (forall w, fs (f w) = fs w) /\
    (forall proc w, f (with_subprocess proc w) = with_subprocess proc (f w)).
Proof.
  intros Hfew. unfold perform_msa.
  destruct (df_empty df).
  { exists (Ret None), (fun w => snd (print "Error: Input DataFrame is empty." w)).
    repeat split; discriminate. }
  destruct (pure_cell df (nth 0 (rows df) []) "Query_seq") as [r1 H1].
  destruct r1 as [q | e |].
  2:{ exists (Raise e), (fun w => w). repeat split; [discriminate |].
      intros w. unfold mbind at 1. unfold M_bind at 1. now rewrite H1. }
  2:{ exists Fuel, (fun w => w). repeat split; [discriminate |].
      intros w. unfold mbind at 1. unfold M_bind at 1. now rewrite H1. }
  destruct (pure_Seq q) as [r2 H2].
  destruct r2 as [s | e |].
  2:{ exists (Raise e), (fun w => w). repeat split; [discriminate |].
      intros w. unfold mbind at 1. unfold M_bind at 1. rewrite H1.
      unfold mbind at 1. unfold M_bind at 1. now rewrite H2. }
  2:{ exists Fuel, (fun w => w). repeat split; [discriminate |].
      intros w. unfold mbind at 1. unfold M_bind at 1. rewrite H1.
      unfold mbind at 1. unfold M_bind at 1. now rewrite H2. }
  destruct (pure_for_each
              (hit_record str_of_float (head df (Z.max 0 (num_sequences - 1))))
              (rows (head df (Z.max 0 (num_sequences - 1))))
              (pure_hit_record str_of_float _)) as [r3 H3].
  destruct r3 as [sequences | e |].
  2:{ exists (Raise e), (fun w => w). repeat split; [discriminate |].
      intros w. unfold mbind at 1. unfold M_bind at 1. rewrite H1.
      unfold mbind at 1. unfold M_bind at 1. rewrite H2. cbv zeta.
      unfold mbind at 1. unfold M_bind at 1. now rewrite H3. }
  2:{ exists Fuel, (fun w => w). repeat split; [discriminate |].
      intros w. unfold mbind at 1. unfold M_bind at 1. rewrite H1.
      unfold mbind at 1. unfold M_bind at 1. rewrite H2. cbv zeta.
      unfold mbind at 1. unfold M_bind at 1. now rewrite H3. }
  assert (Hlen : (List.length sequences < 2)%nat).
  { rewrite (for_each_length _ _ _ _ _ (H3 always_waiting)). cbn [head rows].
    rewrite length_firstn. lia. }
  exists (Ret None),
    (fun w => snd (print ("Error: Only " ++ str_of_nat (List.length sequences)
                          ++ " sequence(s) available. Need at least two sequences for alignment.")
                     w)).
  repeat split; [discriminate |].
  intros w. unfold mbind at 1. unfold M_bind at 1. rewrite H1.
  unfold mbind at 1. unfold M_bind at 1. rewrite H2. cbv zeta.
  unfold mbind at 1. unfold M_bind at 1. rewrite H3.
  destruct (Nat.ltb_spec (List.length sequences) 2) as [_ | ?]; [reflexivity | lia].
Qed.

(** [perform_msa] makes no alignment out of fewer than two hits: when the
    table has fewer than two rows or [num_sequences] is less than 3, it
    returns without an alignment, writes no file, and does not run the
    aligner (what it does is the same whatever the aligner would do). *)
Theorem perform_msa_needs_two_hits (str_of_float : float -> string) (df : DataFrame)
    (query_id : string) (num_sequences : Z) (w : world)
    (proc : list string -> gmap string content -> completed) :
  (List.length (rows df) < 2)%nat \/ num_sequences < 3 ->
  (forall a, fst (perform_msa str_of_float df query_id num_sequences w) <> Ret (Some a)) /\
  fs (snd (perform_msa str_of_float df query_id num_sequences w)) = fs w /\
  perform_msa str_of_float df query_id num_sequences (with_subprocess proc w)
    = (fst (perform_msa str_of_float df query_id num_sequences w),
       with_subprocess proc (snd (perform_msa str_of_float df query_id num_sequences w))).
Proof.
  intros Hfew.
  destruct (perform_msa_few str_of_float df query_id num_sequences Hfew)
    as (r & f & Hr & Hrun & Hfs & Hproc).
  rewrite !Hrun. cbn [fst snd]. rewrite Hproc. repeat split; auto.
Qed.

Lemma try_except_ret_inv {A} (c : M A) (h : exn -> M A) (w w' : world) (x : A) :
  try_except c h w = (Ret x, w') ->
  c w = (Ret x, w') \/ exists e w1, c w = (Raise e, w1) /\ h e w1 = (Ret x, w').
Proof.
  unfold try_except. destruct (c w) as [[a | e |] w1]; intros H;
    [left; exact H | right; eauto | discriminate].
Qed.

(** The alignment [perform_msa] returns is what the aligner wrote: the
    alignment step returns an alignment only when the aligner exits with
    code 0 and leaves, in the temporary output file, at least one record and
    records of one length; the alignment is these records, and both
    temporary files are removed. *)
Theorem run_clustalo_returns_output (temp_fasta_in temp_aln_out : string)
    (w w' : world) (alignment : list SeqRecord) :
  run_clustalo temp_fasta_in temp_aln_out w = (Ret (Some alignment), w') ->
  exists stderr fs',
    subprocess w (clustalo_cmd temp_fasta_in temp_aln_out) (fs w)
      = Completed 0 stderr fs' /\
    fs' !! temp_aln_out = Some (Fasta alignment) /\
    same_lengths alignment = true /\
    is_Some (fs' !! temp_fasta_in) /\
    fs w' = delete temp_aln_out (delete temp_fasta_in fs').
Proof.
  intros H. unfold run_clustalo in H. apply try_except_ret_inv in H.
  destruct H as [H | (e & w1 & _ & H)].
  2:{ exfalso. apply bind_ret_inv in H. destruct H as (? & w2 & _ & H).
      pose proof (cleanup_removes temp_fasta_in temp_aln_out w2) as (Hfst & _).
      cbv zeta in Hfst. rewrite H in Hfst. discriminate. }
  apply bind_ret_inv in H. destruct H as (? & w1 & Hp & H).
  unfold print, emit in Hp. inversion Hp; subst; clear Hp.
  apply bind_ret_inv in H. destruct H as ([returncode stderr] & w2 & Hrun & H).
  unfold subprocess_run in Hrun. cbn [subprocess fs] in Hrun.
  fold (clustalo_cmd temp_fasta_in temp_aln_out) in Hrun.
  destruct (subprocess w (clustalo_cmd temp_fasta_in temp_aln_out) (fs w))
    as [e | rc err fs'] eqn:Hproc; inversion Hrun; subst; clear Hrun.
  destruct (Z.eqb_spec returncode 0) as [-> | Hne]; cbn [negb] in H.
  2:{ apply bind_ret_inv in H. destruct H as (? & w3 & _ & H).
      unfold mret, M_ret in H. discriminate. }
  apply bind_ret_inv in H. destruct H as (? & w3 & Hp & H).
  unfold print, emit in Hp. inversion Hp; subst; clear Hp.
  apply bind_ret_inv in H. destruct H as (a & w4 & Hread & H).
  unfold AlignIO_read, set_fs in Hread. cbn [fs] in Hread.
  destruct (fs' !! temp_aln_out) as [[s | df | [| r rs]] |] eqn:Hout;
    try discriminate.
  destruct (forallb _ rs) eqn:Hlen; inversion Hread; subst; clear Hread.
  apply bind_ret_inv in H. destruct H as (? & w5 & Hrm1 & H).
  unfold os_remove, set_fs in Hrm1. cbn [fs] in Hrm1.
  destruct (fs' !! temp_fasta_in) as [c |] eqn:Hin; inversion Hrm1; subst; clear Hrm1.
  apply bind_ret_inv in H. destruct H as (? & w6 & Hrm2 & H).
  unfold os_remove, set_fs in Hrm2. cbn [fs] in Hrm2.
  destruct (delete temp_fasta_in fs' !! temp_aln_out) as [c' |];
    inversion Hrm2; subst; clear Hrm2.
  apply bind_ret_inv in H. destruct H as (? & w7 & Hp & H).
  unfold print, emit in Hp. inversion Hp; subst; clear Hp.
  unfold mret, M_ret in H. inversion H; subst.
  exists stderr, fs'. repeat split; eauto.
Qed.

(** * The properties at example inputs *)


Lemma convert_blast_xml_to_pd_missing_field_witness :
  exists e,
    fst (convert_blast_xml_to_pd parse_hit_without_def digits_int digits_float
           "<BlastOutput/>" "RID123" false "files/" no_handle) = Raise e.
Proof.
  apply (convert_blast_xml_to_pd_missing_field parse_hit_without_def digits_int
           digits_float "<BlastOutput/>" "RID123" false "files/" no_handle
           hit_without_def_payload hit_without_def "Hit_def").
  - reflexivity.
  - left. reflexivity.
  - left. split; [right; right; left; reflexivity | reflexivity].
Defined.

Lemma convert_blast_xml_to_pd_effects_witness :
  exists df,
    fst (convert_blast_xml_to_pd parse_one_hit digits_int digits_float "<BlastOutput/>"
           "RID123" true "files" no_handle) = Ret df /\
    List.length (rows df) = 1%nat /\
    csv_path "files" "RID123" = "files/RID123_results.csv" /\
    let w' := snd (convert_blast_xml_to_pd parse_one_hit digits_int digits_float
                     "<BlastOutput/>" "RID123" true "files" no_handle) in
    requests_of (trace w') = requests_of (trace no_handle) /\
    sleeps_of (trace w') = sleeps_of (trace no_handle) /\
    prints_of (trace w') =
      (prints_of (trace no_handle) ++ [shape_line df; saved_line "RID123"])%list /\
    fs w' = <[csv_path "files" "RID123" := Csv df]> (fs no_handle).
Proof.
  eexists. split; [vm_compute; reflexivity |]. split; [reflexivity |].
  split; [reflexivity |].
  apply (convert_blast_xml_to_pd_effects parse_one_hit digits_int digits_float
           "<BlastOutput/>" "RID123" true "files" no_handle
           (snd (convert_blast_xml_to_pd parse_one_hit digits_int digits_float
                   "<BlastOutput/>" "RID123" true "files" no_handle))).
  vm_compute. reflexivity.
Defined.

Lemma get_blast_results_raises_witness :
  fst (get_blast_results 5 "RID123" true "files/" waits_then_drops)
    = Raise (Exn "ConnectionError" "connection lost").
Proof.
  apply (get_blast_results_raises "RID123" true "files/" 1 5 waits_then_drops
           (Exn "ConnectionError" "connection lost")).
  - intros [| i] Hi; [reflexivity | lia].
  - left. left. reflexivity.
  - lia.
Defined.

Lemma run_blast_swallows_failure_witness :
  exists w' t,
    run_blast 5 "msslkgk" "Bacillus[Organism]" "nr" "blastp" 6 (float_of_Z 10)
      "BLOSUM62" "11 1" "L" 2 true "files/" submitted_then_drops
    = (Ret (None, None), w') /\
    trace w' = (t ++ [EPrint "Error: connection lost"])%list.
Proof.
  apply (run_blast_swallows_failure 5 "msslkgk" "Bacillus[Organism]" "nr" "blastp" 6
           (float_of_Z 10) "BLOSUM62" "11 1" "L" 2 true "files/" 1 submitted_then_drops
           submission_page (Exn "ConnectionError" "connection lost")).
  - reflexivity.
  - reflexivity.
  - intros [| i] Hi; [reflexivity | lia].
  - left. left. reflexivity.
  - lia.
Defined.

Lemma run_blast_succeeds_witness :
  handle_of submission_page = "ABC123XYZ" /\
  exists w',
    run_blast 5 "msslkgk" "Bacillus[Organism]" "nr" "blastp" 6 (float_of_Z 10)
      "BLOSUM62" "11 1" "L" 2 true "files" submitted_then_ready
    = (Ret (Some (handle_of submission_page), Some "<BlastOutput></BlastOutput>"), w') /\
    requests_of (trace w') =
      (requests_of (trace submitted_then_ready) ++
       (BASE_URL, params_put "msslkgk" "Bacillus[Organism]" "nr" "blastp" 6
                    (float_of_Z 10) "BLOSUM62" "11 1" "L" 2)
       :: repeat (status_request (handle_of submission_page)) 2
       ++ [result_request (handle_of submission_page)])%list /\
    sleeps_of (trace w') = (sleeps_of (trace submitted_then_ready) ++ repeat 15 1)%list /\
    fs w' = <[xml_path "files" (handle_of submission_page)
              := Text "<BlastOutput></BlastOutput>"]> (fs submitted_then_ready).
Proof.
  split; [vm_compute; reflexivity |].
  apply (run_blast_succeeds 5 "msslkgk" "Bacillus[Organism]" "nr" "blastp" 6
           (float_of_Z 10) "BLOSUM62" "11 1" "L" 2 true "files" 1 submitted_then_ready
           submission_page "Status=READY ThereAreHits=yes" "<BlastOutput></BlastOutput>").
  - reflexivity.
  - reflexivity.
  - intros [| i] Hi; [reflexivity | lia].
  - reflexivity.
  - reflexivity.
  - reflexivity.
  - reflexivity.
  - reflexivity.
  - reflexivity.
  - right. reflexivity.
  - lia.
Defined.

Lemma get_blast_results_succeeds_witness :
  exists w',
    get_blast_results 5 "RID123" true "files" waits_then_ready
      = (Ret (Some "RID123", Some "<BlastOutput></BlastOutput>"), w') /\
    sleeps_of (trace w') = (sleeps_of (trace waits_then_ready) ++ repeat 15 2)%list /\
    fs w' = <[xml_path "files" "RID123" := Text "<BlastOutput></BlastOutput>"]>
              (fs waits_then_ready) /\
    forall path, path <> xml_path "files" "RID123" ->
                 fs w' !! path = fs waits_then_ready !! path.
Proof.
  apply (get_blast_results_succeeds "RID123" true "files" 2 5 waits_then_ready
           "Status=READY ThereAreHits=no" "<BlastOutput></BlastOutput>").
  - intros [| [| i]] Hi; [reflexivity | reflexivity | lia].
  - reflexivity.
  - reflexivity.
  - reflexivity.
  - reflexivity.
  - reflexivity.
  - reflexivity.
  - right. reflexivity.
  - lia.
Defined.

Lemma handle_of_page_witness :
  contains "RID = " submission_page = true /\
  handle_of submission_page = strip "ABC123XYZ  ".
Proof.
  apply (handle_of_page ("<!--QBlastInfoBegin" ++ nl ++ "    ") "ABC123XYZ  "
           ("    RTOE = 25" ++ nl ++ "QBlastInfoEnd-->")); reflexivity.
Defined.

Lemma perform_msa_needs_two_hits_witness :
  (forall a, fst (perform_msa nan_str one_hit "SPY12701.1" 100 (world_of [] proc_fails))
             <> Ret (Some a)) /\
  fs (snd (perform_msa nan_str one_hit "SPY12701.1" 100 (world_of [] proc_fails)))
    = fs (world_of [] proc_fails) /\
  perform_msa nan_str one_hit "SPY12701.1" 100
    (with_subprocess proc_copies (world_of [] proc_fails))
    = (fst (perform_msa nan_str one_hit "SPY12701.1" 100 (world_of [] proc_fails)),
       with_subprocess proc_copies
         (snd (perform_msa nan_str one_hit "SPY12701.1" 100 (world_of [] proc_fails)))).
Proof.
  apply (perform_msa_needs_two_hits nan_str one_hit "SPY12701.1" 100
           (world_of [] proc_fails) proc_copies).
  left. vm_compute. lia.
Defined.

Lemma run_clustalo_returns_output_witness :
  exists stderr fs',
    subprocess (with_input_file proc_copies)
      (clustalo_cmd "temp_input_a1B2c3D4e5F6.fasta" "temp_output_a1B2c3D4e5F6.fasta")
      (fs (with_input_file proc_copies)) = Completed 0 stderr fs' /\
    fs' !! "temp_output_a1B2c3D4e5F6.fasta"
      = Some (Fasta [first_hit_record; second_hit_record]) /\
    same_lengths [first_hit_record; second_hit_record] = true /\
    is_Some (fs' !! "temp_input_a1B2c3D4e5F6.fasta") /\
    fs (snd (run_clustalo "temp_input_a1B2c3D4e5F6.fasta" "temp_output_a1B2c3D4e5F6.fasta"
               (with_input_file proc_copies)))
      = delete "temp_output_a1B2c3D4e5F6.fasta" (delete "temp_input_a1B2c3D4e5F6.fasta" fs').
Proof.
  apply (run_clustalo_returns_output "temp_input_a1B2c3D4e5F6.fasta"
           "temp_output_a1B2c3D4e5F6.fasta" (with_input_file proc_copies)
           (snd (run_clustalo "temp_input_a1B2c3D4e5F6.fasta"
                   "temp_output_a1B2c3D4e5F6.fasta" (with_input_file proc_copies)))
           [first_hit_record; second_hit_record]).
  vm_compute. reflexivity.
Defined.

Lemma run_clustalo_cleans_witness :
  fs (snd (run_clustalo "temp_input_a1B2c3D4e5F6.fasta" "temp_output_a1B2c3D4e5F6.fasta"
             (with_input_file proc_silent)))
    !! "temp_input_a1B2c3D4e5F6.fasta" = None /\
  fs (snd (run_clustalo "temp_input_a1B2c3D4e5F6.fasta" "temp_output_a1B2c3D4e5F6.fasta"
             (with_input_file proc_silent)))
    !! "temp_output_a1B2c3D4e5F6.fasta" = None.
Proof.
  apply (run_clustalo_cleans "temp_input_a1B2c3D4e5F6.fasta"
           "temp_output_a1B2c3D4e5F6.fasta" (with_input_file proc_silent)).
  reflexivity.
Defined.

Lemma run_clustalo_nonzero_exit_witness :
  exists w',
    run_clustalo "temp_input_a1B2c3D4e5F6.fasta" "temp_output_a1B2c3D4e5F6.fasta"
      (with_input_file proc_fails) = (Ret None, w') /\
    fs w' = fs (with_input_file proc_fails).
Proof.
  apply (run_clustalo_nonzero_exit "temp_input_a1B2c3D4e5F6.fasta"
           "temp_output_a1B2c3D4e5F6.fasta" (with_input_file proc_fails) 1
           "clustalo: fatal error" (fs (with_input_file proc_fails))).
  - reflexivity.
  - lia.
Defined.

Lemma perform_msa_writes_hit_records_witness :
  List.length [first_hit_record; second_hit_record]
    = Nat.min (Z.to_nat (Z.max 0 (100 - 1))) (List.length (rows two_hits)) /\
  exists w1,
    perform_msa nan_str two_hits "SPY12701.1" 100 (world_of [] proc_copies)
      = run_clustalo "temp_input_a1B2c3D4e5F6.fasta" "temp_output_a1B2c3D4e5F6.fasta" w1 /\
    fs w1 = <["temp_input_a1B2c3D4e5F6.fasta"
              := Fasta [first_hit_record; second_hit_record]]>
              (fs (world_of [] proc_copies)).
Proof.
  apply (perform_msa_writes_hit_records nan_str two_hits "SPY12701.1" 100
           (world_of [] proc_copies) "MSSLKGKR" [first_hit_record; second_hit_record]).
  - reflexivity.
  - vm_compute. reflexivity.
  - vm_compute. reflexivity.
  - simpl. lia.
  - reflexivity.
Defined.

(** * blast.py: the export to FASTA *)

Lemma writes_only_ret {A} (path : string) (a : A) : writes_only path (mret a : M A).
Proof. intros w. repeat split. discriminate. Qed.

Lemma writes_only_raise {A} (path : string) (e : exn) : writes_only path (raise e : M A).
Proof. intros w. repeat split. discriminate. Qed.

Lemma writes_only_print (path line : string) : writes_only path (print line).
Proof.
  intros w. unfold print, emit. cbn [fst snd fs trace].
  split; [discriminate |]. split; [reflexivity |].
  rewrite silent_app. cbn. apply app_nil_r.
Qed.

Lemma writes_only_bind {A B} (path : string) (c : M A) (f : A -> M B) :
  writes_only path c -> (forall a, writes_only path (f a)) -> writes_only path (c ≫= f).
Proof.
  intros Hc Hf w. unfold mbind, M_bind. destruct (Hc w) as (Hfuel & Hfs & Htr).
  destruct (c w) as [[a | e |] w1]; cbn [fst snd] in *;
    [| repeat split; [discriminate | exact Hfs | exact Htr] | contradiction].
  destruct (Hf a w1) as (Hfuel' & Hfs' & Htr').
  split; [exact Hfuel' |]. split; [| now rewrite Htr'].
  intros p Hp. now rewrite Hfs', Hfs.
Qed.

Lemma writes_only_try_except {A} (path : string) (c : M A) (h : exn -> M A) :
  writes_only path c -> (forall e, writes_only path (h e)) ->
  writes_only path (try_except c h).
Proof.
  intros Hc Hh w. unfold try_except. destruct (Hc w) as (Hfuel & Hfs & Htr).
  destruct (c w) as [[a | e |] w1]; cbn [fst snd] in *;
    [repeat split; [discriminate | exact Hfs | exact Htr] | | contradiction].
  destruct (Hh e w1) as (Hfuel' & Hfs' & Htr').
  split; [exact Hfuel' |]. split; [| now rewrite Htr'].
  intros p Hp. now rewrite Hfs', Hfs.
Qed.

Lemma writes_only_open_w (path : string) : writes_only path (open_w path).
Proof.
  intros w. unfold open_w. destruct (writable w path); cbn [fst snd set_fs fs trace];
    (split; [discriminate |]); (split; [| reflexivity]); intros p Hp;
    [now apply lookup_insert_ne | reflexivity].
Qed.

Lemma writes_only_file_write (path s : string) : writes_only path (file_write path s).
Proof.
  intros w. unfold file_write. cbn [fst snd set_fs fs trace].
  split; [discriminate |]. split; [| reflexivity].
  intros p Hp. now apply lookup_insert_ne.
Qed.

Lemma writes_only_column (path : string) (df : DataFrame) (key : string) :
  writes_only path (column df key).
Proof.
  unfold column. destruct (mem_str key (columns df));
    [apply writes_only_ret | apply writes_only_raise].
Qed.

Lemma writes_only_cell (path : string) (df : DataFrame) (row : list pyval) (key : string) :
  writes_only path (cell df row key).
Proof.
  unfold cell. destruct (dict_get _ key); [apply writes_only_ret | apply writes_only_raise].
Qed.

Lemma writes_only_for_each {A B} (path : string) (body : A -> M B) (l : list A) :
  (forall x, writes_only path (body x)) -> writes_only path (for_each l body).
Proof.
  intros Hb. induction l as [| x l IH]; cbn [for_each]; [apply writes_only_ret |].
  apply writes_only_bind; [apply Hb |]. intros y.
  apply writes_only_bind; [apply IH |]. intros ys. apply writes_only_ret.
Qed.

Section MoreExport.

Variable str_of_float : float -> string.
Variable iloc_str : string.

Lemma export_writes_only (rid query_id : string) (df : DataFrame) (export_folder : string) :
  writes_only (fasta_path export_folder rid)
    (export_blast_results_to_fasta str_of_float iloc_str rid query_id df export_folder).
Proof.
  unfold export_blast_results_to_fasta. cbv zeta. fold (fasta_path export_folder rid).
  apply writes_only_try_except.
  - apply writes_only_bind; [apply writes_only_open_w | intros _].
    apply writes_only_bind; [apply writes_only_column | intros _].
    apply writes_only_bind; [apply writes_only_file_write | intros _].
    apply writes_only_bind; [apply writes_only_file_write | intros _].
    apply writes_only_bind; [| intros _].
    { apply writes_only_for_each. intros row.
      apply writes_only_bind; [apply writes_only_cell | intros title].
      apply writes_only_bind; [apply writes_only_cell | intros sequence].
      apply writes_only_bind; [apply writes_only_file_write | intros _].
      apply writes_only_file_write. }
    apply writes_only_bind; [apply writes_only_print | intros _].
    apply writes_only_print.
  - intros e. destruct (String.eqb (exn_type e) "KeyError"); apply writes_only_print.
Qed.

(** [export_blast_results_to_fasta] never raises: whatever the table and the
    file system, it returns None; it changes no file but
    [<export_folder>/<rid>_blast.fasta], sends no request and does not
    sleep. *)
Theorem export_blast_results_to_fasta_never_raises (rid query_id : string)
    (df : DataFrame) (export_folder : string) (w : world) :
  fst (export_blast_results_to_fasta str_of_float iloc_str rid query_id df export_folder w)
    = Ret tt /\
  (forall p, p <> fasta_path export_folder rid ->
     fs (snd (export_blast_results_to_fasta str_of_float iloc_str rid query_id df
                export_folder w)) !! p = fs w !! p) /\
  requests_of (trace (snd (export_blast_results_to_fasta str_of_float iloc_str rid
                             query_id df export_folder w))) = requests_of (trace w) /\
  sleeps_of (trace (snd (export_blast_results_to_fasta str_of_float iloc_str rid
                           query_id df export_folder w))) = sleeps_of (trace w).
Proof.
  destruct (export_writes_only rid query_id df export_folder w) as (Hfuel & Hfs & Htr).
  split; [| split; [exact Hfs |]].
  - revert Hfuel. unfold export_blast_results_to_fasta, try_except.
    match goal with
    | |- context [match ?c w with _ => _ end] => destruct (c w) as [[[] | e |] w1]
    end; cbn [fst]; [reflexivity | | contradiction].
    intros _. now destruct (String.eqb (exn_type e) "KeyError").
  - split.
    + now rewrite <- requests_of_silent, Htr, requests_of_silent.
    + now rewrite <- sleeps_of_silent, Htr, sleeps_of_silent.
Qed.

Lemma file_write_at (path s acc : string) (files : gmap string content) (w : world) :
  file_write path s (set_fs (<[path := Text acc]> files) w)
  = (Ret tt, set_fs (<[path := Text (acc ++ s)]> files) w).
Proof.
  unfold file_write, text_at. cbn [fs set_fs].
  rewrite lookup_insert_eq, insert_insert_eq. reflexivity.
Qed.

(** The loop over the rows appends the two lines of each row to the file. *)
Lemma export_rows (df : DataFrame) (path : string) (files : gmap string content)
    (w : world) (rws : list (list pyval)) (entries : list (string * string)) :
  Forall2
    (fun row entry =>
       dict_get (row_dict df row) "Hit_def" = Some (VStr (fst entry)) /\
       dict_get (row_dict df row) "Hit_seq" = Some (VStr (snd entry)))
    rws entries ->
  forall acc,
    exists ys,
      for_each rws
        (fun row =>
           title ← cell df row "Hit_def";
           sequence ← cell df row "Hit_seq";
           file_write path (">" ++ py_str str_of_float title ++ nl);;
           file_write path (py_str str_of_float sequence ++ nl))
        (set_fs (<[path := Text acc]> files) w)
      = (Ret ys, set_fs (<[path := Text (acc ++ fasta_entries entries)]> files) w).
Proof.
  induction 1 as [| row [title sequence] rws entries [Ht Hs] _ IH]; intros acc;
    cbn [for_each fasta_entries].
  - exists []. now rewrite append_empty_r.
  - cbn [fst snd] in Ht, Hs.
    unfold mbind at 1. unfold M_bind at 1.
    unfold mbind at 1. unfold M_bind at 1. unfold cell at 1. rewrite Ht.
    unfold mret at 1. unfold M_ret at 1.
    unfold mbind at 1. unfold M_bind at 1. unfold cell at 1. rewrite Hs.
    unfold mret at 1. unfold M_ret at 1.
    unfold mbind at 1. unfold M_bind at 1. rewrite file_write_at.
    rewrite file_write_at. cbn [py_str].
    destruct (IH ((acc ++ ">" ++ title ++ nl) ++ sequence ++ nl)) as (ys & Hys).
    unfold mbind at 1. unfold M_bind at 1. rewrite Hys.
    exists (tt :: ys). unfold mret, M_ret.
    replace (((acc ++ ">" ++ title ++ nl) ++ sequence ++ nl) ++ fasta_entries entries)
      with (acc ++ ">" ++ title ++ nl ++ sequence ++ nl ++ fasta_entries entries)
      by now rewrite !append_assoc.
    reflexivity.
Qed.

(** What a successful export writes: on a table that has the column
    [Query_seq] and whose cells [Hit_def] and [Hit_seq] are text, with the
    file writable, the file holds the header line of the query, the text of
    the indexer object in the place of the query sequence, and then the two
    lines of each row, in row order; what the file held before is gone.
    None of it depends on the cells of [Query_seq].  The two lines printed
    name the file and the number of rows. *)
Theorem export_blast_results_to_fasta_file (rid query_id : string) (df : DataFrame)
    (export_folder : string) (w : world) (entries : list (string * string)) :
  writable w (fasta_path export_folder rid) = true ->
  In "Query_seq" (columns df) ->
  Forall2
    (fun row entry =>
       dict_get (row_dict df row) "Hit_def" = Some (VStr (fst entry)) /\
       dict_get (row_dict df row) "Hit_seq" = Some (VStr (snd entry)))
    (rows df) entries ->
  exists w',
    export_blast_results_to_fasta str_of_float iloc_str rid query_id df export_folder w
      = (Ret tt, w') /\
    fs w' = <[fasta_path export_folder rid :=
                Text (">" ++ query_id ++ nl ++ iloc_str ++ nl ++ fasta_entries entries)]>
              (fs w) /\
    prints_of (trace w') =
      (prints_of (trace w) ++
       [exported_line export_folder rid; total_line (List.length entries)])%list.
Proof.
  intros Hwr Hcol Hrows.
  unfold export_blast_results_to_fasta, try_except. cbv zeta.
  fold (fasta_path export_folder rid).
  unfold mbind at 1. unfold M_bind at 1. unfold open_w at 1. rewrite Hwr.
  unfold mbind at 1. unfold M_bind at 1. unfold column at 1.
  assert (Hmem : mem_str "Query_seq" (columns df) = true).
  { unfold mem_str. apply existsb_exists. exists "Query_seq".
    split; [exact Hcol | apply String.eqb_refl]. }
  rewrite Hmem. unfold mret at 1. unfold M_ret at 1.
  unfold mbind at 1. unfold M_bind at 1. rewrite file_write_at.
  unfold mbind at 1. unfold M_bind at 1. rewrite file_write_at.
  unfold mbind at 1. unfold M_bind at 1.
  destruct (export_rows df (fasta_path export_folder rid) (fs w) w (rows df) entries Hrows
              (("" ++ ">" ++ query_id ++ nl) ++ iloc_str ++ nl)) as (ys & ->).
  unfold mbind, M_bind, print, emit. cbn [fst snd set_fs fs trace responses writable
    subprocess random_choices].
  eexists. split; [reflexivity |]. cbn [fs trace].
  split.
  - f_equal. f_equal. now rewrite append_nil_l, !append_assoc.
  - rewrite !prints_of_app. cbn. rewrite <- app_assoc.
    rewrite (Forall2_length _ _ _ Hrows). reflexivity.
Qed.

(** An export that fails on the table still empties the file: on a table
    without the column [Query_seq], with the file writable, the function
    prints that the column is missing and returns, and the file is left
    there empty, whatever it held before. *)
Theorem export_blast_results_to_fasta_missing_column (rid query_id : string)
    (df : DataFrame) (export_folder : string) (w : world) :
  writable w (fasta_path export_folder rid) = true ->
  ~ In "Query_seq" (columns df) ->
  exists w',
    export_blast_results_to_fasta str_of_float iloc_str rid query_id df export_folder w
      = (Ret tt, w') /\
    fs w' = <[fasta_path export_folder rid := Text ""]> (fs w) /\
    prints_of (trace w') =
      (prints_of (trace w) ++
       ["Error: Missing required column in DataFrame: 'Query_seq'"])%list.
Proof.
  intros Hwr Hcol.
  unfold export_blast_results_to_fasta, try_except. cbv zeta.
  fold (fasta_path export_folder rid).
  unfold mbind at 1. unfold M_bind at 1. unfold open_w at 1. rewrite Hwr.
  unfold mbind at 1. unfold M_bind at 1. unfold column at 1.
  assert (Hmem : mem_str "Query_seq" (columns df) = false).
  { unfold mem_str. destruct (existsb _ _) eqn:He; [| reflexivity].
    apply existsb_exists in He. destruct He as (k & Hk & Heq).
    apply String.eqb_eq in Heq. subst k. contradiction. }
  rewrite Hmem. unfold raise at 1. cbn [exn_type String.eqb Ascii.eqb Bool.eqb].
  unfold print, emit. cbn [set_fs fs trace].
  eexists. split; [reflexivity |]. cbn [fs trace].
  split; [reflexivity |]. rewrite prints_of_app. reflexivity.
Qed.

End MoreExport.

(** * ncbi_search.py: one protein *)

Lemma replace_char_no_dot (s : string) : contains "." (replace_char "." "_" s) = false.
Proof.
  induction s as [| c s IH]; [reflexivity |].
  cbn [replace_char contains String.prefix]. rewrite IH, orb_false_r.
  destruct (Ascii.eqb_spec c "."); [reflexivity |].
  destruct (ascii_dec "." c) as [<- |]; [contradiction | reflexivity].
Qed.

(** [fetch_single_protein_info] sends one request, the one a page holding
    only this identifier is fetched with.  A request that fails raises to
    the caller and nothing is written; so does an export file that cannot be
    written.  Otherwise the text of the response is returned, and with
    [export] it is also the content of the export file, in whose name the
    dots of the identifier are underscores. *)
Theorem fetch_single_protein_info_runs (protein_id : string) (export : bool)
    (export_folder : string) (w : world) :
  let run := fetch_single_protein_info protein_id export export_folder w in
  requests_of (trace (snd run)) = (requests_of (trace w) ++ [page_request [protein_id] 1])%list /\
  contains "." (replace_char "." "_" protein_id) = false /\
  match responses w O with
  | NetworkError e | Response (Some e) _ => fst run = Raise e /\ fs (snd run) = fs w
  | Response None text =>
      if export && negb (writable w (protein_path export_folder protein_id))
      then fst run = Raise (Exn "OSError" (protein_path export_folder protein_id)) /\
           fs (snd run) = fs w
      else fst run = Ret text /\
           fs (snd run) =
             (if export
              then <[protein_path export_folder protein_id := Text text]> (fs w)
              else fs w)
  end.
Proof.
  cbv zeta. split; [| split; [apply replace_char_no_dot |]].
  - unfold fetch_single_protein_info, mbind, M_bind, requests_get_text.
    fold (protein_path export_folder protein_id).
    assert (Hreq : forall t : list event,
              requests_of (t ++ [EGet EFETCH_URL (efetch_params protein_id)])
              = (requests_of t ++ [page_request [protein_id] 1])%list)
      by (intros t; now rewrite requests_of_app).
    destruct (responses w O) as [e | [e |] text]; cbn [snd trace]; try apply Hreq.
    destruct export; unfold write_file, mret, M_ret; cbn [writable fs];
      [destruct (writable w (protein_path export_folder protein_id)) |];
      cbn [snd set_fs trace]; apply Hreq.
  - unfold fetch_single_protein_info, mbind, M_bind, requests_get_text.
    fold (protein_path export_folder protein_id).
    destruct (responses w O) as [e | [e |] text]; cbn [fst snd fs]; try (now split).
    destruct export; unfold write_file, mret, M_ret; cbn [writable fs andb negb];
      [destruct (writable w (protein_path export_folder protein_id)) |];
      cbn [negb fst snd fs set_fs]; now split.
Qed.

Lemma export_blast_results_to_fasta_file_witness :
  exists w',
    export_blast_results_to_fasta nan_str example_iloc_str "RID123" "SPY12701.1" two_hits
      "files" no_handle = (Ret tt, w') /\
    fs w' = <[fasta_path "files" "RID123" :=
                Text (">" ++ "SPY12701.1" ++ nl ++ example_iloc_str ++ nl ++
                      fasta_entries [("dipicolinate synthase A", "MSSLKGQR");
                                     ("dipicolinate synthase B", "MSALKGKR")])]>
              (fs no_handle) /\
    prints_of (trace w') =
      (prints_of (trace no_handle) ++
       [exported_line "files" "RID123"; total_line 2])%list.
Proof.
  apply (export_blast_results_to_fasta_file nan_str example_iloc_str "RID123"
           "SPY12701.1" two_hits "files" no_handle
           [("dipicolinate synthase A", "MSSLKGQR");
            ("dipicolinate synthase B", "MSALKGKR")]).
  - reflexivity.
  - vm_compute. tauto.
  - repeat constructor.
Defined.

Lemma export_blast_results_to_fasta_missing_column_witness :
  exists w',
    export_blast_results_to_fasta nan_str example_iloc_str "RID123" "SPY12701.1"
      no_query_column "files" no_handle = (Ret tt, w') /\
    fs w' = <[fasta_path "files" "RID123" := Text ""]> (fs no_handle) /\
    prints_of (trace w') =
      (prints_of (trace no_handle) ++
       ["Error: Missing required column in DataFrame: 'Query_seq'"])%list.
Proof.
  apply (export_blast_results_to_fasta_missing_column nan_str example_iloc_str "RID123"
           "SPY12701.1" no_query_column "files" no_handle).
  - reflexivity.
  - simpl. intros [H | [H | []]]; discriminate.
Defined.
